(** * The standard retriever of the compliance assistant, in Rocq

    A shallow embedding of [src/agents/standard_retriever.py] (class
    [StandardRetrieverAgent]), of the part of [src/agents/base_agent.py]
    it inherits, and of the two places that read its answers (the
    requirements of [src/agents/compliance_checker.py] and the check of a
    selection in [src/agents/agent_coordinator.py]), followed by the
    properties of the retrieval core and of the code around it.

    Conventions of the embedding.
    - A Python [str] is a [string]; a character is a code point below 256.
      The character classes ([str.isspace], [\s], [\d], [str.lower]) are the
      ones Python uses on that range.
    - A Python [float] is a rational number [Q]: the scores are sums and
      products of a handful of decimal constants, and every comparison the
      properties depend on is decided with a wide margin.
    - A Python [set] of strings is a [gset string], a [dict] with a fixed set
      of keys read through [.get(key, default)] is a record of options.
    - An exception is a value: [exc A] is either a result or the message of
      the exception raised.
    - What the class does not own (the embedding model, the ChromaDB
      collection's nearest-neighbour search, PyMuPDF, the file system) is an
      instance of the class [Externals]. *)

From Stdlib Require Import QArith Qminmax ZArith Ascii DecimalString DecimalNat Lia Lqa.
From stdpp Require Import base option list gmap sets strings.

(** ** Python strings *)

Module Py.

Definition in_range (lo hi : N) (c : ascii) : bool :=
  let n := N_of_ascii c in ((lo <=? n) && (n <=? hi))%N.

(** [str.isspace] on one character, which is also the class [\s] of [re]
    for a [str] pattern: TAB..CR, FS..US, SPACE, NEL and NBSP. *)
Definition isspace (c : ascii) : bool :=
  in_range 9 13 c || in_range 28 32 c || in_range 133 133 c || in_range 160 160 c.

(** The class [\d]. *)
Definition isdigit (c : ascii) : bool := in_range 48 57 c.

(** The class [[A-Za-z]]. *)
Definition isalpha (c : ascii) : bool := in_range 65 90 c || in_range 97 122 c.

Definition lower_char (c : ascii) : ascii :=
  if in_range 65 90 c || (in_range 192 222 c && negb (in_range 215 215 c))
  then ascii_of_N (N_of_ascii c + 32) else c.

(** Upper case of one character. The three characters below 256 whose upper
    case lies outside that range (181, 223, 255) are left as they are; the
    program only capitalises words matched by an ASCII keyword. *)
Definition upper_char (c : ascii) : ascii :=
  if in_range 97 122 c || (in_range 224 254 c && negb (in_range 247 247 c))
  then ascii_of_N (N_of_ascii c - 32) else c.

(** [s.lower()] *)
Fixpoint lower (s : string) : string :=
  match s with
  | EmptyString => EmptyString
  | String c s' => String (lower_char c) (lower s')
  end.

(** [s.capitalize()] *)
Definition capitalize (s : string) : string :=
  match s with
  | EmptyString => EmptyString
  | String c s' => String (upper_char c) (lower s')
  end.

Definition is_empty (s : string) : bool :=
  match s with EmptyString => true | String _ _ => false end.

(** [s.lstrip()], [s.rstrip()] and [s.strip()] *)
Fixpoint lstrip (s : string) : string :=
  match s with
  | EmptyString => EmptyString
  | String c s' => if isspace c then lstrip s' else s
  end.

Fixpoint rstrip (s : string) : string :=
  match s with
  | EmptyString => EmptyString
  | String c s' =>
      let r := rstrip s' in
      if isspace c && is_empty r then EmptyString else String c r
  end.

Definition strip (s : string) : string := rstrip (lstrip s).

(** [s.split()]: the maximal runs of characters that are not white space.
    The auxiliary function returns the word that starts at the head of [s]
    (empty when [s] starts with white space) and the words after it. *)
Fixpoint split_aux (s : string) : string * list string :=
  match s with
  | EmptyString => (EmptyString, [])
  | String c s' =>
      let '(w, ws) := split_aux s' in
      if isspace c then (EmptyString, if is_empty w then ws else w :: ws)
      else (String c w, ws)
  end.

Definition split (s : string) : list string :=
  let '(w, ws) := split_aux s in if is_empty w then ws else w :: ws.

(** [s.split(sep)] for a separator that is not empty: [skip] counts the
    characters of a separator occurrence that are still to be dropped. *)
Fixpoint split_sep_aux (sep : string) (skip : nat) (s : string)
  : string * list string :=
  match s with
  | EmptyString => (EmptyString, [])
  | String c s' =>
      match skip with
      | S k => split_sep_aux sep k s'
      | O =>
          if String.prefix sep s
          then let '(w, ws) := split_sep_aux sep (String.length sep - 1) s' in
               (EmptyString, w :: ws)
          else let '(w, ws) := split_sep_aux sep 0 s' in (String c w, ws)
      end
  end.

Definition split_sep (sep s : string) : list string :=
  let '(w, ws) := split_sep_aux sep 0 s in w :: ws.

(** [sep.join(l)] *)
Fixpoint join (sep : string) (l : list string) : string :=
  match l with
  | [] => EmptyString
  | [x] => x
  | x :: l' => x +:+ sep +:+ join sep l'
  end.

(** [s.replace(old, new)] for [old] not empty. *)
Definition replace (old new s : string) : string := join new (split_sep old s).

(** [sub in s] *)
Fixpoint contains (sub s : string) : bool :=
  String.prefix sub s ||
  match s with
  | EmptyString => false
  | String _ s' => contains sub s'
  end.

Definition startswith (p s : string) : bool := String.prefix p s.

(** [s.endswith(p)] *)
Fixpoint endswith (p s : string) : bool :=
  String.eqb p s ||
  match s with
  | EmptyString => false
  | String _ s' => endswith p s'
  end.

(** [s[:n]] for [n >= 0] *)
Fixpoint take (n : nat) (s : string) : string :=
  match n, s with
  | S k, String c s' => String c (take k s')
  | _, _ => EmptyString
  end.

(** [str(n)] for a natural number and for an integer. *)
Definition str_of_nat (n : nat) : string := NilEmpty.string_of_uint (Nat.to_uint n).
Definition str_of_Z (z : Z) : string := NilEmpty.string_of_int (Z.to_int z).

(** [x in l] for a list of strings. *)
Definition mem (x : string) (l : list string) : bool :=
  existsb (String.eqb x) l.

(** [l[:k]] for an integer [k]: a negative [k] counts from the end. *)
Definition slice_to {A} (k : Z) (l : list A) : list A :=
  if (0 <=? k)%Z then firstn (Z.to_nat k) l
  else firstn (length l - Z.to_nat (- k)) l.

(** [min(a, b)] of two numbers: [a] unless [b < a]. *)
Definition min (a b : Q) : Q := if Qle_bool a b then a else b.

End Py.

(** ** The fragment of Python's [re] the program uses

    A backtracking matcher in continuation-passing style: alternatives are
    tried from left to right, a greedy repetition tries one more iteration
    before it tries to stop, a lazy one the other way round. This is the
    order in which [re] explores matches, so [match_at] returns the match
    that [re] returns. *)

Module Re.

Inductive regex : Type :=
| Chr (p : ascii -> bool)          (* one character of a class *)
| Eps                              (* the empty pattern *)
| Seq (r1 r2 : regex)
| Alt (r1 r2 : regex)              (* [r1|r2] *)
| Star (greedy : bool) (r : regex) (* [r*] and [r*?] *)
| Group (i : nat) (r : regex)      (* capturing group number [i] *)
| Backref (i : nat).               (* [\i] *)

(** Captured groups, the most recent capture first. *)
Definition caps : Type := list (nat * string).

Fixpoint group (c : caps) (i : nat) : string :=
  match c with
  | [] => EmptyString
  | (j, s) :: c' => if Nat.eqb i j then s else group c' i
  end.

(** The part of [s] in front of its suffix [rest]. *)
Definition consumed (s rest : string) : string :=
  Py.take (String.length s - String.length rest) s.

Fixpoint strip_prefix (p s : string) : option string :=
  match p, s with
  | EmptyString, _ => Some s
  | String a p', String b s' => if Ascii.eqb a b then strip_prefix p' s' else None
  | String _ _, EmptyString => None
  end.

Section Matcher.
Context {R : Type}.

(** The loop of a repetition whose body is matched by [body]: at most [n]
    more iterations, then the continuation [k]. A greedy repetition tries
    one more iteration first, a lazy one tries to stop first. An
    iteration that consumes nothing is not repeated. *)
Fixpoint star_loop (body : string -> caps -> (string -> caps -> option R) -> option R)
         (g : bool) (k : string -> caps -> option R)
         (n : nat) (s : string) (c : caps) {struct n} : option R :=
  let again :=
    match n with
    | O => None
    | S n' =>
        body s c (fun s1 c1 =>
          if String.length s1 <? String.length s
          then star_loop body g k n' s1 c1 else None)
    end in
  if g
  then match again with Some x => Some x | None => k s c end
  else match k s c with Some x => Some x | None => again end.

(** [mt r s c k]: match [r] at the head of [s] with the captures [c] and
    hand the rest of the input to the continuation [k]; [None] makes the
    matcher backtrack. A repetition on [s] runs at most [String.length s]
    times, since every iteration consumes a character. *)
Fixpoint mt (r : regex) (s : string) (c : caps)
         (k : string -> caps -> option R) {struct r} : option R :=
  match r with
  | Chr p =>
      match s with
      | String a s' => if p a then k s' c else None
      | EmptyString => None
      end
  | Eps => k s c
  | Seq r1 r2 => mt r1 s c (fun s1 c1 => mt r2 s1 c1 k)
  | Alt r1 r2 =>
      match mt r1 s c k with
      | Some x => Some x
      | None => mt r2 s c k
      end
  | Star g r' => star_loop (mt r') g k (String.length s) s c
  | Group i r' => mt r' s c (fun s1 c1 => k s1 ((i, consumed s s1) :: c1))
  | Backref i =>
      match strip_prefix (group c i) s with
      | Some s1 => k s1 c
      | None => None
      end
  end.
End Matcher.

(** The match of [r] that starts at the head of [s]: the rest of the input
    and the groups. *)
Definition match_at (r : regex) (s : string) : option (string * caps) :=
  mt r s [] (fun s1 c1 => Some (s1, c1)).

(** [re.search(r, s)]: the leftmost match; only the groups are used. *)
Fixpoint search (r : regex) (s : string) : option caps :=
  match match_at r s with
  | Some (_, c) => Some c
  | None =>
      match s with
      | EmptyString => None
      | String _ s' => search r s'
      end
  end.

(** A replacement string: literal text and group references [\i]. *)
Definition template : Type := list (string + nat).

Fixpoint expand (t : template) (c : caps) : string :=
  match t with
  | [] => EmptyString
  | inl s :: t' => s +:+ expand t' c
  | inr i :: t' => group c i +:+ expand t' c
  end.

(** [re.sub(r, t, s)]: the matches are replaced from left to right and do
    not overlap; [skip] counts the characters of the current match that are
    still to be dropped. An empty match is replaced and the character after
    it is copied. *)
Fixpoint sub_aux (r : regex) (t : template) (skip : nat) (s : string) : string :=
  match s with
  | EmptyString =>
      match skip with
      | O => match match_at r EmptyString with
             | Some (_, c) => expand t c
             | None => EmptyString
             end
      | S _ => EmptyString
      end
  | String a s' =>
      match skip with
      | S k => sub_aux r t k s'
      | O =>
          match match_at r s with
          | Some (rest, c) =>
              match String.length s - String.length rest with
              | O => expand t c +:+ String a (sub_aux r t 0 s')
              | S k => expand t c +:+ sub_aux r t k s'
              end
          | None => String a (sub_aux r t 0 s')
          end
      end
  end.

Definition sub (r : regex) (t : template) (s : string) : string :=
  sub_aux r t 0 s.

(** Pattern syntax. *)
Definition plus (g : bool) (r : regex) : regex := Seq r (Star g r).  (* [r+] *)
Definition opt (r : regex) : regex := Alt r Eps.                    (* [r?] *)

Definition chr (a : ascii) : regex := Chr (Ascii.eqb a).
(** A literal character under [re.IGNORECASE]. *)
Definition chr_i (a : ascii) : regex :=
  Chr (fun b => Ascii.eqb (Py.lower_char a) (Py.lower_char b)).

Fixpoint lit (s : string) : regex :=
  match s with
  | EmptyString => Eps
  | String a s' => Seq (chr a) (lit s')
  end.

Fixpoint lit_i (s : string) : regex :=
  match s with
  | EmptyString => Eps
  | String a s' => Seq (chr_i a) (lit_i s')
  end.

Definition nl : ascii := ascii_of_N 10.

Definition space : regex := Chr Py.isspace.                           (* [\s] *)
Definition nonspace : regex := Chr (fun a => negb (Py.isspace a)).    (* [\S] *)
Definition digit : regex := Chr Py.isdigit.                           (* [\d] *)
Definition letter : regex := Chr Py.isalpha.                          (* [[A-Za-z]] *)
Definition dot : regex := Chr (fun a => negb (Ascii.eqb a nl)).       (* [.] *)

End Re.

(** ** Exceptions *)

Inductive exc (A : Type) : Type :=
| Ok (a : A)
| Raise (e : string).
Arguments Ok {A} a.
Arguments Raise {A} e.

(** ** The data of the retriever *)

(** An entry of [self.standards_mapping]. The entry that
    [load_standards_from_directory] makes up for a file it does not know has
    no ['files'] and no ['category']; they are never read there. *)
Record StandardInfo : Type := {
  files : list string;
  category : string;
  info_full_name : string;
  jurisdiction : string;
  focus_areas : list string }.

(** [self.standards_mapping], in the order of the dict literal. *)
Definition standards_mapping : list (string * StandardInfo) :=
  [ ("GDPR", {| files := ["GDPR.pdf"]; category := "Global";
       info_full_name := "General Data Protection Regulation";
       jurisdiction := "European Union";
       focus_areas := ["data protection"; "privacy rights"; "consent"; "data processing"] |});
    ("NIST", {| files := ["NIST.pdf"]; category := "Global";
       info_full_name := "NIST Cybersecurity Framework";
       jurisdiction := "United States";
       focus_areas := ["cybersecurity"; "risk management"; "security controls"; "incident response"] |});
    ("UU_PDP", {| files := ["UU_PDP.pdf"]; category := "Nasional";
       info_full_name := "Undang-Undang Perlindungan Data Pribadi";
       jurisdiction := "Indonesia";
       focus_areas := ["data pribadi"; "perlindungan data"; "hak subjek data"; "pengolahan data"] |});
    ("POJK", {| files := ["POJK.pdf"]; category := "Nasional";
       info_full_name := "Peraturan OJK Perlindungan Konsumen";
       jurisdiction := "Indonesia";
       focus_areas := ["perlindungan konsumen"; "layanan keuangan"; "transparansi"; "keluhan konsumen"] |});
    ("BSSN", {| files := ["BSSN_A.pdf"; "BSSN_B.pdf"; "BSSN_C.pdf"]; category := "Nasional";
       info_full_name := "Peraturan BSSN Keamanan Siber";
       jurisdiction := "Indonesia";
       focus_areas := ["keamanan siber"; "sistem elektronik"; "insiden siber"; "audit keamanan"] |}) ].

(** [self.standards_mapping.get(k)] *)
Fixpoint mapping_get (k : string) (m : list (string * StandardInfo)) : option StandardInfo :=
  match m with
  | [] => None
  | (k', v) :: m' => if String.eqb k k' then Some v else mapping_get k m'
  end.

(** The metadata dict of a chunk. Every key is read with
    [metadata.get(key, default)], so every field is an option: [None] is a
    key that is absent. The key ['chunk'] is written and never read. *)
Record Metadata : Type := {
  md_source : option string;
  md_category : option string;
  md_page : option Z;
  md_chunk : option Z;
  md_standard_type : option string;
  md_ui_standard : option string;
  md_full_name : option string;
  md_jurisdiction : option string;
  md_focus_areas : option string;
  md_text_length : option Z;
  md_keywords : option string;
  md_section_type : option string;
  md_article : option string }.

(** [d.get(key, default)] on a field. *)
Definition get {A} (field : option A) (dflt : A) : A := from_option id dflt field.

(** An item of the ['standards'] list of a response. The fallback query
    does not set ['semantic_similarity']. *)
Record Standard : Type := {
  rank : nat;
  content : string;
  source : string;
  article : string;
  standard_type : string;
  ui_standard : string;
  full_name : string;
  section_type : string;
  relevance_score : Q;
  semantic_similarity : option Q;
  keywords_matched : nat;
  text_length : Z }.

(** The dict that [process] returns; a key that is absent is [None]. *)
Record Response : Type := {
  success : bool;
  standards : list Standard;
  query : string;
  method : option string;
  message : option string;
  error : option string }.

(** ** Annotation of a chunk *)

Definition important_keywords : list string :=
  [ "data"; "pribadi"; "personal"; "consent"; "persetujuan"; "processing"; "pengolahan";
    "security"; "keamanan"; "privacy"; "privasi"; "rights"; "hak"; "protection"; "perlindungan";
    "breach"; "pelanggaran"; "controller"; "pengendali"; "processor"; "pemroses";
    "transfer"; "storage"; "penyimpanan"; "retention"; "retensi"; "deletion"; "penghapusan";
    "audit"; "compliance"; "kepatuhan"; "regulation"; "regulasi"; "law"; "hukum" ].

Definition _extract_keywords_from_chunk (chunk : string) : string :=
  let chunk_lower := Py.lower chunk in
  let found_keywords :=
    List.filter (fun kw => Py.contains kw chunk_lower) important_keywords in
  Py.join "," (firstn 10 found_keywords).

(** [section_patterns], in the order of the dict literal, which is the
    order in which the loop visits it. *)
Definition section_patterns : list (string * list string) :=
  [ ("definition", ["definition"; "definisi"; "means"; "berarti"; "refers to"; "mengacu"]);
    ("obligation", ["shall"; "must"; "wajib"; "harus"; "required"; "diwajibkan"]);
    ("prohibition", ["shall not"; "must not"; "tidak boleh"; "dilarang"; "prohibited"]);
    ("procedure", ["procedure"; "prosedur"; "process"; "proses"; "steps"; "langkah"]);
    ("penalty", ["penalty"; "sanksi"; "fine"; "denda"; "punishment"; "hukuman"]);
    ("right", ["right"; "hak"; "entitle"; "berhak"; "may request"; "dapat meminta"]) ].

(** The [for] loop of [_identify_section_type] over the groups that are
    left, with its [return 'general'] after the loop. *)
Fixpoint first_section_type (chunk_lower : string)
         (groups : list (string * list string)) : string :=
  match groups with
  | [] => "general"
  | (section_type, patterns) :: rest =>
      if existsb (fun pattern => Py.contains pattern chunk_lower) patterns
      then section_type
      else first_section_type chunk_lower rest
  end.

Definition _identify_section_type (chunk : string) : string :=
  let chunk_lower := Py.lower chunk in
  first_section_type chunk_lower section_patterns.

(** The direct mapping check of [_get_ui_standard_from_filename]. *)
Fixpoint direct_mapping (filename_lower : string)
         (m : list (string * StandardInfo)) : option string :=
  match m with
  | [] => None
  | (ui_standard, standard_info) :: m' =>
      if existsb (fun pdf_file => String.eqb (Py.lower pdf_file) filename_lower)
                 (files standard_info)
      then Some ui_standard
      else direct_mapping filename_lower m'
  end.

Definition _get_ui_standard_from_filename (filename : string) : string :=
  let filename_lower := Py.lower filename in
  match direct_mapping filename_lower standards_mapping with
  | Some ui_standard => ui_standard
  | None =>
      if Py.contains "gdpr" filename_lower then "GDPR"
      else if Py.contains "nist" filename_lower then "NIST"
      else if Py.contains "pdp" filename_lower
              || Py.contains "perlindungan_data" filename_lower then "UU_PDP"
      else if Py.contains "pojk" filename_lower
              || Py.contains "ojk" filename_lower then "POJK"
      else if Py.contains "bssn" filename_lower then "BSSN"
      else "Unknown"
  end.

Definition _identify_standard_type (filename : string) : string :=
  _get_ui_standard_from_filename filename.

(** The two patterns of lines 262 and 266, both compiled with
    [re.IGNORECASE]: group 1 is the keyword ([Article|Section], respectively
    [Pasal]), then comes [\s*], then group 2, which is [\d+] followed by
    [[A-Za-z]*]. *)
Definition number_re : Re.regex :=
  Re.Group 2 (Re.Seq (Re.plus true Re.digit) (Re.Star true Re.letter)).

Definition article_re : Re.regex :=
  Re.Seq (Re.Group 1 (Re.Alt (Re.lit_i "Article") (Re.lit_i "Section")))
         (Re.Seq (Re.Star true Re.space) number_re).

Definition pasal_re : Re.regex :=
  Re.Seq (Re.Group 1 (Re.lit_i "Pasal"))
         (Re.Seq (Re.Star true Re.space) number_re).

(** [f"{m.group(1).capitalize()} {m.group(2)}"] *)
Definition format_match (m : Re.caps) : string :=
  Py.capitalize (Re.group m 1) +:+ " " +:+ Re.group m 2.

(** Lines 259 to 271 of [_load_pdf_standard_enhanced]: the value of the
    variable [article_match] that goes into the metadata. [None] is
    Python's [None]; [not article_match] also holds of the empty string. *)
Definition article_match (chunk : string) (page_num : nat) : string :=
  let article_match : option string := None in
  let article_match :=
    match Re.search article_re chunk with
    | Some m => Some (format_match m)
    | None => article_match
    end in
  let article_match :=
    match Re.search pasal_re chunk with
    | Some match_id => Some (format_match match_id)
    | None => article_match
    end in
  match article_match with
  | Some a => if Py.is_empty a then "Page " +:+ Py.str_of_nat (page_num + 1) else a
  | None => "Page " +:+ Py.str_of_nat (page_num + 1)
  end.

(** The metadata dict of lines 272 to 286. *)
Definition make_metadata (chunk : string) (category filename ui_standard : string)
           (standard_info : StandardInfo) (page_num i : nat) : Metadata :=
  {| md_source := Some filename;
     md_category := Some category;
     md_page := Some (Z.of_nat (page_num + 1));
     md_chunk := Some (Z.of_nat (i + 1));
     md_standard_type := Some (_identify_standard_type filename);
     md_ui_standard := Some ui_standard;
     md_full_name := Some (info_full_name standard_info);
     md_jurisdiction := Some (jurisdiction standard_info);
     md_focus_areas := Some (Py.join "," (focus_areas standard_info));
     md_text_length := Some (Z.of_nat (String.length chunk));
     md_keywords := Some (_extract_keywords_from_chunk chunk);
     md_section_type := Some (_identify_section_type chunk);
     md_article := Some (article_match chunk page_num) |}.

(** ** Cleaning and chunking of a page *)

Definition whitespace_re : Re.regex := Re.plus true Re.space.       (* [\s+] *)

(** [\n\s*\d+\s*\n] *)
Definition page_number_re : Re.regex :=
  Re.Seq (Re.chr Re.nl) (Re.Seq (Re.Star true Re.space)
    (Re.Seq (Re.plus true Re.digit) (Re.Seq (Re.Star true Re.space) (Re.chr Re.nl)))).

(** [\n\s*Page\s+\d+.*?\n] with [re.IGNORECASE] *)
Definition page_footer_re : Re.regex :=
  Re.Seq (Re.chr Re.nl) (Re.Seq (Re.Star true Re.space)
    (Re.Seq (Re.lit_i "Page") (Re.Seq (Re.plus true Re.space)
      (Re.Seq (Re.plus true Re.digit) (Re.Seq (Re.Star false Re.dot) (Re.chr Re.nl)))))).

(** [http[s]?://\S+] *)
Definition url_re : Re.regex :=
  Re.Seq (Re.lit "http") (Re.Seq (Re.opt (Re.chr "s"))
    (Re.Seq (Re.lit "://") (Re.plus true Re.nonspace))).

(** [\S+@\S+] *)
Definition email_re : Re.regex :=
  Re.Seq (Re.plus true Re.nonspace) (Re.Seq (Re.chr "@") (Re.plus true Re.nonspace)).

(** [([.!?])\1+] *)
Definition punctuation_re : Re.regex :=
  Re.Seq (Re.Group 1 (Re.Chr (fun a =>
            Ascii.eqb a "." || Ascii.eqb a "!" || Ascii.eqb a "?")))
         (Re.plus true (Re.Backref 1)).

Definition newline : string := String Re.nl EmptyString.
Definition dquote : string := String (ascii_of_N 34) EmptyString.

(** The first argument of the [replace] of line 730. In the source the
    three quote characters in a row open a long string literal that runs up
    to the next three, so the line reads
    [text.replace(<this text>, <one single quote>)]. *)
Definition line_730_old : string :=
  ", " +:+ dquote +:+ "'" +:+ dquote +:+ ").replace(".

Definition _clean_extracted_text (text : string) : string :=
  let text := Re.sub whitespace_re [inl " "] text in
  let text := Re.sub page_number_re [inl newline] text in
  let text := Re.sub page_footer_re [inl newline] text in
  let text := Re.sub url_re [] text in
  let text := Re.sub email_re [] text in
  let text := Re.sub punctuation_re [inr 1] text in
  let text := Py.replace dquote dquote (Py.replace dquote dquote text) in
  let text := Py.replace line_730_old "'" text in
  Py.strip text.

(** The paragraph loop of [_create_smart_chunks]: the state is
    [(chunks, current_chunk)]. *)
Definition paragraph_step (chunk_size : nat) (st : list string * string)
           (paragraph : string) : list string * string :=
  let '(chunks, current_chunk) := st in
  if (chunk_size <? String.length current_chunk + String.length paragraph)
     && negb (Py.is_empty current_chunk)
  then (chunks ++ [Py.strip current_chunk], paragraph)
  else (chunks,
        if negb (Py.is_empty current_chunk)
        then current_chunk +:+ newline +:+ newline +:+ paragraph
        else paragraph).

(** The chunks of the paragraph phase, up to "Add the last chunk". *)
Definition paragraph_chunks (text : string) (chunk_size : nat) : list string :=
  let paragraphs :=
    List.filter (fun p => 20 <? String.length p)
                (map Py.strip (Py.split_sep (newline +:+ newline) text)) in
  let '(chunks, current_chunk) :=
    fold_left (paragraph_step chunk_size) paragraphs ([], EmptyString) in
  if negb (Py.is_empty current_chunk)
  then chunks ++ [Py.strip current_chunk] else chunks.

(** The test of line 755, [not chunks or len(chunks) == 1 and
    len(chunks[0]) > chunk_size * 2]: the word windows replace the chunks. *)
Definition needs_word_chunking (chunks : list string) (chunk_size : nat) : bool :=
  match chunks with
  | [] => true
  | [c] => chunk_size * 2 <? String.length c
  | _ => false
  end.

(** The loop [for i in range(0, len(words), step)] for [step > 0]; it runs
    at most [len(words)] times, which is the fuel. *)
Fixpoint word_windows (fuel step : nat) (words : list string) : list string :=
  match fuel, words with
  | S fuel', _ :: _ =>
      let chunk := Py.join " " (firstn step words) in
      (if 50 <? String.length (Py.strip chunk) then [chunk] else [])
        ++ word_windows fuel' step (skipn step words)
  | _, _ => []
  end.

(** [standard_info] is a parameter the body never reads. A [chunk_size]
    below 8 makes the step of [range] zero, which raises ValueError. *)
Definition _create_smart_chunks (text : string) (standard_info : StandardInfo)
           (chunk_size : nat) : exc (list string) :=
  let chunks := paragraph_chunks text chunk_size in
  if needs_word_chunking chunks chunk_size
  then
    let words := Py.split text in
    if chunk_size / 8 =? 0 then Raise "range() arg 3 must not be zero"
    else Ok (word_windows (length words) (chunk_size / 8) words)
  else Ok chunks.

(** ** The relevance score *)

Definition Qnat (n : nat) : Q := inject_Z (Z.of_nat n).

Definition _calculate_enhanced_relevance (query document : string)
           (metadata : Metadata) (base_score : Q) : Q :=
  let query_lower := Py.lower query in
  let doc_lower := Py.lower document in
  (* Factor 1: direct keyword matches *)
  let query_words : gset string := list_to_set (Py.split query_lower) in
  let doc_words : gset string := list_to_set (Py.split doc_lower) in
  let keyword_overlap :=
    if 0 <? size query_words
    then (Qnat (size (query_words ∩ doc_words)) / Qnat (size query_words))%Q
    else 0%Q in
  let keyword_score := (keyword_overlap * 0.4)%Q in
  (* Factor 2: metadata keyword matches *)
  let metadata_keywords := Py.split_sep "," (Py.lower (get (md_keywords metadata) "")) in
  let metadata_matches :=
    length (List.filter
              (fun word => existsb (fun kw => Py.contains word kw) metadata_keywords)
              (elements query_words)) in
  let metadata_score :=
    if 0 <? size query_words
    then ((Qnat metadata_matches / Qnat (size query_words)) * 0.2)%Q
    else 0%Q in
  (* Factor 3: section type relevance *)
  let section_type := get (md_section_type metadata) "general" in
  let section_bonus :=
    if Py.mem section_type ["obligation"; "procedure"; "right"] then 0.15%Q else 0.05%Q in
  (* Factor 4: text quality *)
  let text_length := get (md_text_length metadata) 0%Z in
  let length_score := (Py.min (inject_Z text_length / 500) 1.0 * 0.1)%Q in
  (* Factor 5: base semantic score *)
  let semantic_score := (base_score * 0.15)%Q in
  let total_score :=
    (keyword_score + metadata_score + section_bonus + length_score + semantic_score)%Q in
  Py.min total_score 1.0%Q.

Definition _count_keyword_matches (query keywords_str : string) : nat :=
  if Py.is_empty keywords_str then 0
  else
    let query_words : gset string := list_to_set (Py.split (Py.lower query)) in
    let keywords : gset string := list_to_set (Py.split_sep "," (Py.lower keywords_str)) in
    length (List.filter
              (fun query_word =>
                 existsb (fun keyword => Py.contains query_word keyword) (elements keywords))
              (elements query_words)).

(** [l.sort(key=..., reverse=True)]: a stable sort in descending order of
    the key, so items with equal keys keep their order. *)
Fixpoint insert_desc {A} (key : A -> Q) (x : A) (l : list A) : list A :=
  match l with
  | [] => [x]
  | y :: l' => if Qle_bool (key y) (key x) then x :: l else y :: insert_desc key x l'
  end.

Definition sort_desc {A} (key : A -> Q) (l : list A) : list A :=
  foldr (insert_desc key) [] l.

(** ** The agent and what surrounds it *)

(** An entry of [BaseAgent.activity_log]; its time stamp and the free text
    of its details are not modelled. *)
Record LogEntry : Type := {
  action : string;
  log_status : string }.

Definition Embedding : Type := list Q.

(** A record of the ChromaDB collection. *)
Record Item : Type := {
  item_id : string;
  item_embedding : Embedding;
  item_document : string;
  item_metadata : Metadata }.

(** The ChromaDB collection: its records, in the order they were added. *)
Definition Collection : Type := list Item.

(** [Collection.add] with one record. ChromaDB does not store a record whose
    id is present: the versions that raise do so with a message that says
    the id already exists, which is the case the caller looks for. *)
Definition collection_add (c : Collection) (it : Item) : exc Collection :=
  if Py.mem (item_id it) (map item_id c)
  then Raise ("ID " +:+ item_id it +:+ " already exists")
  else Ok (c ++ [it]).

(** What [Collection.query] returns for the one query embedding it is
    given: [results['documents'][0]] and its two companions. *)
Record QueryResults : Type := {
  res_documents : list string;
  res_metadatas : list Metadata;
  res_distances : list Q }.

(** [self.fallback_storage] *)
Record FallbackStorage : Type := {
  documents : list string;
  embeddings : list Embedding;
  metadatas : list Metadata;
  ids : list string;
  standards_index : gmap string (list nat);
  keyword_index : gmap string (list nat) }.

(** The attributes of a [StandardRetrieverAgent]. [collection = None] is
    Python's [None]; [fallback_storage = None] is an attribute that does not
    exist ([hasattr] is false). *)
Record Agent : Type := {
  agent_name : string;
  status : string;
  activity_log : list LogEntry;
  error_count : nat;
  instance_id : string;
  collection : option Collection;
  fallback_storage : option FallbackStorage;
  _standards_loaded : bool }.

(** Places where an exception that no line of the source accounts for (a
    MemoryError, say) may strike inside a [try] block. *)
Inductive site : Type :=
| Process_start      (* [process], on entering its [try] *)
| Process_end        (* [process], after the query has returned *)
| Chromadb_end       (* [_enhanced_chromadb_query], after the results are built *)
| Fallback_start.    (* [_enhanced_fallback_query], on entering its [try] *)

(** What the class calls and does not own. *)
Class Externals : Type := {
  (* [self.embedding_model.encode([text]).tolist()[0]] *)
  model_encode : string -> exc Embedding;
  (* [collection.query(query_embeddings, n_results, include, where)] *)
  chroma_query : Collection -> Embedding -> Z -> option (list string) -> exc QueryResults;
  (* [os.path.exists] and [os.listdir] *)
  path_exists : string -> bool;
  listdir : string -> exc (list string);
  (* [fitz.open(path)], and for every page of the document what
     [page.get_text()] returns or raises *)
  fitz_pages : string -> exc (list (exc string));
  fault : site -> option string }.

(** State passing, with and without exceptions. A raised exception keeps
    the state reached so far. *)
Definition St (A : Type) : Type := Agent -> A * Agent.
Definition M (A : Type) : Type := Agent -> exc A * Agent.

Definition ret {A} (x : A) : M A := fun a => (Ok x, a).
Definition raise {A} (e : string) : M A := fun a => (Raise e, a).
Definition bind {A B} (m : M A) (f : A -> M B) : M B :=
  fun a => match m a with
           | (Ok x, a') => f x a'
           | (Raise e, a') => (Raise e, a')
           end.
Definition lift {A} (x : exc A) : M A := fun a => (x, a).
Definition run {A} (m : St A) : M A := fun a => let '(x, a') := m a in (Ok x, a').
Definition exec (f : Agent -> Agent) : M unit := fun a => (Ok tt, f a).
Definition get_agent : M Agent := fun a => (Ok a, a).

(** [try: body / except Exception as e: handler] *)
Definition try_except {A} (body : M A) (handler : string -> St A) : St A :=
  fun a => match body a with
           | (Ok x, a') => (x, a')
           | (Raise e, a') => handler e a'
           end.

Notation "x <- c1 ;; c2" := (bind c1 (fun x => c2))
  (at level 100, c1 at next level, right associativity).
Notation "c1 ;;; c2" := (bind c1 (fun _ => c2))
  (at level 100, right associativity).

Definition check_fault {E : Externals} (s : site) : M unit :=
  match fault s with
  | Some e => raise e
  | None => ret tt
  end.

(** *** [BaseAgent] *)

Definition with_log (l : list LogEntry) (a : Agent) : Agent :=
  {| agent_name := agent_name a; status := status a; activity_log := l;
     error_count := error_count a; instance_id := instance_id a;
     collection := collection a; fallback_storage := fallback_storage a;
     _standards_loaded := _standards_loaded a |}.

Definition with_status (s : string) (n : nat) (a : Agent) : Agent :=
  {| agent_name := agent_name a; status := s; activity_log := activity_log a;
     error_count := n; instance_id := instance_id a;
     collection := collection a; fallback_storage := fallback_storage a;
     _standards_loaded := _standards_loaded a |}.

Definition with_collection (c : option Collection) (a : Agent) : Agent :=
  {| agent_name := agent_name a; status := status a; activity_log := activity_log a;
     error_count := error_count a; instance_id := instance_id a;
     collection := c; fallback_storage := fallback_storage a;
     _standards_loaded := _standards_loaded a |}.

Definition with_fallback (f : option FallbackStorage) (a : Agent) : Agent :=
  {| agent_name := agent_name a; status := status a; activity_log := activity_log a;
     error_count := error_count a; instance_id := instance_id a;
     collection := collection a; fallback_storage := f;
     _standards_loaded := _standards_loaded a |}.

Definition with_loaded (b : bool) (a : Agent) : Agent :=
  {| agent_name := agent_name a; status := status a; activity_log := activity_log a;
     error_count := error_count a; instance_id := instance_id a;
     collection := collection a; fallback_storage := fallback_storage a;
     _standards_loaded := b |}.

(** [self.log_action(action, details)]: the log keeps its last 100 entries. *)
Definition log_action (action : string) (a : Agent) : Agent :=
  let log := activity_log a ++ [{| action := action; log_status := status a |}] in
  with_log (if 100 <? length log then skipn (length log - 100) log else log) a.

(** [self.set_status(status)] *)
Definition set_status (new_status : string) (a : Agent) : Agent :=
  let n := if String.eqb new_status "error" then error_count a + 1 else error_count a in
  log_action "Status changed" (with_status new_status n a).

(** Loops over a list whose body updates the agent. *)
Fixpoint fold_St {A B} (f : B -> A -> St B) (b : B) (l : list A) : St B :=
  fun a =>
    match l with
    | [] => (b, a)
    | x :: l' => let '(b', a') := f b x a in fold_St f b' l' a'
    end.

Fixpoint fold_M {A B} (f : B -> A -> M B) (b : B) (l : list A) : M B :=
  match l with
  | [] => ret b
  | x :: l' => b' <- f b x ;; fold_M f b' l'
  end.

(** [enumerate(l)] *)
Definition enumerate {A} (l : list A) : list (nat * A) := combine (seq 0 (length l)) l.

(** [os.path.join] of POSIX. *)
Definition path_join2 (path b : string) : string :=
  if Py.startswith "/" b then b
  else if Py.is_empty path || Py.endswith "/" path then path +:+ b
  else path +:+ "/" +:+ b.

Definition path_join (a : string) (p : list string) : string := fold_left path_join2 p a.

(** *** Ingestion *)

Definition empty_storage : FallbackStorage :=
  {| documents := []; embeddings := []; metadatas := []; ids := [];
     standards_index := ∅; keyword_index := ∅ |}.

Definition _create_enhanced_fallback_storage (a : Agent) : Agent :=
  log_action "Enhanced fallback storage created"
    (with_collection None (with_fallback (Some empty_storage) a)).

(** Lines 287 to 312 of [_load_pdf_standard_enhanced], "Store in ChromaDB
    or fallback"; the value is the new [chunks_created]. *)
Definition store_chunk {E : Externals} (chunk_id chunk : string) (metadata : Metadata)
           (ui_standard : string) (chunks_created : nat) : St nat :=
  fun a =>
    match collection a with
    | Some coll =>
        try_except
          (embedding <- lift (model_encode chunk) ;;
           coll' <- lift (collection_add coll
                            {| item_id := chunk_id; item_embedding := embedding;
                               item_document := chunk; item_metadata := metadata |}) ;;
           exec (with_collection (Some coll')) ;;;
           ret (chunks_created + 1))
          (fun e a' =>
             if negb (Py.contains "already exists" (Py.lower e))
             then (chunks_created, log_action "ChromaDB add error" a')
             else (chunks_created, a'))
          a
    | None =>
        let '(fs, a) :=
          match fallback_storage a with
          | Some fs => (fs, a)
          | None => (empty_storage, _create_enhanced_fallback_storage a)
          end in
        let documents' := documents fs ++ [chunk] in
        let index := standards_index fs in
        let index :=
          match index !! ui_standard with
          | None => <[ui_standard := []]> index
          | Some _ => index
          end in
        let index :=
          <[ui_standard := default [] (index !! ui_standard) ++ [length documents' - 1]]> index in
        (chunks_created + 1,
         with_fallback (Some {| documents := documents';
                                embeddings := embeddings fs;
                                metadatas := metadatas fs ++ [metadata];
                                ids := ids fs ++ [chunk_id];
                                standards_index := index;
                                keyword_index := keyword_index fs |}) a)
    end.

(** [f"{filename}_p{page_num+1}_c{i+1}_{self.instance_id}"] *)
Definition make_chunk_id (filename : string) (page_num i : nat) (instance : string) : string :=
  filename +:+ "_p" +:+ Py.str_of_nat (page_num + 1) +:+ "_c" +:+ Py.str_of_nat (i + 1)
           +:+ "_" +:+ instance.

(** The body of [for i, chunk in enumerate(chunks)]. *)
Definition load_chunk {E : Externals} (category filename ui_standard : string)
           (standard_info : StandardInfo) (page_num : nat)
           (chunks_created : nat) (ic : nat * string) : St nat :=
  fun a =>
    let '(i, chunk) := ic in
    if 50 <? String.length (Py.strip chunk)
    then
      let chunk_id := make_chunk_id filename page_num i (instance_id a) in
      let metadata := make_metadata chunk category filename ui_standard standard_info page_num i in
      store_chunk chunk_id chunk metadata ui_standard chunks_created a
    else (chunks_created, a).

(** The body of [for page_num in range(max_pages)]. *)
Definition load_page {E : Externals} (category filename ui_standard : string)
           (standard_info : StandardInfo)
           (chunks_created : nat) (page : nat * exc string) : M nat :=
  let '(page_num, get_text) := page in
  text <- lift get_text ;;
  let cleaned_text := _clean_extracted_text text in
  if 100 <? String.length (Py.strip cleaned_text)
  then
    chunks <- lift (_create_smart_chunks cleaned_text standard_info 600) ;;
    run (fold_St (load_chunk category filename ui_standard standard_info page_num)
                 chunks_created (enumerate chunks))
  else ret chunks_created.

Definition _load_pdf_standard_enhanced {E : Externals}
           (filepath category filename ui_standard : string)
           (standard_info : StandardInfo) : St bool :=
  try_except
    (pages <- lift (fitz_pages filepath) ;;
     let max_pages := Nat.min (length pages) 15 in
     chunks_created <-
       fold_M (load_page category filename ui_standard standard_info) 0
              (enumerate (firstn max_pages pages)) ;;
     exec (log_action "Enhanced PDF processed") ;;;
     ret true)
    (fun e a => (false, log_action "PDF load error" a)).

(** The two loops of [_build_enhanced_indexes]. *)
Definition index_keyword (i : nat) (index : gmap string (list nat)) (keyword : string)
  : gmap string (list nat) :=
  let keyword := Py.strip keyword in
  if negb (Py.is_empty keyword)
  then <[keyword := default [] (index !! keyword) ++ [i]]> index
  else index.

Definition index_metadata (index : gmap string (list nat)) (im : nat * Metadata)
  : gmap string (list nat) :=
  let '(i, metadata) := im in
  fold_left (index_keyword i) (Py.split_sep "," (get (md_keywords metadata) "")) index.

(** The last line reads [self.fallback_storage], which raises
    AttributeError when the attribute does not exist. *)
Definition _build_enhanced_indexes : M unit :=
  fun a =>
    match fallback_storage a with
    | Some fs =>
        let fs' :=
          match documents fs with
          | [] => fs
          | _ :: _ =>
              {| documents := documents fs; embeddings := embeddings fs;
                 metadatas := metadatas fs; ids := ids fs;
                 standards_index := standards_index fs;
                 keyword_index :=
                   fold_left index_metadata (enumerate (metadatas fs)) (keyword_index fs) |}
          end in
        (Ok tt, log_action "Enhanced indexes built" (with_fallback (Some fs') a))
    | None =>
        (Raise "'StandardRetrieverAgent' object has no attribute 'fallback_storage'", a)
    end.

(** The loop over [alt_paths] with its [break]; the value is [found] and
    the new [loaded_count]. *)
Fixpoint try_alt_paths {E : Externals} (alt_paths : list string)
         (category pdf_file standard : string) (standard_info : StandardInfo)
         (loaded_count : nat) : St (bool * nat) :=
  fun a =>
    match alt_paths with
    | [] => ((false, loaded_count), a)
    | alt_path :: rest =>
        if path_exists alt_path
        then
          let '(success, a') :=
            _load_pdf_standard_enhanced alt_path category pdf_file standard standard_info a in
          if success then ((true, loaded_count + 1), a')
          else try_alt_paths rest category pdf_file standard standard_info loaded_count a'
        else try_alt_paths rest category pdf_file standard standard_info loaded_count a
    end.

(** The body of [for pdf_file in pdf_files]; the loop state is
    [(loaded_count, processing_errors)]. The [except] clauses around the
    calls of [_load_pdf_standard_enhanced] are left out: it does not raise. *)
Definition load_pdf_file {E : Externals} (standards_dir category standard : string)
           (standard_info : StandardInfo)
           (st : nat * list string) (pdf_file : string) : St (nat * list string) :=
  fun a =>
    let '(loaded_count, processing_errors) := st in
    let filepath := path_join standards_dir [category; pdf_file] in
    if path_exists filepath
    then
      let '(success, a') :=
        _load_pdf_standard_enhanced filepath category pdf_file standard standard_info a in
      if success
      then ((loaded_count + 1, processing_errors),
            log_action "SUCCESS: Enhanced PDF loaded" a')
      else ((loaded_count, processing_errors ++ ["Failed to process " +:+ pdf_file]), a')
    else
      let alt_paths := [path_join standards_dir [pdf_file]; pdf_file] in
      let '((found, loaded_count'), a') :=
        try_alt_paths alt_paths category pdf_file standard standard_info loaded_count a in
      if negb found
      then ((loaded_count', processing_errors ++ ["File not found: " +:+ filepath]),
            log_action "ERROR: PDF not found" a')
      else ((loaded_count', processing_errors), a').

(** The body of [for standard in selected_standards]. *)
Definition load_standard {E : Externals} (standards_dir : string)
           (st : nat * list string) (standard : string) : St (nat * list string) :=
  fun a =>
    match mapping_get standard standards_mapping with
    | Some standard_info =>
        fold_St (load_pdf_file standards_dir (category standard_info) standard standard_info)
                st (files standard_info) a
    | None =>
        ((st.1, st.2 ++ ["Unknown standard: " +:+ standard]),
         log_action "ERROR: Unknown standard" a)
    end.

(** The "Verification" step only counts the stored items for the text of a
    log entry and is left out. *)
Definition load_selected_standards {E : Externals} (selected_standards : list string) : St nat :=
  fun a =>
    let a := set_status "loading_selected_standards" a in
    let a := log_action "Loading enhanced standards" a in
    match selected_standards with
    | [] => (0, log_action "ERROR: Invalid standards input" a)
    | _ :: _ =>
        try_except
          (let standards_dir := "standards" in
           if negb (path_exists standards_dir)
           then exec (log_action "ERROR: Standards directory not found") ;;; ret 0
           else
             exec (log_action "Standards directory found") ;;;
             st <- run (fold_St (load_standard standards_dir) (0, []) selected_standards) ;;
             exec (with_loaded true) ;;;
             _build_enhanced_indexes ;;;
             exec (log_action "Enhanced standards loading completed") ;;;
             exec (fun a => match st.2 with
                            | [] => a
                            | _ :: _ => log_action "Processing errors encountered" a
                            end) ;;;
             ret st.1)
          (fun e a => (0, log_action "CRITICAL ERROR: Enhanced loading failed" a))
          a
    end.

(** The entry that [load_standards_from_directory] uses for a standard that
    is not in the mapping. *)
Definition unknown_info (filename : string) : StandardInfo :=
  {| files := []; category := EmptyString;
     info_full_name := Py.replace ".pdf" "" filename;
     jurisdiction := "Unknown"; focus_areas := [] |}.

(** The body of [for filename in os.listdir(category_path)]. *)
Definition load_listed_file {E : Externals} (category_path category : string)
           (loaded_count : nat) (filename : string) : St nat :=
  fun a =>
    if Py.endswith ".pdf" filename
    then
      let filepath := path_join category_path [filename] in
      let ui_standard := _get_ui_standard_from_filename filename in
      let standard_info :=
        default (unknown_info filename) (mapping_get ui_standard standards_mapping) in
      let '(success, a') :=
        _load_pdf_standard_enhanced filepath category filename ui_standard standard_info a in
      (if success then loaded_count + 1 else loaded_count, a')
    else (loaded_count, a).

(** The body of [for category in ['Global', 'Nasional']]. *)
Definition load_category {E : Externals} (standards_dir : string)
           (loaded_count : nat) (category : string) : M nat :=
  let category_path := path_join standards_dir [category] in
  if negb (path_exists category_path) then ret loaded_count
  else
    filenames <- lift (listdir category_path) ;;
    run (fold_St (load_listed_file category_path category) loaded_count filenames).

Definition load_standards_from_directory {E : Externals} (standards_dir : string) : St nat :=
  fun a =>
    if _standards_loaded a
    then (0, log_action "Standards already loaded" a)
    else
      let a := set_status "loading_standards" a in
      let a := log_action "Loading all standards" a in
      try_except
        (loaded_count <- fold_M (load_category standards_dir) 0 ["Global"; "Nasional"] ;;
         exec (with_loaded true) ;;;
         _build_enhanced_indexes ;;;
         exec (log_action "All standards loaded") ;;;
         ret loaded_count)
        (fun e a => (0, with_loaded true (log_action "Loading error" a)))
        a.

Definition _load_standards_if_needed {E : Externals} : St unit :=
  fun a =>
    if _standards_loaded a then (tt, a)
    else
      let standards_dir := "standards" in
      if path_exists standards_dir
      then let '(_, a') := load_standards_from_directory standards_dir a in (tt, a')
      else (tt, with_loaded true (log_action "Standards directory not found" a)).

(** *** Retrieval *)

(** [zip(a, b, c)] *)
Fixpoint zip3 {A B C} (a : list A) (b : list B) (c : list C) : list (A * B * C) :=
  match a, b, c with
  | x :: a', y :: b', z :: c' => (x, y, z) :: zip3 a' b' c'
  | _, _, _ => []
  end.

(** [if selected_standards:] for an argument that is [None] or a list. *)
Definition given (selected_standards : option (list string)) : bool :=
  match selected_standards with
  | Some (_ :: _) => true
  | _ => false
  end.

(** [f"Page {metadata.get('page', 'N/A')}"] *)
Definition page_label (metadata : Metadata) : string :=
  "Page " +:+ match md_page metadata with
              | Some p => Py.str_of_Z p
              | None => "N/A"
              end.

(** The dict of lines 438 to 451. *)
Definition chromadb_item (query : string) (rank : nat) (doc : string)
           (metadata : Metadata) (article_id : string) (relevance_score distance : Q)
  : Standard :=
  {| rank := rank;
     content := doc;
     source := get (md_source metadata) "Unknown";
     article := article_id;
     standard_type := get (md_standard_type metadata) "Unknown";
     ui_standard := get (md_ui_standard metadata) "Unknown";
     full_name := get (md_full_name metadata) "";
     section_type := get (md_section_type metadata) "general";
     relevance_score := relevance_score;
     semantic_similarity := Some (1 - distance)%Q;
     keywords_matched := _count_keyword_matches query (get (md_keywords metadata) "");
     text_length := get (md_text_length metadata) 0%Z |}.

(** The body of the loop of [_enhanced_chromadb_query]; the state is
    [(retrieved_standards, seen_articles)]. *)
Definition chromadb_step (query : string) (st : list Standard * gset string)
           (x : string * Metadata * Q) : list Standard * gset string :=
  let '(retrieved_standards, seen_articles) := st in
  let '(doc, metadata, distance) := x in
  let relevance_score :=
    _calculate_enhanced_relevance query doc metadata (1 - distance)%Q in
  let article_id := get (md_article metadata) (page_label metadata) in
  if negb (Py.is_empty article_id)
     && bool_decide (article_id ∉ seen_articles)
     && (30 <? String.length (Py.strip doc))
  then
    (retrieved_standards ++
       [chromadb_item query (length retrieved_standards + 1) doc metadata
                      article_id relevance_score distance],
     {[article_id]} ∪ seen_articles)
  else st.

(** Lines 421 to 455: from the results of the collection to the list that
    is returned. *)
Definition chromadb_standards (query : string) (top_k : Z) (results : QueryResults)
  : list Standard :=
  let retrieved_standards :=
    match res_documents results with
    | [] => []
    | _ :: _ =>
        (fold_left (chromadb_step query)
                   (zip3 (res_documents results) (res_metadatas results)
                         (res_distances results))
                   ([], ∅)).1
    end in
  let retrieved_standards := sort_desc relevance_score retrieved_standards in
  Py.slice_to top_k retrieved_standards.

(** [metadata.get('ui_standard') in selected_standards] *)
Definition standard_selected (ui : option string) (selected_standards : list string) : bool :=
  match ui with
  | Some s => Py.mem s selected_standards
  | None => false
  end.

(** The filter at the head of the loop of [_enhanced_fallback_query]:
    [false] is its [continue]. *)
Definition passes_filter (selected_standards : option (list string))
           (metadata : Metadata) : bool :=
  negb (given selected_standards
        && negb (standard_selected (md_ui_standard metadata)
                                   (default [] selected_standards))).

(** The dict of lines 500 to 512. *)
Definition fallback_item (query : string) (rank : nat) (doc : string)
           (metadata : Metadata) (relevance_score : Q) : Standard :=
  {| rank := rank;
     content := doc;
     source := get (md_source metadata) "Unknown";
     article := get (md_article metadata) (page_label metadata);
     standard_type := get (md_standard_type metadata) "Unknown";
     ui_standard := get (md_ui_standard metadata) "Unknown";
     full_name := get (md_full_name metadata) "";
     section_type := get (md_section_type metadata) "general";
     relevance_score := relevance_score;
     semantic_similarity := None;
     keywords_matched := _count_keyword_matches query (get (md_keywords metadata) "");
     text_length := get (md_text_length metadata) 0%Z |}.

(** The body of the loop of [_enhanced_fallback_query]; the state is
    [matches]. *)
Definition fallback_step (query : string) (selected_standards : option (list string))
           (matches : list Standard) (x : string * Metadata) : list Standard :=
  let '(doc, metadata) := x in
  if negb (passes_filter selected_standards metadata) then matches
  else
    let relevance_score := _calculate_enhanced_relevance query doc metadata 0.5%Q in
    if negb (Qle_bool relevance_score 0.1%Q)
    then matches ++ [fallback_item query (length matches + 1) doc metadata relevance_score]
    else matches.

(** The list [matches] when the loop is over, before it is sorted. *)
Definition fallback_matches (query : string) (selected_standards : option (list string))
           (fs : FallbackStorage) : list Standard :=
  fold_left (fallback_step query selected_standards)
            (combine (documents fs) (metadatas fs)) [].

(** Lines 486 to 518: from the storage to the list that is returned. *)
Definition fallback_standards (query : string) (top_k : Z)
           (selected_standards : option (list string)) (fs : FallbackStorage)
  : list Standard :=
  let matches := fallback_matches query selected_standards fs in
  let matches := sort_desc relevance_score matches in
  Py.slice_to top_k matches.

(** The dicts of the [except] clauses of [process] and of
    [_enhanced_fallback_query]. *)
Definition error_response (query e : string) : Response :=
  {| success := true; standards := []; query := query;
     method := None; message := None; error := Some e |}.

(** The [try] block of [_enhanced_fallback_query]. *)
Definition fallback_body {E : Externals} (query : string) (top_k : Z)
           (selected_standards : option (list string)) : M Response :=
  check_fault Fallback_start ;;;
  a <- get_agent ;;
  let no_standards :=
    {| success := true; standards := []; query := query;
       method := None; message := Some "No standards available"; error := None |} in
  match fallback_storage a with
  | None => ret no_standards
  | Some fs =>
      match documents fs with
      | [] => ret no_standards
      | _ :: _ =>
          let matches := fallback_standards query top_k selected_standards fs in
          exec (set_status "completed") ;;;
          exec (log_action "Enhanced fallback query completed") ;;;
          ret {| success := true; standards := matches; query := query;
                 method := Some "enhanced_fallback"; message := None; error := None |}
      end
  end.

Definition _enhanced_fallback_query {E : Externals} (query : string) (top_k : Z)
           (selected_standards : option (list string)) : St Response :=
  try_except
    (fallback_body query top_k selected_standards)
    (fun e a => (error_response query e, log_action "Enhanced fallback query error" a)).

(** The [try] block of [_enhanced_chromadb_query]. *)
Definition chromadb_body {E : Externals} (query : string) (top_k : Z)
           (selected_standards : option (list string)) : M Response :=
  query_embedding <- lift (model_encode query) ;;
  let where_clause :=
    if given selected_standards then selected_standards else None in
  a <- get_agent ;;
  coll <- match collection a with
          | Some c => ret c
          | None => raise "'NoneType' object has no attribute 'query'"
          end ;;
  results <- lift (chroma_query coll query_embedding (Z.min (top_k * 2) 20) where_clause) ;;
  let retrieved_standards := chromadb_standards query top_k results in
  check_fault Chromadb_end ;;;
  exec (set_status "completed") ;;;
  exec (log_action "Enhanced ChromaDB query completed") ;;;
  ret {| success := true; standards := retrieved_standards; query := query;
         method := Some "enhanced_chromadb"; message := None; error := None |}.

Definition _enhanced_chromadb_query {E : Externals} (query : string) (top_k : Z)
           (selected_standards : option (list string)) : St Response :=
  try_except
    (chromadb_body query top_k selected_standards)
    (fun e a =>
       _enhanced_fallback_query query top_k selected_standards
         (log_action "Enhanced ChromaDB query error" a)).

(** The [try] block of [process]. *)
Definition process_body {E : Externals} (query : string) (top_k : Z)
           (selected_standards : option (list string)) : M Response :=
  check_fault Process_start ;;;
  a <- get_agent ;;
  (if given selected_standards
   then
     if negb (_standards_loaded a)
     then run (load_selected_standards (default [] selected_standards)) ;;;
          exec (log_action "Standards loaded on demand")
     else ret tt
   else
     if negb (_standards_loaded a)
     then run _load_standards_if_needed
     else ret tt) ;;;
  a <- get_agent ;;
  result <-
    run (match collection a with
         | Some _ => _enhanced_chromadb_query query top_k selected_standards
         | None => _enhanced_fallback_query query top_k selected_standards
         end) ;;
  check_fault Process_end ;;;
  exec (log_action "Enhanced retrieval completed") ;;;
  ret result.

(** [StandardRetrieverAgent.process]: the second definition of that name in
    the class body, which is the one the class ends up with. *)
Definition process {E : Externals} (query : string) (top_k : Z)
           (selected_standards : option (list string)) : St Response :=
  fun a =>
    let a := set_status "retrieving" a in
    let a := log_action "Enhanced retrieval process started" a in
    try_except
      (process_body query top_k selected_standards)
      (fun e a' =>
         (error_response query e,
          log_action "Enhanced retrieval error" (set_status "error" a')))
      a.

(** [__init__] with [_initialize_components]: the agent as its constructor
    leaves it. [primary] tells whether the ChromaDB client, the embedding
    model and the collection could be set up; when the model cannot be
    loaded the [except] clause switches to the fallback storage. *)
Definition init_agent (instance : string) (primary : bool) : Agent :=
  let a :=
    log_action "Agent initialized"
      {| agent_name := "StandardRetriever"; status := "initialized";
         activity_log := []; error_count := 0; instance_id := instance;
         collection := None; fallback_storage := None;
         _standards_loaded := false |} in
  if primary
  then log_action "Enhanced components initialized"
         (with_collection (Some []) (log_action "Embedding model loaded" a))
  else _create_enhanced_fallback_storage
         (log_action "Initialization error, using fallback"
            (log_action "Embedding model load failed" a)).

(** ** The relevance score in the words of the specification

    The weighted sum of section 4.4, written with sets: the query words,
    the chunk words, and the tags of the chunk. *)

Definition spec_query_words (query : string) : gset string :=
  list_to_set (Py.split (Py.lower query)).

Definition spec_tags (metadata : Metadata) : list string :=
  Py.split_sep "," (Py.lower (get (md_keywords metadata) "")).

(** The query words that are substrings of some tag. *)
Definition spec_tagged_words (query : string) (metadata : Metadata) : gset string :=
  filter (fun word => Exists (fun tag => Py.contains word tag = true) (spec_tags metadata))
         (spec_query_words query).

Definition spec_fraction (part whole : nat) : Q := (Qnat part / Qnat whole)%Q.

Definition spec_section_bonus (metadata : Metadata) : Q :=
  if bool_decide (get (md_section_type metadata) "general"
                    ∈ ["obligation"; "procedure"; "right"])
  then 0.15%Q else 0.05%Q.

Definition weighted_sum (query chunk_text : string) (metadata : Metadata)
           (base_score : Q) : Q :=
  let query_words := spec_query_words query in
  let chunk_words : gset string := list_to_set (Py.split (Py.lower chunk_text)) in
  (0.40 * spec_fraction (size (query_words ∩ chunk_words)) (size query_words)
   + 0.20 * spec_fraction (size (spec_tagged_words query metadata)) (size query_words)
   + spec_section_bonus metadata
   + 0.10 * Qmin (inject_Z (get (md_text_length metadata) 0%Z) / 500) 1
   + 0.15 * base_score)%Q.

(** ** Sample inputs *)

Definition no_fault : site -> option string := fun _ => None.

(** An environment in which the files [pdfs] exist under the names given,
    next to the directory [standards]. *)
Definition sample_env (enc : string -> exc Embedding) (results : exc QueryResults)
           (pdfs : list (string * list string)) (flt : site -> option string)
  : Externals :=
  {| model_encode := enc;
     chroma_query := fun _ _ _ _ => results;
     path_exists := fun p => String.eqb p "standards" || Py.mem p (map fst pdfs);
     listdir := fun _ => Ok [];
     fitz_pages := fun p =>
       match List.find (fun kv => String.eqb p kv.1) pdfs with
       | Some kv => Ok (map Ok kv.2)
       | None => Raise ("no such file: " +:+ p)
       end;
     fault := flt |}.

Definition page_one : string :=
  "Article 6 sets out when handling is lawful. The controller keeps a record of every operation and reviews it once a year.".

Definition page_two : string :=
  "Under Article 6 the use of personal data needs a legal basis such as consent, and the data subject may withdraw consent at any time.".

Definition page_three : string :=
  "Article 7 requires that consent to the use of personal data is given freely, and that the controller can show the consent of the data subject.".

Definition gdpr_file : list (string * list string) :=
  [("standards/Global/GDPR.pdf", [page_one; page_two; page_three])].

(** No embedding model, hence the fallback storage. *)
Definition fallback_env : Externals :=
  sample_env (fun _ => Raise "no embedding model") (Raise "no collection") gdpr_file no_fault.

Definition fallback_agent : Agent := init_agent "1a2b3c4d" false.
Definition primary_agent : Agent := init_agent "1a2b3c4d" true.

(** The fallback storage once the three pages of the sample file are in. *)
Definition sample_storage : FallbackStorage :=
  default empty_storage
    (fallback_storage (load_selected_standards (E:=fallback_env) ["GDPR"] fallback_agent).2).

(** What the collection answers in the examples of the primary backend:
    the first and the third page of the sample file, the nearer one first. *)
Definition sample_results : QueryResults :=
  {| res_documents := [page_one; page_three];
     res_metadatas :=
       [ make_metadata page_one "Global" "GDPR.pdf" "GDPR" (unknown_info "GDPR.pdf") 0 0;
         make_metadata page_three "Global" "GDPR.pdf" "GDPR" (unknown_info "GDPR.pdf") 2 0 ];
     res_distances := [0.8%Q; 0.9%Q] |}.

Definition primary_env : Externals :=
  sample_env (fun _ => Ok []) (Ok sample_results) gdpr_file no_fault.

(** The embedding model fails at query time. *)
Definition failing_model_env : Externals :=
  sample_env (fun _ => Raise "CUDA out of memory") (Ok sample_results) gdpr_file no_fault.

(** An exception strikes [process] on entering its [try] block. *)
Definition faulty_env : Externals :=
  sample_env (fun _ => Ok []) (Ok sample_results) gdpr_file
    (fun s => match s with
              | Process_start => Some "out of memory"
              | _ => None
              end).

(** A chunk metadata with the keys the score reads. *)
Definition scored_metadata (keywords section : string) (length : Z) : Metadata :=
  {| md_source := None; md_category := None; md_page := None; md_chunk := None;
     md_standard_type := None; md_ui_standard := None; md_full_name := None;
     md_jurisdiction := None; md_focus_areas := None;
     md_text_length := Some length; md_keywords := Some keywords;
     md_section_type := Some section; md_article := None |}.

(** ** Predicates of the statements *)

(** Every character of [s] is in the class [p]. *)
Fixpoint all_chars (p : ascii -> bool) (s : string) : bool :=
  match s with
  | EmptyString => true
  | String c s' => p c && all_chars p s'
  end.

Definition not_newline (c : ascii) : bool := negb (Ascii.eqb c Re.nl).

(** Every captured group is made of characters of the class [p]. *)
Definition caps_all (p : ascii -> bool) (c : Re.caps) : Prop :=
  Forall (fun g => all_chars p g.2 = true) c.

(** The documents an agent has indexed, in either backend. *)
Definition indexed_documents (a : Agent) : list string :=
  match collection a with
  | Some coll => map item_document coll
  | None => []
  end ++
  match fallback_storage a with
  | Some fs => documents fs
  | None => []
  end.

(** The metadata an agent has indexed, in either backend. *)
Definition indexed_metadatas (a : Agent) : list Metadata :=
  match collection a with
  | Some coll => map item_metadata coll
  | None => []
  end ++
  match fallback_storage a with
  | Some fs => metadatas fs
  | None => []
  end.

(** The stored text length of a chunk is not negative, as is the length
    that [make_metadata] records. *)
Definition length_recorded (metadata : Metadata) : Prop :=
  (0 <= get (md_text_length metadata) 0)%Z.

(** A matcher that hands over to its continuation a suffix of its input,
    and captures made of characters of the class [p] if the input and the
    captures it started from are. *)
Definition hands_over {R : Type} (p : ascii -> bool)
           (body : string -> Re.caps -> (string -> Re.caps -> option R) -> option R)
  : Prop :=
  forall s c k x,
    body s c k = Some x ->
    all_chars p s = true -> caps_all p c ->
    exists s1 c1,
      k s1 c1 = Some x /\ String.length s1 <= String.length s
      /\ all_chars p s1 = true /\ caps_all p c1.

(** The literal parts of a replacement are made of characters of [p]. *)
Definition template_all (p : ascii -> bool) (t : Re.template) : Prop :=
  Forall (fun x => match x with
                   | inl l => all_chars p l = true
                   | inr _ => True
                   end) t.

(** What an agent has stored: the collection, and the three parallel lists
    of the fallback storage. *)
Definition stored (a : Agent)
  : option Collection * (list string * list Metadata * list string) :=
  (collection a,
   match fallback_storage a with
   | Some fs => (documents fs, metadatas fs, ids fs)
   | None => ([], [], [])
   end).

(** A property of an agent that only looks at what it has stored. *)
Definition storage_property (I : Agent -> Prop) : Prop :=
  forall a b, stored a = stored b -> I a -> I b.

(** A computation keeps a property of the agent. *)
Definition keeps {A} (I : Agent -> Prop) (m : St A) : Prop :=
  forall a, I a -> I (m a).2.

Definition keepsM {A} (I : Agent -> Prop) (m : M A) : Prop :=
  forall a, I a -> I (m a).2.

(** Every indexed document is at least 50 characters long. *)
Definition documents_long (a : Agent) : Prop :=
  Forall (fun d => 50 <= String.length d) (indexed_documents a).

(** Every indexed metadata records a length that is not negative. *)
Definition lengths_recorded (a : Agent) : Prop :=
  Forall length_recorded (indexed_metadatas a).

(** The ids of the collection are pairwise distinct. *)
Definition collection_ids_unique (a : Agent) : Prop :=
  match collection a with
  | Some coll => NoDup (map item_id coll)
  | None => True
  end.

(** ** The responses of a query, by name *)

(** The dict that the fallback query returns when there is nothing to
    search. *)
Definition no_standards_response (query : string) : Response :=
  {| success := true; standards := []; query := query;
     method := None; message := Some "No standards available"; error := None |}.

(** The dict that the fallback query returns after a search of [fs]. *)
Definition fallback_response (query : string) (top_k : Z)
           (selected_standards : option (list string)) (fs : FallbackStorage) : Response :=
  {| success := true; standards := fallback_standards query top_k selected_standards fs;
     query := query; method := Some "enhanced_fallback"; message := None; error := None |}.

(** The dict that the ChromaDB query returns for the results [results] of
    the collection. *)
Definition chromadb_response (query : string) (top_k : Z) (results : QueryResults)
  : Response :=
  {| success := true; standards := chromadb_standards query top_k results;
     query := query; method := Some "enhanced_chromadb"; message := None; error := None |}.

(** A list of standards in the order of their scores, the best first. *)
Fixpoint ranked_by_score (l : list Standard) : Prop :=
  match l with
  | [] => True
  | x :: l' =>
      Forall (fun y => (relevance_score y <= relevance_score x)%Q) l'
      /\ ranked_by_score l'
  end.

(** The chunks an agent has indexed, each with its metadata. *)
Definition indexed_pairs (a : Agent) : list (string * Metadata) :=
  match collection a with
  | Some coll => map (fun it => (item_document it, item_metadata it)) coll
  | None => []
  end ++
  match fallback_storage a with
  | Some fs => combine (documents fs) (metadatas fs)
  | None => []
  end.

(** [b] has the index of [a]: the same collection, the same fallback
    storage and the same mark that the standards are loaded. *)
Definition same_index (a b : Agent) : Prop :=
  collection b = collection a
  /\ fallback_storage b = fallback_storage a
  /\ _standards_loaded b = _standards_loaded a.

(** ** The compliance checker reads the answer

    Lines 118 to 127 of [src/agents/compliance_checker.py]: the
    requirements that [process] of the compliance checker makes of the
    standards of a response. Every item of a response has the keys
    ['article'], ['source'] and ['full_name'], so the defaults of the [get]
    calls are not used. *)
Record Requirement : Type := {
  requirement : string;
  reference : string;
  requirement_source : string;
  requirement_full_name : string }.

Definition requirement_of (std : Standard) : Requirement :=
  {| requirement := content std;
     reference := article std;
     requirement_source := source std;
     requirement_full_name := full_name std |}.

Definition requirements_step (requirements : list Requirement) (std : Standard)
  : list Requirement :=
  let req_text := content std in
  if negb (Py.is_empty req_text) && (30 <? String.length req_text)
  then requirements ++ [requirement_of std]
  else requirements.

Definition requirements_of_response (relevant_standards : Response) : list Requirement :=
  fold_left requirements_step (standards relevant_standards) [].

(** A character that is not white space, or the plain space. *)
Definition plain_space (c : ascii) : bool := negb (Py.isspace c) || Ascii.eqb c " ".

Definition not_comma (c : ascii) : bool := negb (Ascii.eqb c ",").

(** What the loop of the fallback query has collected from the pairs [l]
    of a document and its metadata. *)
Definition from_storage (query : string) (selected_standards : option (list string))
           (l : list (string * Metadata)) (s : Standard) : Prop :=
  exists doc metadata,
    (doc, metadata) ∈ l
    /\ s = fallback_item query (rank s) doc metadata
             (_calculate_enhanced_relevance query doc metadata 0.5)
    /\ (0.1 < relevance_score s)%Q
    /\ passes_filter selected_standards metadata = true.

(** An item with an article and more than 30 characters of text. *)
Definition has_article_and_text (s : Standard) : Prop :=
  article s <> EmptyString /\ 30 < String.length (Py.strip (content s)).

(** ** The two backends *)

(** The agent as [_initialize_components] leaves it when ChromaDB and the
    embedding model are there: a collection, and no attribute
    [fallback_storage]. *)
Definition primary_backend (a : Agent) : Prop :=
  collection a <> None /\ fallback_storage a = None.

(** ** The answers as functions of the index *)

(** What [_enhanced_fallback_query] answers when the fallback storage is
    [storage]. *)
Definition fallback_answer {E : Externals} (query : string) (top_k : Z)
           (selected_standards : option (list string))
           (storage : option FallbackStorage) : Response :=
  match fault Fallback_start with
  | Some e => error_response query e
  | None =>
      match storage with
      | None => no_standards_response query
      | Some fs =>
          match documents fs with
          | [] => no_standards_response query
          | _ :: _ => fallback_response query top_k selected_standards fs
          end
      end
  end.

(** What [_enhanced_chromadb_query] answers when the collection is [coll]
    and the fallback storage is [storage]. *)
Definition chromadb_answer {E : Externals} (query : string) (top_k : Z)
           (selected_standards : option (list string))
           (coll : option Collection) (storage : option FallbackStorage) : Response :=
  let fallback := fallback_answer query top_k selected_standards storage in
  match model_encode query, coll with
  | Ok query_embedding, Some c =>
      match chroma_query c query_embedding (Z.min (top_k * 2) 20)
                         (if given selected_standards then selected_standards else None) with
      | Ok results =>
          match fault Chromadb_end with
          | Some _ => fallback
          | None => chromadb_response query top_k results
          end
      | Raise _ => fallback
      end
  | _, _ => fallback
  end.

(** What [process] answers when the standards are loaded. *)
Definition loaded_answer {E : Externals} (query : string) (top_k : Z)
           (selected_standards : option (list string))
           (coll : option Collection) (storage : option FallbackStorage) : Response :=
  match fault Process_start with
  | Some e => error_response query e
  | None =>
      match fault Process_end with
      | Some e => error_response query e
      | None =>
          match coll with
          | Some _ => chromadb_answer query top_k selected_standards coll storage
          | None => fallback_answer query top_k selected_standards storage
          end
      end
  end.

(** No condition on the file a chunk comes from. *)
Definition any_file : string -> string -> string -> StandardInfo -> Prop :=
  fun _ _ _ _ => True.

(** The agent has counted [n] errors and its status is not ["error"]. *)
Definition counts_no_error (n : nat) (a : Agent) : Prop :=
  error_count a = n /\ status a <> "error".

(** ** The metadata of an indexed chunk *)

(** [metadata] is what the loader computes for the chunk [doc]: the length,
    the tags, the section type and the article of [doc], a page among the
    first fifteen, and the standard that the name of the file stands for. *)
Definition annotates (doc : string) (metadata : Metadata) : Prop :=
  md_text_length metadata = Some (Z.of_nat (String.length doc))
  /\ md_keywords metadata = Some (_extract_keywords_from_chunk doc)
  /\ md_section_type metadata = Some (_identify_section_type doc)
  /\ (exists page_num,
        page_num < 15
        /\ md_page metadata = Some (Z.of_nat (page_num + 1))
        /\ md_article metadata = Some (article_match doc page_num))
  /\ (exists filename,
        md_source metadata = Some filename
        /\ md_standard_type metadata = Some (_get_ui_standard_from_filename filename)
        /\ md_ui_standard metadata = Some (_get_ui_standard_from_filename filename))
  /\ 50 < String.length (Py.strip doc).

(** Every chunk of the index, in either backend, has the metadata the
    loader computes for it, and the lists of the fallback storage are as
    long as one another. *)
Definition well_annotated (a : Agent) : Prop :=
  Forall (fun it => annotates (item_document it) (item_metadata it))
         (default [] (stored a).1)
  /\ Forall2 annotates (stored a).2.1.1 (stored a).2.1.2
  /\ length (stored a).2.2 = length (stored a).2.1.1.

(** The loader is called for a standard that the name of the file stands
    for. *)
Definition named_for : string -> string -> string -> StandardInfo -> Prop :=
  fun _ filename ui_standard _ => _get_ui_standard_from_filename filename = ui_standard.

(** ** The two indexes of the fallback storage *)

(** The positions of the metadata whose standard is [std]. *)
Definition standard_positions (std : string) (mds : list Metadata) : list nat :=
  map fst (List.filter (fun im => bool_decide (md_ui_standard im.2 = Some std))
                       (enumerate mds)).

(** The index by standard lists, for every standard, the positions of its
    chunks, in the order of the storage. *)
Definition standards_index_exact (a : Agent) : Prop :=
  match fallback_storage a with
  | None => True
  | Some fs =>
      length (documents fs) = length (metadatas fs)
      /\ forall std,
           default [] (standards_index fs !! std) = standard_positions std (metadatas fs)
  end.

(** The position [i], once for every tag of [metadata] that is [keyword]
    when the white space at its ends is taken off. *)
Definition keyword_occurrences (keyword : string) (im : nat * Metadata) : list nat :=
  map (fun _ => im.1)
      (List.filter (fun tag => negb (Py.is_empty (Py.strip tag))
                               && String.eqb (Py.strip tag) keyword)
                   (Py.split_sep "," (get (md_keywords im.2) ""))).

(** What one pass of [_build_enhanced_indexes] adds under [keyword]. *)
Definition keyword_positions (keyword : string) (mds : list Metadata) : list nat :=
  flat_map (keyword_occurrences keyword) (enumerate mds).

(** ** The standards an agent can offer

    [get_available_standards], lines 671 to 710. The dict it returns, and
    the dicts inside it, keep their keys in the order of insertion: they
    are lists of keys and values, a key occurring once. *)

(** The value that [standards[category][std_type]] holds. *)
Record Available : Type := {
  available_full_name : string;
  available_jurisdiction : string;
  available_focus_areas : list string;
  chunk_count : nat }.

Definition AvailableStandards : Type := list (string * list (string * Available)).

(** [key in d] and [d[key]] for a dict with string keys. *)
Definition dict_has {V} (key : string) (d : list (string * V)) : bool :=
  existsb (fun kv => String.eqb kv.1 key) d.

Fixpoint dict_get {V} (key : string) (d : list (string * V)) : option V :=
  match d with
  | [] => None
  | (k, v) :: d' => if String.eqb k key then Some v else dict_get key d'
  end.

(** [d[key] = v]: the value of a key that is there is replaced where it
    is, a new key goes to the end. *)
Fixpoint dict_set {V} (key : string) (v : V) (d : list (string * V)) : list (string * V) :=
  match d with
  | [] => [(key, v)]
  | (k, v') :: d' => if String.eqb k key then (k, v) :: d' else (k, v') :: dict_set key v d'
  end.

(** The body of the loop over the metadata, which the two branches of
    [get_available_standards] share word for word. *)
Definition available_step (standards : AvailableStandards) (metadata : Metadata)
  : AvailableStandards :=
  let std_type := get (md_ui_standard metadata) "Unknown" in
  let category := get (md_category metadata) "Unknown" in
  let standards :=
    if negb (dict_has category standards) then dict_set category [] standards
    else standards in
  let of_category := default [] (dict_get category standards) in
  let of_category :=
    if negb (dict_has std_type of_category)
    then dict_set std_type
           {| available_full_name := get (md_full_name metadata) std_type;
              available_jurisdiction := get (md_jurisdiction metadata) "Unknown";
              available_focus_areas :=
                if negb (Py.is_empty (get (md_focus_areas metadata) ""))
                then Py.split_sep "," (get (md_focus_areas metadata) "")
                else [];
              chunk_count := 0 |}
           of_category
    else of_category in
  let of_category :=
    match dict_get std_type of_category with
    | Some entry =>
        dict_set std_type
          {| available_full_name := available_full_name entry;
             available_jurisdiction := available_jurisdiction entry;
             available_focus_areas := available_focus_areas entry;
             chunk_count := chunk_count entry + 1 |}
          of_category
    | None => of_category
    end in
  dict_set category of_category standards.

Definition available_standards (metadatas : list Metadata) : AvailableStandards :=
  fold_left available_step metadatas [].

(** [self.collection.get(include=['metadatas'])['metadatas']] is a call of
    ChromaDB: what it returns for a collection, or raises. *)
Class CollectionGet : Type := {
  collection_get : Collection -> exc (list Metadata) }.

Definition get_available_standards {E : Externals} {G : CollectionGet}
  : St AvailableStandards :=
  try_except
    (a <- get_agent ;;
     (if negb (_standards_loaded a) then run _load_standards_if_needed else ret tt) ;;;
     a <- get_agent ;;
     match collection a with
     | Some coll =>
         metadatas <- lift (collection_get coll) ;;
         ret (available_standards metadatas)
     | None =>
         match fallback_storage a with
         | Some fs => ret (available_standards (metadatas fs))
         | None => ret []
         end
     end)
    (fun e a => ([], log_action "Get enhanced standards error" a)).

(** The number of chunks that the dict counts, over all categories and
    standards. *)
Definition total_chunk_count (standards : AvailableStandards) : nat :=
  list_sum (map (fun cs => list_sum (map (fun se => chunk_count se.2) cs.2)) standards).

(** ** The coordinator checks a selection

    [validate_standards_selection], lines 53 to 92 of
    [src/agents/agent_coordinator.py]. A key that a dict does not have is
    [None]. The [except] clause around the call of
    [get_available_standards] is left out: that method catches what is
    raised inside it. *)

(** The loop that collects the keys of the inner dicts. *)
Definition found_standards_of (standards_dict : AvailableStandards) : gset string :=
  fold_left (fun found cs => found ∪ list_to_set (map fst cs.2)) standards_dict ∅.

Record Validation : Type := {
  valid : bool;
  validation_error : option string;
  invalid_standards : list string;
  valid_standards : option (list string);
  recommendations : list string }.

Definition validate_standards_selection {E : Externals} {G : CollectionGet}
           (standards : list string) : St Validation :=
  fun a =>
    let valid_standards := ["GDPR"; "UU_PDP"; "POJK"; "BSSN"; "NIST"] in
    let invalid := List.filter (fun s => negb (Py.mem s valid_standards)) standards in
    match invalid with
    | _ :: _ =>
        ({| valid := false;
            validation_error := Some ("Standar tidak valid: " +:+ Py.join ", " invalid);
            invalid_standards := invalid;
            valid_standards := Some valid_standards;
            recommendations :=
              [ "Periksa penulisan standar yang dipilih";
                "Pastikan menggunakan nama standar yang sesuai";
                "Standar yang tersedia: " +:+ Py.join ", " valid_standards ] |}, a)
    | [] =>
        let '(standards_dict, a) := get_available_standards a in
        let found_standards := found_standards_of standards_dict in
        let missing_files :=
          List.filter (fun s => negb (bool_decide (s ∈ found_standards))) standards in
        match missing_files with
        | _ :: _ =>
            ({| valid := false;
                validation_error :=
                  Some ("Tidak ditemukan file standar: " +:+ Py.join ", " missing_files);
                invalid_standards := missing_files;
                valid_standards := None;
                recommendations :=
                  ["Periksa ketersediaan file PDF standar di direktori standards/"] |}, a)
        | [] =>
            ({| valid := true;
                validation_error := None;
                invalid_standards := [];
                valid_standards := Some standards;
                recommendations := [] |}, a)
        end
    end.

(** The number of chunks that the dict of a category counts. *)
Definition inner_count (cs : list (string * Available)) : nat :=
  list_sum (map (fun se => chunk_count se.2) cs).

(** A dict of dicts in which no key occurs twice. *)
Definition keys_unique (standards : AvailableStandards) : Prop :=
  NoDup (map fst standards) /\ Forall (fun cs => NoDup (map fst cs.2)) standards.

(** A ChromaDB that returns the metadata of the records as they were
    added. *)
Definition sample_get : CollectionGet :=
  {| collection_get := fun coll => Ok (map item_metadata coll) |}.

(** The fallback agent with the sample file loaded. *)
Definition loaded_agent : Agent :=
  (load_selected_standards (E:=fallback_env) ["GDPR"] fallback_agent).2.

(** ** More of [BaseAgent] *)

(** [l[-n:]] for [n > 0] *)
Definition last_entries {A} (n : nat) (l : list A) : list A := skipn (length l - n) l.

(** ["error" in entry["action"].lower()] *)
Definition is_error_entry (entry : LogEntry) : bool :=
  Py.contains "error" (Py.lower (action entry)).

(** [self.is_healthy()] *)
Definition is_healthy (a : Agent) : bool :=
  let recent_errors := List.filter is_error_entry (last_entries 20 (activity_log a)) in
  (length recent_errors <? 5) && negb (String.eqb (status a) "error").

(** [self.reset_error_count()] *)
Definition reset_error_count (a : Agent) : Agent :=
  log_action "Error count reset" (with_status (status a) 0 a).


(** ** Words *)

Definition not_space (c : ascii) : bool := negb (Py.isspace c).

(** A word: not empty and without white space. *)
Definition is_word (w : string) : Prop :=
  w <> EmptyString /\ all_chars not_space w = true.

(** The agent has no collection, or has one, as [b] says. *)
Definition on_backend (b : bool) (a : Agent) : Prop :=
  bool_decide (collection a = None) = b.

(** * Properties *)

(** ** The embedding on sample inputs

    The values below are the ones CPython 3 gives for the same calls. *)

Example split_words : Py.split "  ab  cd e " = ["ab"; "cd"; "e"].
Proof. reflexivity. Qed.

Example split_on_comma : Py.split_sep "," "a,b,,c," = ["a"; "b"; ""; "c"; ""].
Proof. reflexivity. Qed.

Example strip_sample : Py.strip "  a b  " = "a b".
Proof. reflexivity. Qed.

Example search_article_groups :
  Re.search article_re "see aRTICLE  12bis, and Section 3"
  = Some [(2, "12bis"); (1, "aRTICLE")].
Proof. reflexivity. Qed.

Example sub_whitespace_sample :
  Re.sub whitespace_re [inl " "] (newline +:+ newline +:+ "a   b" +:+ newline +:+ "c ")
  = " a b c ".
Proof. reflexivity. Qed.

Example sub_punctuation_sample :
  Re.sub punctuation_re [inr 1] "a... b!!? c.!. d??" = "a. b!? c.!. d?".
Proof. reflexivity. Qed.

Example sub_email_sample :
  Re.sub email_re [] "write to a.b@c.d now @x y@ z@@w" = "write to  now @x y@ ".
Proof. reflexivity. Qed.

Example sub_url_sample :
  Re.sub url_re [] "see https://a.b/c and http://x http:// y" = "see  and  http:// y".
Proof. reflexivity. Qed.

Example clean_sample :
  _clean_extracted_text
    ("  Hello   world!!! " +:+ newline +:+ " 12 " +:+ newline +:+ "Page 3 of 4"
     +:+ newline +:+ "mail me@x.org or https://x.y/z ok??  ")
  = "Hello world! 12 Page 3 of 4 mail  or  ok?".
Proof. by vm_compute. Qed.

(** The scenario of the specification: a chunk of page 3 that cites
    Pasal 26. *)
Example pasal_scenario :
  let metadata :=
    make_metadata "Pasal 26 menyatakan bahwa data pribadi harus dilindungi."
                  "Nasional" "UU_PDP.pdf" "UU_PDP" (unknown_info "UU_PDP.pdf") 2 0 in
  md_article metadata = Some "Pasal 26"
  /\ md_section_type metadata = Some "obligation"
  /\ md_ui_standard metadata = Some "UU_PDP"
  /\ md_keywords metadata = Some "data,pribadi".
Proof. by vm_compute. Qed.

(** The scenario of the specification: nothing is indexed. *)
Example empty_index_scenario :
  let r := (process (E:=fallback_env) "x" 3 None (with_loaded true fallback_agent)).1 in
  success r = true /\ standards r = [].
Proof. by vm_compute. Qed.


(** ** Strings *)

Section StringFacts.

Lemma length_append (s t : string) :
  String.length (s +:+ t) = String.length s + String.length t.
Proof. induction s as [|c s IH]; simpl; [done | by rewrite IH]. Qed.

Lemma is_empty_length (s : string) :
  Py.is_empty s = true <-> String.length s = 0.
Proof. destruct s; simpl; split; intros; done. Qed.

Lemma is_empty_append (s t : string) :
  Py.is_empty (s +:+ t) = Py.is_empty s && Py.is_empty t.
Proof. by destruct s. Qed.

Lemma length_lstrip (s : string) : String.length (Py.lstrip s) <= String.length s.
Proof. induction s as [|c s IH]; simpl; [lia | destruct (Py.isspace c); simpl; lia]. Qed.

Lemma length_rstrip (s : string) : String.length (Py.rstrip s) <= String.length s.
Proof.
  induction s as [|c s IH]; simpl; [lia|].
  destruct (Py.isspace c && Py.is_empty (Py.rstrip s)); simpl; lia.
Qed.

Lemma length_strip (s : string) : String.length (Py.strip s) <= String.length s.
Proof.
  unfold Py.strip. pose proof (length_rstrip (Py.lstrip s)).
  pose proof (length_lstrip s). lia.
Qed.

Variable p : ascii -> bool.

Lemma all_chars_append (s t : string) :
  all_chars p (s +:+ t) = all_chars p s && all_chars p t.
Proof. induction s as [|c s IH]; simpl; [done | by rewrite IH, andb_assoc]. Qed.

Lemma all_chars_take (n : nat) (s : string) :
  all_chars p s = true -> all_chars p (Py.take n s) = true.
Proof.
  revert s; induction n as [|n IH]; intros [|c s]; simpl; try done.
  intros [? ?]%andb_true_iff. rewrite IH by done. by rewrite andb_true_r.
Qed.

Lemma all_chars_lstrip (s : string) :
  all_chars p s = true -> all_chars p (Py.lstrip s) = true.
Proof.
  induction s as [|c s IH]; simpl; [done|].
  intros [? ?]%andb_true_iff.
  destruct (Py.isspace c); simpl; [auto | by apply andb_true_iff].
Qed.

Lemma all_chars_rstrip (s : string) :
  all_chars p s = true -> all_chars p (Py.rstrip s) = true.
Proof.
  induction s as [|c s IH]; simpl; [done|].
  intros [? ?]%andb_true_iff.
  destruct (Py.isspace c && Py.is_empty (Py.rstrip s)); simpl; [done|].
  apply andb_true_iff; auto.
Qed.

Lemma all_chars_strip (s : string) :
  all_chars p s = true -> all_chars p (Py.strip s) = true.
Proof. intros. by apply all_chars_rstrip, all_chars_lstrip. Qed.

Lemma all_chars_split_sep_aux (sep : string) (s : string) :
  all_chars p s = true ->
  forall skip, all_chars p (Py.split_sep_aux sep skip s).1 = true
               /\ Forall (fun w => all_chars p w = true) (Py.split_sep_aux sep skip s).2.
Proof.
  induction s as [|c s IH]; cbn [Py.split_sep_aux all_chars]; [by intros; split|].
  intros [Hc Hs]%andb_true_iff skip. specialize (IH Hs).
  destruct skip as [|k]; [|apply IH].
  destruct (String.prefix sep (String c s)).
  - destruct (IH (String.length sep - 1)) as [H1 H2].
    destruct (Py.split_sep_aux sep (String.length sep - 1) s) as [w ws]; simpl in *.
    split; [done | by constructor].
  - destruct (IH 0) as [H1 H2].
    destruct (Py.split_sep_aux sep 0 s) as [w ws]; simpl in *.
    split; [by rewrite Hc, H1 | done].
Qed.

Lemma all_chars_split_sep (sep s : string) :
  all_chars p s = true -> Forall (fun w => all_chars p w = true) (Py.split_sep sep s).
Proof.
  intros Hs. unfold Py.split_sep.
  destruct (all_chars_split_sep_aux sep s Hs 0) as [H1 H2].
  destruct (Py.split_sep_aux sep 0 s); simpl in *. by constructor.
Qed.

Lemma all_chars_join (sep : string) (l : list string) :
  all_chars p sep = true -> Forall (fun w => all_chars p w = true) l ->
  all_chars p (Py.join sep l) = true.
Proof.
  intros Hsep. induction 1 as [|x l Hx Hl IH]; simpl; [done|].
  destruct l as [|y l]; [done|].
  rewrite !all_chars_append, Hx, Hsep. simpl. apply IH.
Qed.

Lemma all_chars_replace (old new s : string) :
  all_chars p new = true -> all_chars p s = true ->
  all_chars p (Py.replace old new s) = true.
Proof. intros. by apply all_chars_join, all_chars_split_sep. Qed.

End StringFacts.

Lemma prefix_head_neq (a b : ascii) (p s : string) :
  a <> b -> String.prefix (String a p) (String b s) = false.
Proof. intros. cbn [String.prefix]. by destruct (ascii_dec a b). Qed.

(** A text without a newline is one paragraph. *)
Lemma split_paragraphs_one (s : string) :
  all_chars not_newline s = true ->
  Py.split_sep (newline +:+ newline) s = [s].
Proof.
  intros Hs. unfold Py.split_sep.
  assert (Py.split_sep_aux (newline +:+ newline) 0 s = (s, [])) as ->; [|done].
  induction s as [|c s IH]; [done|].
  cbn [all_chars] in Hs. apply andb_true_iff in Hs as [Hc Hs].
  unfold not_newline in Hc. apply negb_true_iff, Ascii.eqb_neq in Hc.
  cbn [Py.split_sep_aux].
  assert (String.prefix (newline +:+ newline) (String c s) = false) as ->.
  { apply (prefix_head_neq Re.nl c); congruence. }
  by rewrite (IH Hs).
Qed.

(** ** The matcher *)

Section MatcherFacts.
Context {R : Type}.
Variable p : ascii -> bool.

Lemma all_chars_strip_prefix (g s s1 : string) :
  Re.strip_prefix g s = Some s1 ->
  String.length s1 <= String.length s
  /\ (all_chars p s = true -> all_chars p s1 = true).
Proof.
  revert s; induction g as [|a g IH]; intros [|b s]; simpl; try done.
  - intros [= <-]. split; [simpl; lia | done].
  - intros [= <-]. split; [simpl; lia | done].
  - destruct (Ascii.eqb a b); [|done]. intros H.
    destruct (IH _ H) as [H1 H2]. split; [simpl; lia|].
    intros [_ ?]%andb_true_iff. auto.
Qed.

Lemma caps_all_group (c : Re.caps) (i : nat) :
  caps_all p c -> all_chars p (Re.group c i) = true.
Proof.
  induction 1 as [|[j g] c Hg Hc IH]; simpl; [done|].
  by destruct (Nat.eqb i j).
Qed.

Lemma star_loop_hands_over
      (body : string -> Re.caps -> (string -> Re.caps -> option R) -> option R)
      (g : bool) (k : string -> Re.caps -> option R) :
  hands_over p body ->
  forall n s c x,
    Re.star_loop body g k n s c = Some x ->
    all_chars p s = true -> caps_all p c ->
    exists s1 c1,
      k s1 c1 = Some x /\ String.length s1 <= String.length s
      /\ all_chars p s1 = true /\ caps_all p c1.
Proof.
  intros Hbody. induction n as [|n IH]; intros s c x H Hs Hc.
  - simpl in H. destruct g; [|destruct (k s c) eqn:Hk; [|done]];
      exists s, c; split; (congruence || auto).
  - cbn [Re.star_loop] in H.
    assert (forall y,
      body s c (fun s1 c1 =>
                  if String.length s1 <? String.length s
                  then Re.star_loop body g k n s1 c1 else None) = Some y ->
      exists s1 c1,
        k s1 c1 = Some y /\ String.length s1 <= String.length s
        /\ all_chars p s1 = true /\ caps_all p c1) as Hagain.
    { intros y Hy. destruct (Hbody _ _ _ _ Hy Hs Hc) as (s1 & c1 & H1 & H2 & H3 & H4).
      destruct (String.length s1 <? String.length s) eqn:Hlt; [|done].
      destruct (IH _ _ _ H1 H3 H4) as (s2 & c2 & ? & ? & ? & ?).
      exists s2, c2. repeat split; auto; lia. }
    destruct g.
    + destruct (body s c _) as [y|] eqn:Hb.
      * injection H as ->. by apply Hagain.
      * exists s, c. auto.
    + destruct (k s c) as [y|] eqn:Hk.
      * injection H as ->. exists s, c. auto.
      * by apply Hagain.
Qed.

Lemma mt_hands_over (r : Re.regex) : hands_over p (Re.mt (R:=R) r).
Proof.
  induction r as [q| |r1 IH1 r2 IH2|r1 IH1 r2 IH2|g r IH|i r IH|i];
    intros s c k x H Hs Hc; cbn [Re.mt] in H.
  - destruct s as [|a s]; [done|]. destruct (q a); [|done].
    simpl in Hs. apply andb_true_iff in Hs as [_ Hs].
    exists s, c. simpl. auto.
  - exists s, c. auto.
  - destruct (IH1 _ _ _ _ H Hs Hc) as (s1 & c1 & H1 & ? & ? & ?).
    destruct (IH2 _ _ _ _ H1) as (s2 & c2 & ? & ? & ? & ?); auto.
    exists s2, c2. repeat split; auto; lia.
  - destruct (Re.mt r1 s c k) as [y|] eqn:H1.
    + injection H as ->. eapply IH1; eauto.
    + eapply IH2; eauto.
  - eapply star_loop_hands_over; eauto.
  - destruct (IH _ _ _ _ H Hs Hc) as (s1 & c1 & H1 & ? & ? & ?).
    exists s1, ((i, Re.consumed s s1) :: c1). repeat split; auto.
    constructor; [|done]. by apply all_chars_take.
  - destruct (Re.strip_prefix (Re.group c i) s) as [s1|] eqn:Hp; [|done].
    destruct (all_chars_strip_prefix _ _ _ Hp) as [? ?].
    exists s1, c. auto.
Qed.

End MatcherFacts.

Lemma match_at_all_chars (p : ascii -> bool) (r : Re.regex) (s rest : string) (c : Re.caps) :
  Re.match_at r s = Some (rest, c) ->
  all_chars p s = true ->
  String.length rest <= String.length s /\ all_chars p rest = true /\ caps_all p c.
Proof.
  intros H Hs.
  destruct (mt_hands_over p r s [] _ _ H Hs) as (s1 & c1 & [= -> ->] & ? & ? & ?); auto.
  constructor.
Qed.

Lemma all_chars_true (s : string) : all_chars (fun _ => true) s = true.
Proof. induction s; simpl; auto. Qed.

Lemma match_at_length (r : Re.regex) (s rest : string) (c : Re.caps) :
  Re.match_at r s = Some (rest, c) -> String.length rest <= String.length s.
Proof.
  intros H. by destruct (match_at_all_chars (fun _ => true) r s rest c H (all_chars_true s)).
Qed.

Lemma all_chars_expand (p : ascii -> bool) (t : Re.template) (c : Re.caps) :
  template_all p t -> caps_all p c -> all_chars p (Re.expand t c) = true.
Proof.
  intros Ht Hc. induction Ht as [|[l|i] t Hx Ht IH]; simpl; [done| |].
  - by rewrite all_chars_append, Hx, IH.
  - by rewrite all_chars_append, caps_all_group, IH.
Qed.

(** A substitution whose replacement text is in a class keeps a text in
    that class. *)
Lemma sub_aux_all_chars (p : ascii -> bool) (r : Re.regex) (t : Re.template) :
  template_all p t ->
  forall s skip, all_chars p s = true -> all_chars p (Re.sub_aux r t skip s) = true.
Proof.
  intros Ht. induction s as [|a s IH]; intros skip Hs; cbn [Re.sub_aux].
  - destruct skip; [|done].
    destruct (Re.match_at r EmptyString) as [[rest c]|] eqn:Hm; [|done].
    apply all_chars_expand; [done|].
    by destruct (match_at_all_chars p _ _ _ _ Hm Hs) as (_ & _ & ?).
  - pose proof Hs as Hs'. cbn [all_chars] in Hs'. apply andb_true_iff in Hs' as [Ha Hs'].
    destruct skip as [|k]; [|by apply IH].
    destruct (Re.match_at r (String a s)) as [[rest c]|] eqn:Hm.
    + destruct (match_at_all_chars p _ _ _ _ Hm Hs) as (_ & _ & Hc).
      destruct (String.length (String a s) - String.length rest);
        rewrite all_chars_append, all_chars_expand by done; simpl.
      * by rewrite Ha, IH.
      * by apply IH.
    + simpl. by rewrite Ha, IH.
Qed.

(** A pattern that does not match anywhere leaves the text as it is. *)
Lemma sub_aux_no_match (r : Re.regex) (t : Re.template) (q : ascii -> bool) :
  (forall s, all_chars q s = true -> Re.match_at r s = None) ->
  forall s, all_chars q s = true -> Re.sub_aux r t 0 s = s.
Proof.
  intros Hr. induction s as [|a s IH]; intros Hs; cbn [Re.sub_aux].
  - by rewrite Hr.
  - rewrite Hr by done. simpl in Hs. apply andb_true_iff in Hs as [_ Hs].
    by rewrite IH.
Qed.

Lemma star_loop_greedy_total {R : Type}
      (body : string -> Re.caps -> (string -> Re.caps -> option R) -> option R)
      (k : string -> Re.caps -> option R) (n : nat) (s : string) (c : Re.caps) :
  (forall s1 c1, k s1 c1 <> None) -> Re.star_loop body true k n s c <> None.
Proof.
  intros Hk. destruct n; cbn [Re.star_loop].
  - apply Hk.
  - destruct (body s c _); [done | apply Hk].
Qed.

(** ** The fuel of the loops is enough *)

Section Fuel.
Context {R : Type}.

Lemma star_loop_ext
      (body : string -> Re.caps -> (string -> Re.caps -> option R) -> option R)
      (g : bool) (k k' : string -> Re.caps -> option R) :
  (forall s c h h', (forall s1 c1, h s1 c1 = h' s1 c1) -> body s c h = body s c h') ->
  (forall s1 c1, k s1 c1 = k' s1 c1) ->
  forall n s c, Re.star_loop body g k n s c = Re.star_loop body g k' n s c.
Proof.
  intros Hbody Hk. induction n as [|n IH]; intros s c; cbn [Re.star_loop].
  - by rewrite Hk.
  - rewrite Hk.
    rewrite (Hbody s c _ (fun s1 c1 =>
               if String.length s1 <? String.length s
               then Re.star_loop body g k' n s1 c1 else None)); [done|].
    intros s1 c1. by rewrite IH.
Qed.

Lemma mt_ext (r : Re.regex) (s : string) (c : Re.caps)
      (k k' : string -> Re.caps -> option R) :
  (forall s1 c1, k s1 c1 = k' s1 c1) -> Re.mt r s c k = Re.mt r s c k'.
Proof.
  revert s c k k'.
  induction r as [q| |r1 IH1 r2 IH2|r1 IH1 r2 IH2|g r IH|i r IH|i];
    intros s c k k' Hk; cbn [Re.mt].
  - destruct s as [|a s]; [done|]. by destruct (q a).
  - apply Hk.
  - apply IH1. intros s1 c1. by apply IH2.
  - by rewrite (IH1 s c k k'), (IH2 s c k k').
  - apply star_loop_ext; [|done]. intros; by apply IH.
  - apply IH. intros s1 c1. apply Hk.
  - destruct (Re.strip_prefix _ s); [apply Hk | done].
Qed.

(** A matcher only succeeds through its continuation. *)
Lemma mt_none (r : Re.regex) (s : string) (c : Re.caps) :
  Re.mt (R:=R) r s c (fun _ _ => None) = None.
Proof.
  revert s c.
  induction r as [q| |r1 IH1 r2 IH2|r1 IH1 r2 IH2|g r IH|i r IH|i];
    intros s c; cbn [Re.mt].
  - destruct s as [|a s]; [done|]. by destruct (q a).
  - done.
  - rewrite (mt_ext r1 s c _ (fun _ _ => None)); [apply IH1|].
    intros s1 c1. apply IH2.
  - by rewrite IH1, IH2.
  - generalize (String.length s) at 1. intros n. revert s c.
    induction n as [|n IHn]; intros s c; cbn [Re.star_loop]; [by destruct g|].
    rewrite (mt_ext r s c _ (fun _ _ => None)).
    + rewrite IH. by destruct g.
    + intros s1 c1. destruct (_ <? _); [apply IHn | done].
  - apply IH.
  - by destruct (Re.strip_prefix _ s).
Qed.

(** A repetition on [s] gives the same result with any fuel that is at
    least the length of [s]: the fuel [String.length s] that [mt] passes
    never runs out. *)
Lemma star_loop_fuel (r : Re.regex) (g : bool) (k : string -> Re.caps -> option R)
      (n m : nat) (s : string) (c : Re.caps) :
  String.length s <= n -> String.length s <= m ->
  Re.star_loop (Re.mt r) g k n s c = Re.star_loop (Re.mt r) g k m s c.
Proof.
  revert m s c. induction n as [|n IH]; intros m s c Hn Hm.
  - destruct s; [|simpl in Hn; lia].
    destruct m as [|m]; [done|]. cbn [Re.star_loop].
    rewrite (mt_ext r EmptyString c _ (fun _ _ => None)) by done.
    by rewrite mt_none.
  - destruct m as [|m].
    + destruct s; [|simpl in Hm; lia]. cbn [Re.star_loop].
      rewrite (mt_ext r EmptyString c _ (fun _ _ => None)) by done.
      by rewrite mt_none.
    + cbn [Re.star_loop].
      rewrite (mt_ext r s c _ (fun s1 c1 =>
                 if String.length s1 <? String.length s
                 then Re.star_loop (Re.mt r) g k m s1 c1 else None)); [done|].
      intros s1 c1. destruct (Nat.ltb_spec (String.length s1) (String.length s)); [|done].
      apply IH; lia.
Qed.

End Fuel.

Lemma word_windows_fuel (step : nat) (words : list string) (n m : nat) :
  1 <= step -> length words <= n -> length words <= m ->
  word_windows n step words = word_windows m step words.
Proof.
  intros Hstep. revert m words. induction n as [|n IH]; intros m words Hn Hm.
  - destruct words; [|simpl in Hn; lia]. by destruct m.
  - destruct words as [|w ws]; [by destruct m|].
    destruct m as [|m]; [simpl in Hm; lia|].
    cbn [word_windows]. f_equal.
    assert (length (skipn step (w :: ws)) <= length ws).
    { destruct step; [lia|]. simpl. rewrite length_skipn. lia. }
    simpl in Hn, Hm. apply IH; lia.
Qed.

(** ** Cleaning leaves no line break *)

Lemma whitespace_match (a : ascii) (s : string) :
  Re.match_at whitespace_re (String a s) =
  if Py.isspace a
  then Re.star_loop (Re.mt Re.space) true (fun s1 c1 => Some (s1, c1)) (String.length s) s []
  else None.
Proof. done. Qed.

Lemma whitespace_match_progress (a : ascii) (s rest : string) (c : Re.caps) :
  Re.match_at whitespace_re (String a s) = Some (rest, c) ->
  String.length rest <= String.length s.
Proof.
  rewrite whitespace_match. destruct (Py.isspace a); [|done]. intros H.
  destruct (star_loop_hands_over (fun _ => true) _ true _
              (mt_hands_over (fun _ => true) Re.space) _ _ _ _ H
              (all_chars_true s) (Forall_nil_2 _))
    as (s1 & c1 & [= -> ->] & ? & _); done.
Qed.

Lemma newline_is_space (a : ascii) : Py.isspace a = false -> not_newline a = true.
Proof.
  intros Ha. unfold not_newline. destruct (Ascii.eqb a Re.nl) eqn:Heq; [|done].
  apply Ascii.eqb_eq in Heq. subst a. done.
Qed.

Lemma sub_whitespace_no_newline (s : string) (skip : nat) :
  all_chars not_newline (Re.sub_aux whitespace_re [inl " "] skip s) = true.
Proof.
  revert skip. induction s as [|a s IH]; intros skip.
  - by destruct skip.
  - cbn [Re.sub_aux]. destruct skip as [|k]; [|apply IH].
    destruct (Re.match_at whitespace_re (String a s)) as [[rest c]|] eqn:Hm.
    + apply whitespace_match_progress in Hm.
      destruct (String.length (String a s) - String.length rest) eqn:Hn;
        [simpl in Hn; lia|].
      simpl. apply IH.
    + rewrite whitespace_match in Hm.
      destruct (Py.isspace a) eqn:Ha.
      * by apply star_loop_greedy_total in Hm.
      * simpl. by rewrite newline_is_space, IH.
Qed.

Lemma newline_led_no_match (r : Re.regex) (s : string) :
  all_chars not_newline s = true ->
  Re.match_at (Re.Seq (Re.chr Re.nl) r) s = None.
Proof.
  destruct s as [|a s]; [done|]. simpl. intros [Ha _]%andb_true_iff.
  unfold not_newline in Ha. apply negb_true_iff in Ha.
  unfold Re.match_at. cbn [Re.mt Re.chr]. by rewrite Ascii.eqb_sym, Ha.
Qed.

Lemma clean_no_newline (text : string) :
  all_chars not_newline (_clean_extracted_text text) = true.
Proof.
  unfold _clean_extracted_text, Re.sub.
  apply all_chars_strip.
  repeat (apply all_chars_replace; [done|]).
  apply sub_aux_all_chars; [by repeat constructor|].
  apply sub_aux_all_chars; [by repeat constructor|].
  apply sub_aux_all_chars; [by repeat constructor|].
  assert (forall r t s, all_chars not_newline s = true ->
            Re.sub_aux (Re.Seq (Re.chr Re.nl) r) t 0 s = s) as Hled.
  { intros r t s Hs. apply (sub_aux_no_match _ _ not_newline); [|done].
    intros. by apply newline_led_no_match. }
  unfold page_footer_re, page_number_re.
  rewrite !Hled; auto using sub_whitespace_no_newline.
  rewrite Hled; auto using sub_whitespace_no_newline.
Qed.

(** ** Chunking *)

Lemma paragraph_chunks_one_paragraph (text : string) (chunk_size : nat) :
  all_chars not_newline text = true ->
  paragraph_chunks text chunk_size =
  if 20 <? String.length (Py.strip text) then [Py.strip (Py.strip text)] else [].
Proof.
  intros Ht. unfold paragraph_chunks. rewrite split_paragraphs_one by done.
  cbn [map List.filter].
  destruct (20 <? String.length (Py.strip text)) eqn:Hlen; [|done].
  cbn [fold_left paragraph_step Py.is_empty negb andb].
  rewrite andb_false_r.
  destruct (Py.strip text) eqn:Hs; [done|]. done.
Qed.

(** ** State passing: what a computation keeps *)

Section Keeps.
Context {E : Externals}.
Variable I : Agent -> Prop.

Lemma keepsM_ret {A} (x : A) : keepsM I (ret x).
Proof. by intros a. Qed.

Lemma keepsM_raise {A} (e : string) : keepsM I (raise (A:=A) e).
Proof. by intros a. Qed.

Lemma keepsM_lift {A} (x : exc A) : keepsM I (lift x).
Proof. by intros a. Qed.

Lemma keepsM_get_agent : keepsM I get_agent.
Proof. by intros a. Qed.

Lemma keepsM_bind {A B} (m : M A) (f : A -> M B) :
  keepsM I m -> (forall x, keepsM I (f x)) -> keepsM I (bind m f).
Proof.
  intros Hm Hf a Ha. unfold bind. specialize (Hm a Ha).
  destruct (m a) as [[x|e] a']; simpl in *; [by apply Hf | done].
Qed.

Lemma keepsM_run {A} (m : St A) : keeps I m -> keepsM I (run m).
Proof.
  intros Hm a Ha. unfold run. specialize (Hm a Ha). by destruct (m a).
Qed.

Lemma keepsM_exec (f : Agent -> Agent) :
  (forall a, I a -> I (f a)) -> keepsM I (exec f).
Proof. intros Hf a Ha. by apply Hf. Qed.

Lemma keepsM_check_fault (s : site) : keepsM I (check_fault s).
Proof. unfold check_fault. destruct (fault s); [apply keepsM_raise | apply keepsM_ret]. Qed.

Lemma keeps_try_except {A} (body : M A) (handler : string -> St A) :
  keepsM I body -> (forall e, keeps I (handler e)) -> keeps I (try_except body handler).
Proof.
  intros Hb Hh a Ha. unfold try_except. specialize (Hb a Ha).
  destruct (body a) as [[x|e] a']; simpl in *; [done | by apply Hh].
Qed.

Lemma keeps_fold_St {A B} (f : B -> A -> St B) (l : list A) :
  (forall b x, keeps I (f b x)) -> forall b, keeps I (fold_St f b l).
Proof.
  intros Hf. induction l as [|x l IH]; intros b a Ha; simpl; [done|].
  specialize (Hf b x a Ha). destruct (f b x a) as [b' a']. by apply IH.
Qed.

Lemma keepsM_fold_M {A B} (f : B -> A -> M B) (l : list A) :
  (forall b x, keepsM I (f b x)) -> forall b, keepsM I (fold_M f b l).
Proof.
  intros Hf. induction l as [|x l IH]; intros b; simpl;
    [apply keepsM_ret | by apply keepsM_bind].
Qed.

(** From here on the property only looks at what is stored. *)
Hypothesis HI : storage_property I.

Lemma keeps_log_action (action : string) (a : Agent) : I a -> I (log_action action a).
Proof. by apply HI. Qed.

Lemma keeps_set_status (s : string) (a : Agent) : I a -> I (set_status s a).
Proof. by apply HI. Qed.

Lemma keeps_with_loaded (b : bool) (a : Agent) : I a -> I (with_loaded b a).
Proof. by apply HI. Qed.

Lemma keepsM_build_indexes : keepsM I _build_enhanced_indexes.
Proof.
  intros a Ha. unfold _build_enhanced_indexes.
  destruct (fallback_storage a) as [fs|] eqn:Hfs; [|done].
  simpl. eapply HI; [|exact Ha].
  unfold stored; simpl. rewrite Hfs.
  by destruct fs as [[|d docs] ? ? ? ? ?].
Qed.

(** ... and is kept when a chunk that passed the length test is stored
    with the metadata made for it. *)
Hypothesis Hstore :
  forall category filename ui_standard standard_info page_num i chunk chunk_id cc a,
    (50 <? String.length (Py.strip chunk)) = true ->
    I a ->
    I (store_chunk chunk_id chunk
         (make_metadata chunk category filename ui_standard standard_info page_num i)
         ui_standard cc a).2.

Lemma keeps_load_chunk category filename ui_standard standard_info page_num cc ic :
  keeps I (load_chunk category filename ui_standard standard_info page_num cc ic).
Proof.
  intros a Ha. unfold load_chunk. destruct ic as [i chunk].
  destruct (50 <? String.length (Py.strip chunk)) eqn:Hlen; [|done].
  by eapply Hstore.
Qed.

Lemma keepsM_load_page category filename ui_standard standard_info cc page :
  keepsM I (load_page category filename ui_standard standard_info cc page).
Proof.
  unfold load_page. destruct page as [page_num get_text].
  apply keepsM_bind; [apply keepsM_lift|]. intros text.
  destruct (100 <? _); [|apply keepsM_ret].
  apply keepsM_bind; [apply keepsM_lift|]. intros chunks.
  apply keepsM_run, keeps_fold_St. intros. apply keeps_load_chunk.
Qed.

Lemma keeps_load_pdf filepath category filename ui_standard standard_info :
  keeps I (_load_pdf_standard_enhanced filepath category filename ui_standard standard_info).
Proof.
  apply keeps_try_except.
  - apply keepsM_bind; [apply keepsM_lift|]. intros pages.
    apply keepsM_bind.
    { apply keepsM_fold_M. intros. apply keepsM_load_page. }
    intros _. apply keepsM_bind; [|intros; apply keepsM_ret].
    apply keepsM_exec. intros. by apply keeps_log_action.
  - intros e a Ha. by apply keeps_log_action.
Qed.

Lemma keeps_try_alt_paths alt_paths category pdf_file standard standard_info n :
  keeps I (try_alt_paths alt_paths category pdf_file standard standard_info n).
Proof.
  induction alt_paths as [|p rest IH]; intros a Ha; simpl; [done|].
  destruct (path_exists p); [|by apply IH].
  pose proof (keeps_load_pdf p category pdf_file standard standard_info a Ha) as H.
  destruct (_load_pdf_standard_enhanced _ _ _ _ _ a) as [[] a']; simpl in *;
    [done | by apply IH].
Qed.

Lemma keeps_load_pdf_file standards_dir category standard standard_info st pdf_file :
  keeps I (load_pdf_file standards_dir category standard standard_info st pdf_file).
Proof.
  intros a Ha. unfold load_pdf_file. destruct st as [n errs].
  destruct (path_exists _).
  - pose proof (keeps_load_pdf (path_join standards_dir [category; pdf_file])
                  category pdf_file standard standard_info a Ha) as H.
    destruct (_load_pdf_standard_enhanced _ _ _ _ _ a) as [[] a']; simpl in *;
      [by apply keeps_log_action | done].
  - pose proof (keeps_try_alt_paths
                  [path_join standards_dir [pdf_file]; pdf_file]
                  category pdf_file standard standard_info n a Ha) as H.
    destruct (try_alt_paths _ _ _ _ _ _ a) as [[[] n'] a']; simpl in *;
      [done | by apply keeps_log_action].
Qed.

Lemma keeps_load_standard standards_dir st standard :
  keeps I (load_standard standards_dir st standard).
Proof.
  intros a Ha. unfold load_standard.
  destruct (mapping_get standard standards_mapping) as [info|].
  - apply keeps_fold_St; [|done]. intros. apply keeps_load_pdf_file.
  - by apply keeps_log_action.
Qed.

Lemma keeps_load_selected_standards selected_standards :
  keeps I (load_selected_standards selected_standards).
Proof.
  intros a Ha. unfold load_selected_standards.
  destruct selected_standards as [|s l].
  { by apply keeps_log_action, keeps_log_action, keeps_set_status. }
  apply keeps_try_except; [| |by apply keeps_log_action, keeps_set_status].
  - destruct (negb (path_exists "standards")).
    { apply keepsM_bind; [|intros; apply keepsM_ret].
      apply keepsM_exec. intros. by apply keeps_log_action. }
    repeat (apply keepsM_bind; [|intros ?]);
      try apply keepsM_ret;
      try (apply keepsM_exec; intros; by (apply keeps_log_action || apply keeps_with_loaded));
      try apply keepsM_build_indexes.
    + apply keepsM_run, keeps_fold_St. intros. apply keeps_load_standard.
    + apply keepsM_exec. intros a' Ha'.
      match goal with |- I match ?v with [] => _ | _ :: _ => _ end => destruct v end;
        [done | by apply keeps_log_action].
  - intros e a' Ha'. by apply keeps_log_action.
Qed.

Ltac keeps_steps :=
  repeat first
    [ apply keepsM_ret | apply keepsM_raise | apply keepsM_lift
    | apply keepsM_get_agent | apply keepsM_check_fault
    | by apply keepsM_build_indexes
    | apply keepsM_exec; intros;
      first [ by apply keeps_log_action | by apply keeps_set_status
            | by apply keeps_with_loaded ]
    | apply keepsM_bind; [|intros ?] ].

Lemma keeps_load_listed_file category_path category n filename :
  keeps I (load_listed_file category_path category n filename).
Proof.
  intros a Ha. unfold load_listed_file.
  destruct (Py.endswith ".pdf" filename); [|done].
  match goal with |- context [_load_pdf_standard_enhanced ?p ?c ?f ?u ?i a] =>
    pose proof (keeps_load_pdf p c f u i a Ha) as H;
    by destruct (_load_pdf_standard_enhanced p c f u i a) end.
Qed.

Lemma keepsM_load_category standards_dir n category :
  keepsM I (load_category standards_dir n category).
Proof.
  unfold load_category. destruct (negb _); keeps_steps.
  apply keepsM_run, keeps_fold_St. intros. apply keeps_load_listed_file.
Qed.

Lemma keeps_load_standards_from_directory standards_dir :
  keeps I (load_standards_from_directory standards_dir).
Proof.
  intros a Ha. unfold load_standards_from_directory.
  destruct (_standards_loaded a); [by apply keeps_log_action|].
  apply keeps_try_except; [| |by apply keeps_log_action, keeps_set_status].
  - apply keepsM_bind; [|intros ?; keeps_steps].
    apply keepsM_fold_M. intros. apply keepsM_load_category.
  - intros e a' Ha'. by apply keeps_with_loaded, keeps_log_action.
Qed.

Lemma keeps_load_standards_if_needed : keeps I _load_standards_if_needed.
Proof.
  intros a Ha. unfold _load_standards_if_needed.
  destruct (_standards_loaded a); [done|].
  destruct (path_exists _).
  - pose proof (keeps_load_standards_from_directory "standards" a Ha) as H.
    by destruct (load_standards_from_directory "standards" a).
  - by apply keeps_with_loaded, keeps_log_action.
Qed.

Lemma keeps_fallback_query query top_k selected_standards :
  keeps I (_enhanced_fallback_query query top_k selected_standards).
Proof.
  apply keeps_try_except.
  - unfold fallback_body. keeps_steps.
    destruct (fallback_storage _) as [fs|]; keeps_steps.
    destruct (documents fs); keeps_steps.
  - intros e a Ha. by apply keeps_log_action.
Qed.

Lemma keeps_chromadb_query query top_k selected_standards :
  keeps I (_enhanced_chromadb_query query top_k selected_standards).
Proof.
  apply keeps_try_except.
  - unfold chromadb_body. keeps_steps. destruct (collection _); keeps_steps.
  - intros e a Ha. by apply keeps_fallback_query, keeps_log_action.
Qed.

Lemma keepsM_process_body query top_k selected_standards :
  keepsM I (process_body query top_k selected_standards).
Proof.
  unfold process_body. keeps_steps.
  - destruct (given selected_standards), (negb (_standards_loaded _)); keeps_steps.
    + apply keepsM_run, keeps_load_selected_standards.
    + apply keepsM_run, keeps_load_standards_if_needed.
  - apply keepsM_run. destruct (collection _);
      [apply keeps_chromadb_query | apply keeps_fallback_query].
Qed.

Lemma keeps_process query top_k selected_standards :
  keeps I (process query top_k selected_standards).
Proof.
  intros a Ha. unfold process.
  apply keeps_try_except.
  - apply keepsM_process_body.
  - intros e a' Ha'. by apply keeps_log_action, keeps_set_status.
  - by apply keeps_log_action, keeps_set_status.
Qed.

End Keeps.

(** ** What storing a chunk does *)

Lemma indexed_documents_stored (a : Agent) :
  indexed_documents a
  = from_option (map item_document) [] (stored a).1 ++ (stored a).2.1.1.
Proof. unfold indexed_documents, stored. by destruct (collection a), (fallback_storage a). Qed.

Lemma indexed_metadatas_stored (a : Agent) :
  indexed_metadatas a
  = from_option (map item_metadata) [] (stored a).1 ++ (stored a).2.1.2.
Proof. unfold indexed_metadatas, stored. by destruct (collection a), (fallback_storage a). Qed.

(** Storing a chunk either stores nothing, or adds a record with a new id
    to the collection, or appends to the three lists of the fallback
    storage, whatever they hold. *)
Lemma store_chunk_stored {E : Externals} (chunk_id chunk : string) (metadata : Metadata)
      (ui_standard : string) (cc : nat) (a : Agent) :
  stored (store_chunk chunk_id chunk metadata ui_standard cc a).2 = stored a
  \/ (exists coll embedding,
        collection a = Some coll
        /\ Py.mem chunk_id (map item_id coll) = false
        /\ stored (store_chunk chunk_id chunk metadata ui_standard cc a).2 =
           (Some (coll ++ [{| item_id := chunk_id; item_embedding := embedding;
                              item_document := chunk; item_metadata := metadata |}]),
            (stored a).2))
  \/ (collection a = None
      /\ stored (store_chunk chunk_id chunk metadata ui_standard cc a).2 =
         (None, ((stored a).2.1.1 ++ [chunk], (stored a).2.1.2 ++ [metadata],
                 (stored a).2.2 ++ [chunk_id]))).
Proof.
  unfold store_chunk. destruct (collection a) as [coll|] eqn:Hcoll.
  - unfold try_except, bind, lift, exec, ret, collection_add.
    destruct (model_encode chunk) as [embedding|e]; cbn [item_id].
    + destruct (Py.mem chunk_id (map item_id coll)) eqn:Hmem.
      * left. destruct (negb _); unfold stored; simpl; by rewrite ?Hcoll.
      * right; left. exists coll, embedding. repeat split; try done.
    + left. destruct (negb _); unfold stored; simpl; by rewrite ?Hcoll.
  - right; right. split; [done|].
    destruct (fallback_storage a) as [fs|] eqn:Hfs; unfold stored; simpl;
      by rewrite ?Hcoll, ?Hfs.
Qed.

Lemma documents_long_storage : storage_property documents_long.
Proof.
  intros a b Hst. unfold documents_long.
  by rewrite !indexed_documents_stored, Hst.
Qed.

Lemma documents_long_store {E : Externals} chunk_id chunk metadata ui_standard cc a :
  (50 <? String.length (Py.strip chunk)) = true ->
  documents_long a ->
  documents_long (store_chunk chunk_id chunk metadata ui_standard cc a).2.
Proof.
  intros Hlen%Nat.ltb_lt Ha. pose proof (length_strip chunk) as Hstrip.
  unfold documents_long in *. rewrite indexed_documents_stored in *.
  destruct (store_chunk_stored chunk_id chunk metadata ui_standard cc a)
    as [-> | [(coll & emb & Hcoll & _ & ->) | [Hcoll ->]]]; [done | |].
  - unfold stored in Ha |- *. rewrite Hcoll in Ha. simpl in *.
    rewrite map_app, <- app_assoc. rewrite Forall_app in Ha. destruct Ha.
    rewrite !Forall_app. repeat split; try done.
    repeat constructor. simpl. lia.
  - simpl. unfold stored in Ha. rewrite Hcoll in Ha. simpl in Ha.
    rewrite Forall_app. split; [done|]. repeat constructor. lia.
Qed.

Lemma lengths_recorded_storage : storage_property lengths_recorded.
Proof.
  intros a b Hst. unfold lengths_recorded.
  by rewrite !indexed_metadatas_stored, Hst.
Qed.

Lemma lengths_recorded_store {E : Externals} chunk_id chunk metadata ui_standard cc a :
  length_recorded metadata ->
  lengths_recorded a ->
  lengths_recorded (store_chunk chunk_id chunk metadata ui_standard cc a).2.
Proof.
  intros Hmd Ha.
  unfold lengths_recorded in *. rewrite indexed_metadatas_stored in *.
  destruct (store_chunk_stored chunk_id chunk metadata ui_standard cc a)
    as [-> | [(coll & emb & Hcoll & _ & ->) | [Hcoll ->]]]; [done | |].
  - unfold stored in Ha |- *. rewrite Hcoll in Ha. simpl in *.
    rewrite map_app, <- app_assoc. rewrite Forall_app in Ha. destruct Ha.
    rewrite !Forall_app. repeat split; try done.
    by repeat constructor.
  - simpl. unfold stored in Ha. rewrite Hcoll in Ha. simpl in Ha.
    rewrite Forall_app. split; [done|]. by repeat constructor.
Qed.

Lemma make_metadata_length_recorded chunk category filename ui_standard standard_info page_num i :
  length_recorded (make_metadata chunk category filename ui_standard standard_info page_num i).
Proof. unfold length_recorded. simpl. lia. Qed.

Lemma mem_elem_of (x : string) (l : list string) : Py.mem x l = true <-> x ∈ l.
Proof.
  unfold Py.mem. rewrite existsb_exists. split.
  - intros (y & Hy & ->%String.eqb_eq). by apply list_elem_of_In.
  - intros Hx. exists x. split; [by apply list_elem_of_In | apply String.eqb_refl].
Qed.

Lemma collection_ids_unique_storage : storage_property collection_ids_unique.
Proof.
  intros a b Hst. unfold collection_ids_unique.
  assert (collection a = collection b) as -> by (by injection Hst). done.
Qed.

Lemma collection_ids_unique_store {E : Externals} chunk_id chunk metadata ui_standard cc a :
  collection_ids_unique a ->
  collection_ids_unique (store_chunk chunk_id chunk metadata ui_standard cc a).2.
Proof.
  intros Ha. unfold collection_ids_unique in *.
  destruct (store_chunk_stored chunk_id chunk metadata ui_standard cc a)
    as [Hst | [(coll & emb & Hcoll & Hmem & Hst) | [Hcoll Hst]]].
  - assert (collection (store_chunk chunk_id chunk metadata ui_standard cc a).2
            = collection a) as -> by (by injection Hst). done.
  - assert (collection (store_chunk chunk_id chunk metadata ui_standard cc a).2
            = Some (coll ++ [{| item_id := chunk_id; item_embedding := emb;
                                item_document := chunk; item_metadata := metadata |}]))
      as -> by (by injection Hst).
    rewrite Hcoll in Ha. rewrite map_app. simpl.
    apply NoDup_app. repeat split; [done | | apply NoDup_singleton].
    intros x Hx ->%list_elem_of_singleton.
    apply mem_elem_of in Hx. congruence.
  - assert (collection (store_chunk chunk_id chunk metadata ui_standard cc a).2 = None)
      as -> by (by injection Hst). done.
Qed.

(** ** C7: the size of a chunk *)

Lemma load_chunk_discards {E : Externals} category filename ui_standard standard_info
      page_num cc i chunk a :
  String.length (Py.strip chunk) <= 50 ->
  load_chunk category filename ui_standard standard_info page_num cc (i, chunk) a = (cc, a).
Proof.
  intros Hlen. unfold load_chunk.
  by destruct (Nat.ltb_spec 50 (String.length (Py.strip chunk))); [lia|].
Qed.

Lemma documents_long_load_pdf {E : Externals} filepath category filename ui_standard
      standard_info :
  keeps documents_long
        (_load_pdf_standard_enhanced filepath category filename ui_standard standard_info).
Proof.
  apply keeps_load_pdf; [apply documents_long_storage|].
  intros. by apply documents_long_store.
Qed.

(** The same holds of every call of [process], which may ingest on demand. *)
Lemma documents_long_process {E : Externals} query top_k selected_standards :
  keeps documents_long (process query top_k selected_standards).
Proof.
  apply keeps_process; [apply documents_long_storage|].
  intros. by apply documents_long_store.
Qed.

Lemma cleaned_text_chunks (raw_text : string) (standard_info : StandardInfo)
      (chunk_size : nat) :
  needs_word_chunking
    (paragraph_chunks (_clean_extracted_text raw_text) chunk_size) chunk_size = false ->
  exists chunks,
    _create_smart_chunks (_clean_extracted_text raw_text) standard_info chunk_size = Ok chunks
    /\ chunks = paragraph_chunks (_clean_extracted_text raw_text) chunk_size
    /\ Forall (fun c => String.length c <= 2 * chunk_size) chunks.
Proof.
  intros Hno. unfold _create_smart_chunks. rewrite Hno.
  eexists. split; [done|]. split; [done|].
  rewrite paragraph_chunks_one_paragraph in * by apply clean_no_newline.
  destruct (20 <? _); [|done].
  simpl in Hno. apply Nat.ltb_ge in Hno.
  repeat constructor. lia.
Qed.

(** The bound on the paragraph chunks rests on the cleaning: a text that
    still has blank lines can put a long paragraph into a chunk of its own
    next to other chunks, and then nothing bounds it. Here the target size
    is 40 and the second chunk has 95 characters. *)
Example paragraph_bound_needs_cleaning :
  _create_smart_chunks
    ("The first paragraph is short." +:+ newline +:+ newline +:+
     "The second paragraph is a long one, much longer than twice the target size of forty characters.")
    (unknown_info "GDPR.pdf") 40
  = Ok [ "The first paragraph is short.";
         "The second paragraph is a long one, much longer than twice the target size of forty characters." ].
Proof. by vm_compute. Qed.

(** C7. Every chunk that [_load_pdf_standard_enhanced] annotates and indexes
    is at least 50 characters long: a chunk whose stripped text has 50
    characters or less, so every chunk shorter than 50, is discarded
    untouched, and the documents of the index, in either backend, keep a
    length of at least 50. And whenever the chunker does not fall back to
    word windows on a cleaned page text, it returns the chunks of the
    paragraph phase and each of them is at most twice the target size long,
    whatever the target size. *)
Theorem C7_chunk_size_bounds :
  (forall (E : Externals) filepath category filename ui_standard standard_info a,
      documents_long a ->
      documents_long
        (_load_pdf_standard_enhanced filepath category filename ui_standard standard_info a).2)
  /\ (forall (E : Externals) category filename ui_standard standard_info page_num cc i chunk a,
        String.length chunk < 50 ->
        load_chunk category filename ui_standard standard_info page_num cc (i, chunk) a
        = (cc, a))
  /\ (forall raw_text standard_info chunk_size,
        needs_word_chunking
          (paragraph_chunks (_clean_extracted_text raw_text) chunk_size) chunk_size = false ->
        exists chunks,
          _create_smart_chunks (_clean_extracted_text raw_text) standard_info chunk_size
          = Ok chunks
          /\ Forall (fun c => String.length c <= 2 * chunk_size) chunks).
Proof.
  split; [|split].
  - intros. by apply documents_long_load_pdf.
  - intros. apply load_chunk_discards. pose proof (length_strip chunk). lia.
  - intros raw_text standard_info chunk_size Hno.
    destruct (cleaned_text_chunks raw_text standard_info chunk_size Hno)
      as (chunks & ? & _ & ?).
    by exists chunks.
Qed.

Lemma C7_chunk_size_bounds_witness :
  documents_long
    (_load_pdf_standard_enhanced (E:=fallback_env) "standards/Global/GDPR.pdf" "Global"
       "GDPR.pdf" "GDPR" (unknown_info "GDPR.pdf") (init_agent "1a2b3c4d" false)).2
  /\ load_chunk (E:=fallback_env) "Global" "GDPR.pdf" "GDPR" (unknown_info "GDPR.pdf")
       0 0 (0, "too short") (init_agent "1a2b3c4d" false)
     = (0, init_agent "1a2b3c4d" false)
  /\ exists chunks,
       _create_smart_chunks (_clean_extracted_text page_one) (unknown_info "GDPR.pdf") 600
       = Ok chunks
       /\ Forall (fun c => String.length c <= 2 * 600) chunks.
Proof.
  destruct C7_chunk_size_bounds as (H1 & H2 & H3).
  split; [|split].
  - apply H1. vm_compute. constructor.
  - apply H2. vm_compute. lia.
  - apply H3. vm_compute. reflexivity.
Defined.

(** ** Substrings *)

Lemma prefix_append_l (p q s : string) :
  String.prefix (p +:+ q) s = true -> String.prefix p s = true.
Proof.
  revert s. induction p as [|a p IH]; intros s; [by destruct s|].
  change (String a p +:+ q) with (String a (p +:+ q)).
  destruct s as [|b s]; cbn [String.prefix]; [done|].
  destruct (ascii_dec a b); [apply IH | done].
Qed.

Lemma contains_append_l (p q s : string) :
  Py.contains (p +:+ q) s = true -> Py.contains p s = true.
Proof.
  induction s as [|b s IH]; cbn [Py.contains].
  - rewrite !orb_false_r. apply prefix_append_l.
  - intros [H|H]%orb_true_iff; apply orb_true_iff;
      [left; by eapply prefix_append_l | right; auto].
Qed.

(** ** C10: the section type of a negated obligation *)

(** C10 (as amended). A chunk whose lower-cased text contains "shall not"
    or "must not" is classified "definition" when one of the definition
    phrases occurs in it and "obligation" otherwise; it is never classified
    "prohibition". *)
Theorem C10_negated_obligation_section_type (chunk : string) :
  (Py.contains "shall not" (Py.lower chunk) || Py.contains "must not" (Py.lower chunk)) = true ->
  _identify_section_type chunk
  = (if existsb (fun pattern => Py.contains pattern (Py.lower chunk))
                ["definition"; "definisi"; "means"; "berarti"; "refers to"; "mengacu"]
     then "definition" else "obligation")
  /\ _identify_section_type chunk <> "prohibition".
Proof.
  intros H.
  assert (Py.contains "shall" (Py.lower chunk) || Py.contains "must" (Py.lower chunk) = true)
    as Hob.
  { apply orb_true_iff in H as [H|H]; apply orb_true_iff; [left|right].
    - by apply (contains_append_l "shall" " not").
    - by apply (contains_append_l "must" " not"). }
  unfold _identify_section_type, section_patterns.
  cbn [first_section_type].
  destruct (existsb _ ["definition"; _; _; _; _; _]); [done|].
  cbn [existsb]. rewrite orb_assoc, Hob. done.
Qed.

Lemma C10_negated_obligation_section_type_witness :
  _identify_section_type "The controller shall not disclose the records."
  = "obligation"
  /\ _identify_section_type "The controller shall not disclose the records."
     <> "prohibition".
Proof.
  apply (C10_negated_obligation_section_type
           "The controller shall not disclose the records.").
  vm_compute. reflexivity.
Defined.

Lemma C10_counterexample :
  Py.contains "shall not"
    (Py.lower "Personal data means any information; it shall not be sold.") = true
  /\ _identify_section_type "Personal data means any information; it shall not be sold."
     <> "obligation".
Proof. split; [by vm_compute | by vm_compute]. Qed.

(** ** C4: the section reference of a chunk *)

Lemma format_match_not_empty (m : Re.caps) : Py.is_empty (format_match m) = false.
Proof.
  unfold format_match. rewrite is_empty_append. apply andb_false_r.
Qed.

(** C4 (as amended). The article of the metadata is the value of
    [article_match]. When the Pasal pattern matches the chunk, it is the
    Pasal match, also when the Article/Section pattern matches as well; when
    only the Article/Section pattern matches it is that match; when neither
    matches it is "Page N" for the page number N, counted from 1. It is
    never empty. *)
Theorem C4_section_reference (chunk category filename ui_standard : string)
        (standard_info : StandardInfo) (page_num i : nat) :
  md_article (make_metadata chunk category filename ui_standard standard_info page_num i)
  = Some (article_match chunk page_num)
  /\ (forall m, Re.search pasal_re chunk = Some m ->
                article_match chunk page_num = format_match m)
  /\ (forall m, Re.search pasal_re chunk = None ->
                Re.search article_re chunk = Some m ->
                article_match chunk page_num = format_match m)
  /\ (Re.search pasal_re chunk = None ->
      Re.search article_re chunk = None ->
      article_match chunk page_num = "Page " +:+ Py.str_of_nat (page_num + 1))
  /\ article_match chunk page_num <> "".
Proof.
  split; [done|]. unfold article_match.
  repeat split.
  - intros m ->. by rewrite format_match_not_empty.
  - intros m -> ->. by rewrite format_match_not_empty.
  - by intros -> ->.
  - destruct (Re.search pasal_re chunk) as [m|];
      [|destruct (Re.search article_re chunk) as [m|]];
      rewrite ?format_match_not_empty; try done;
      pose proof (format_match_not_empty m) as Hm; by destruct (format_match m).
Qed.

Lemma C4_section_reference_witness :
  article_match "Pasal 26 mengatur hak subjek data." 2 = "Pasal 26"
  /\ article_match "Section 4a lists the duties." 2 = "Section 4a"
  /\ article_match "No reference here." 2 = "Page 3".
Proof.
  destruct (C4_section_reference "Pasal 26 mengatur hak subjek data."
              "Nasional" "UU_PDP.pdf" "UU_PDP" (unknown_info "UU_PDP.pdf") 2 0)
    as (_ & H1 & _).
  destruct (C4_section_reference "Section 4a lists the duties."
              "Global" "GDPR.pdf" "GDPR" (unknown_info "GDPR.pdf") 2 0)
    as (_ & _ & H2 & _).
  destruct (C4_section_reference "No reference here."
              "Global" "GDPR.pdf" "GDPR" (unknown_info "GDPR.pdf") 2 0)
    as (_ & _ & _ & H3 & _).
  split; [|split].
  - rewrite (H1 [(2, "26"); (1, "Pasal")]); [|vm_compute]; reflexivity.
  - rewrite (H2 [(2, "4a"); (1, "Section")]); [|vm_compute..]; reflexivity.
  - rewrite H3; [|vm_compute..]; reflexivity.
Defined.

Lemma C4_counterexample :
  exists m,
    Re.search article_re "Article 6 applies together with Pasal 26." = Some m
    /\ format_match m = "Article 6"
    /\ article_match "Article 6 applies together with Pasal 26." 0 = "Pasal 26".
Proof. exists [(2, "6"); (1, "Article")]. by vm_compute. Qed.

(** ** The relevance score *)

Section Score.
Local Open Scope Q_scope.

Lemma pymin_Qmin (a b : Q) : Py.min a b == Qmin a b.
Proof.
  unfold Py.min. destruct (Qle_bool a b) eqn:H.
  - apply Qle_bool_iff in H. symmetry. by apply Q.min_l.
  - assert (b <= a).
  { destruct (Qlt_le_dec b a) as [?%Qlt_le_weak|Hab]; [done|].
    apply Qle_bool_iff in Hab. congruence. }
  symmetry. by apply Q.min_r.
Qed.

Lemma pymin_comp (a a' b b' : Q) : a == a' -> b == b' -> Py.min a b == Py.min a' b'.
Proof. intros Ha Hb. rewrite !pymin_Qmin. by rewrite Ha, Hb. Qed.

Lemma Qnat_nonneg (n : nat) : 0 <= Qnat n.
Proof. unfold Qnat, Qle. simpl. lia. Qed.

Lemma Qnat_le (n m : nat) : (n <= m)%nat -> Qnat n <= Qnat m.
Proof. intros. unfold Qnat, Qle. simpl. lia. Qed.

Lemma fraction_bounds (n m : nat) :
  (n <= m)%nat -> 0 <= spec_fraction n m /\ spec_fraction n m <= 1.
Proof.
  intros Hnm. unfold spec_fraction.
  destruct m as [|m].
  - assert (n = 0)%nat as -> by lia. split; by vm_compute.
  - assert (0 < Qnat (S m)) by (unfold Qnat, Qlt; simpl; lia).
  split.
  + apply Qle_shift_div_l; [done|]. rewrite Qmult_0_l. apply Qnat_nonneg.
  + apply Qle_shift_div_r; [done|]. rewrite Qmult_1_l. by apply Qnat_le.
Qed.

(** Counting the words of a set that pass a test. *)
Lemma length_filter_elements (X : gset string) (f : string -> bool) (P : string -> Prop)
    `{!forall w, Decision (P w)} :
  (forall w, f w = true <-> P w) ->
  length (List.filter f (elements X)) = size (filter P X).
Proof.
  intros Hf. unfold size, set_size. simpl. apply Permutation_length.
  apply NoDup_Permutation.
  - apply NoDup_ListNoDup, List.NoDup_filter, NoDup_ListNoDup, NoDup_elements.
  - apply NoDup_elements.
  - intros w. rewrite elem_of_elements, elem_of_filter, <- Hf.
  rewrite list_elem_of_In, filter_In, <- list_elem_of_In, elem_of_elements. tauto.
Qed.

Lemma existsb_Exists {A} (f : A -> bool) (l : list A) :
  existsb f l = true <-> Exists (fun x => f x = true) l.
Proof.
  rewrite existsb_exists, Exists_exists. setoid_rewrite list_elem_of_In. done.
Qed.

(** The score of the code is the weighted sum of the specification, capped
  at 1. *)
Lemma score_is_capped_sum (query document : string) (metadata : Metadata) (base_score : Q) :
  _calculate_enhanced_relevance query document metadata base_score
  == Py.min (weighted_sum query document metadata base_score) 1.
Proof.
  unfold _calculate_enhanced_relevance. apply pymin_comp; [|done].
  unfold weighted_sum, spec_section_bonus, spec_tagged_words, spec_fraction.
  fold (spec_query_words query). fold (spec_tags metadata).
  rewrite (length_filter_elements (spec_query_words query) _
           (fun word => Exists (fun tag => Py.contains word tag = true)
                               (spec_tags metadata)))
  by (intros; apply existsb_Exists).
  rewrite (pymin_comp (inject_Z (get (md_text_length metadata) 0%Z) / 500)
                    (inject_Z (get (md_text_length metadata) 0%Z) / 500) 1.0 1)
  by done.
  rewrite pymin_Qmin.
  assert (Py.mem (get (md_section_type metadata) "general")
               ["obligation"; "procedure"; "right"]
        = bool_decide (get (md_section_type metadata) "general"
                         ∈ ["obligation"; "procedure"; "right"])) as ->.
  { apply eq_true_iff_eq. rewrite mem_elem_of, bool_decide_eq_true. done. }
  destruct (0 <? size (spec_query_words query))%nat eqn:Hsz.
  - destruct (bool_decide _); ring.
  - apply Nat.ltb_ge in Hsz.
  assert (size (spec_query_words query) = 0)%nat as -> by lia.
  change (Qnat 0) with 0. unfold Qdiv. change (/ 0) with 0.
  destruct (bool_decide _); ring.
Qed.

Lemma weighted_sum_upper (query document : string) (metadata : Metadata) (base_score : Q) :
  weighted_sum query document metadata base_score <= 0.85 + 0.15 * base_score.
Proof.
  unfold weighted_sum.
  destruct (fraction_bounds
            (size (spec_query_words query
                     ∩ (list_to_set (Py.split (Py.lower document)) : gset string)))
            (size (spec_query_words query))) as [_ H1].
  { apply subseteq_size, intersection_subseteq_l. }
  destruct (fraction_bounds (size (spec_tagged_words query metadata))
                          (size (spec_query_words query))) as [_ H2].
  { apply subseteq_size. intros w [_ ?]%elem_of_filter. done. }
  pose proof (Q.le_min_r (inject_Z (get (md_text_length metadata) 0%Z) / 500) 1) as H3.
  assert (spec_section_bonus metadata <= 0.15) as H4.
  { unfold spec_section_bonus. by destruct (bool_decide _). }
  lra.
Qed.

Lemma weighted_sum_lower (query document : string) (metadata : Metadata) (base_score : Q) :
  length_recorded metadata ->
  0.05 + 0.15 * base_score <= weighted_sum query document metadata base_score.
Proof.
  intros Hlen. unfold weighted_sum.
  destruct (fraction_bounds
            (size (spec_query_words query
                     ∩ (list_to_set (Py.split (Py.lower document)) : gset string)))
            (size (spec_query_words query))) as [H1 _].
  { apply subseteq_size, intersection_subseteq_l. }
  destruct (fraction_bounds (size (spec_tagged_words query metadata))
                          (size (spec_query_words query))) as [H2 _].
  { apply subseteq_size. intros w [_ ?]%elem_of_filter. done. }
  assert (0 <= Qmin (inject_Z (get (md_text_length metadata) 0%Z) / 500) 1) as H3.
  { apply Q.min_glb; [|done].
  apply Qle_shift_div_l; [done|]. rewrite Qmult_0_l.
  unfold length_recorded in Hlen. unfold Qle. simpl. lia. }
  assert (0.05 <= spec_section_bonus metadata) as H4.
  { unfold spec_section_bonus. by destruct (bool_decide _). }
  lra.
Qed.

Lemma weighted_sum_comp (query document : string) (metadata : Metadata) (b b' : Q) :
  b == b' -> weighted_sum query document metadata b == weighted_sum query document metadata b'.
Proof. intros H. unfold weighted_sum. by rewrite H. Qed.

(** ** C2: the formula of the score *)

(** C2. The relevance score is exactly the weighted sum of the five
    components, 0.40 times the share of the query words that are words of
    the chunk, 0.20 times the share of the query words that occur in a tag
    of the chunk, the section bonus of 0.15 or 0.05, 0.10 times the smaller
    of text_length / 500 and 1, and 0.15 times the base semantic score,
    for every query, chunk text and metadata and for every base semantic
    score of at most 1. The callers pass no other base: the fallback query
    passes 0.5, and the ChromaDB query passes one minus a distance, which
    is not negative. The score is a function of its four arguments: equal
    base scores give equal scores. *)
Theorem C2_score_formula (query document : string) (metadata : Metadata) (base_score : Q) :
  (base_score <= 1 ->
   _calculate_enhanced_relevance query document metadata base_score
   == weighted_sum query document metadata base_score)
  /\ _calculate_enhanced_relevance query document metadata 0.5
     == weighted_sum query document metadata 0.5
  /\ (forall distance, 0 <= distance ->
      _calculate_enhanced_relevance query document metadata (1 - distance)
      == weighted_sum query document metadata (1 - distance))
  /\ (forall base_score', base_score == base_score' ->
      _calculate_enhanced_relevance query document metadata base_score
      == _calculate_enhanced_relevance query document metadata base_score').
Proof.
  assert (forall b, b <= 1 ->
            _calculate_enhanced_relevance query document metadata b
            == weighted_sum query document metadata b) as Hsum.
  { intros b Hb. rewrite score_is_capped_sum, pymin_Qmin. apply Q.min_l.
    pose proof (weighted_sum_upper query document metadata b). lra. }
  split; [apply Hsum|]. split; [apply Hsum; lra|]. split.
  - intros distance Hd. apply Hsum. lra.
  - intros b' Hb. rewrite !score_is_capped_sum, !pymin_Qmin.
    by rewrite (weighted_sum_comp _ _ _ _ _ Hb).
Qed.

Lemma C2_score_formula_witness :
  _calculate_enhanced_relevance "data consent" page_two
    (scored_metadata "data,personal,consent" "general" 132) (1 - 0.8)
  == weighted_sum "data consent" page_two
       (scored_metadata "data,personal,consent" "general" 132) (1 - 0.8).
Proof.
  destruct (C2_score_formula "data consent" page_two
              (scored_metadata "data,personal,consent" "general" 132) (1 - 0.8))
    as (H & _).
  apply H. vm_compute. discriminate.
Defined.

(** The last line of the scorer, [min(total_score, 1.0)], only shows for a
    base score above 1, which no caller passes: called on its own with the
    base score 2 and every other component at its highest, the sum is 1.15
    and the score is 1. *)
Example score_cap_above_base_one :
  _calculate_enhanced_relevance "data" "data" (scored_metadata "data" "obligation" 500) 2
  == 1
  /\ weighted_sum "data" "data" (scored_metadata "data" "obligation" 500) 2 == 1.15.
Proof. split; by vm_compute. Qed.

(** ** C3: the bounds of the score *)

(** C3 (as amended). The relevance score is at most 1 for every base
    semantic score: the sum is capped. There is no lower clamp; the score is
    not negative when the recorded text length is not negative and the base
    score is at least -1/3, which covers every base that is not negative. *)
Theorem C3_score_bounds (query document : string) (metadata : Metadata) (base_score : Q) :
  _calculate_enhanced_relevance query document metadata base_score <= 1
  /\ (length_recorded metadata -> - (1 # 3) <= base_score ->
      0 <= _calculate_enhanced_relevance query document metadata base_score).
Proof.
  rewrite score_is_capped_sum, pymin_Qmin. split.
  - apply Q.le_min_r.
  - intros Hlen Hb. apply Q.min_glb; [|done].
    pose proof (weighted_sum_lower query document metadata base_score Hlen). lra.
Qed.

Lemma C3_score_bounds_witness :
  0 <= _calculate_enhanced_relevance "data consent" page_two
         (scored_metadata "data,personal,consent" "general" 132) 0.
Proof.
  destruct (C3_score_bounds "data consent" page_two
              (scored_metadata "data,personal,consent" "general" 132) 0)
    as (_ & H).
  apply H.
  - vm_compute. discriminate.
  - vm_compute. discriminate.
Defined.

(** The primary backend passes [1 - distance]; at distance 2 the base is -1
    and the score of a chunk that shares no word with the query is
    negative. *)
Lemma C3_counterexample :
  _calculate_enhanced_relevance "keamanan siber" page_one
    (scored_metadata "controller,law" "general" 119) (1 - 2) < 0.
Proof. by vm_compute. Qed.

(** ** C9: the threshold of the fallback query *)

Lemma fallback_score_lower (query document : string) (metadata : Metadata) :
  length_recorded metadata ->
  0.125 <= _calculate_enhanced_relevance query document metadata 0.5.
Proof.
  intros Hlen. rewrite score_is_capped_sum, pymin_Qmin.
  apply Q.min_glb; [|done].
  pose proof (weighted_sum_lower query document metadata 0.5 Hlen). lra.
Qed.

Lemma fallback_score_passes (query document : string) (metadata : Metadata) :
  length_recorded metadata ->
  Qle_bool (_calculate_enhanced_relevance query document metadata 0.5) 0.1 = false.
Proof.
  intros Hlen. apply not_true_is_false. intros H%Qle_bool_iff.
  pose proof (fallback_score_lower query document metadata Hlen). lra.
Qed.

Lemma fallback_step_passes (query : string) (selected_standards : option (list string))
      (matches : list Standard) (doc : string) (metadata : Metadata) :
  passes_filter selected_standards metadata = true ->
  length_recorded metadata ->
  fallback_step query selected_standards matches (doc, metadata)
  = matches ++ [fallback_item query (length matches + 1) doc metadata
                  (_calculate_enhanced_relevance query doc metadata 0.5)].
Proof.
  intros Hp Hlen. unfold fallback_step. rewrite Hp.
  by rewrite fallback_score_passes.
Qed.

Lemma fallback_step_skips (query : string) (selected_standards : option (list string))
      (matches : list Standard) (doc : string) (metadata : Metadata) :
  passes_filter selected_standards metadata = false ->
  fallback_step query selected_standards matches (doc, metadata) = matches.
Proof. intros Hp. unfold fallback_step. by rewrite Hp. Qed.

Lemma fallback_fold (query : string) (selected_standards : option (list string))
      (l : list (string * Metadata)) :
  Forall (fun x => length_recorded x.2) l ->
  forall matches,
    fold_left (fallback_step query selected_standards) l matches
    = matches ++
      imap (fun i x =>
              fallback_item query (length matches + i + 1) x.1 x.2
                (_calculate_enhanced_relevance query x.1 x.2 0.5))
           (List.filter (fun x => passes_filter selected_standards x.2) l).
Proof.
  induction 1 as [|[doc metadata] l Hx Hl IH]; intros matches;
    cbn [fold_left List.filter].
  - by rewrite app_nil_r.
  - cbn [snd]. destruct (passes_filter selected_standards metadata) eqn:Hp.
    + rewrite fallback_step_passes, IH by done.
      rewrite <- app_assoc. cbn [imap app fst snd]. f_equal. f_equal.
      * by rewrite Nat.add_0_r.
      * apply imap_ext. intros i x _. cbn [compose]. rewrite length_app. cbn [length].
        f_equal. lia.
    + rewrite fallback_step_skips by done. apply IH.
Qed.

(** C9. In the fallback query every stored chunk that passes the filter on
    the selected standards scores at least 0.125, so the threshold of 0.1
    drops none of them: the matches, before they are sorted, are the chunks
    that pass the filter, in the order of the storage and ranked from 1.
    The stored chunks record a text length that is not negative, as the
    loader writes it. *)
Theorem C9_fallback_threshold_keeps_all (query : string)
        (selected_standards : option (list string)) (fs : FallbackStorage) :
  Forall length_recorded (metadatas fs) ->
  fallback_matches query selected_standards fs
  = imap (fun i x =>
            fallback_item query (i + 1) x.1 x.2
              (_calculate_enhanced_relevance query x.1 x.2 0.5))
         (List.filter (fun x => passes_filter selected_standards x.2)
                      (combine (documents fs) (metadatas fs)))
  /\ Forall (fun s => 0.125 <= relevance_score s)
            (fallback_matches query selected_standards fs).
Proof.
  intros Hfs.
  assert (Forall (fun x : string * Metadata => length_recorded x.2)
                 (combine (documents fs) (metadatas fs))) as Hall.
  { apply Forall_forall. intros [doc metadata] Hin%list_elem_of_In%in_combine_r.
    rewrite Forall_forall in Hfs. by apply Hfs, list_elem_of_In. }
  assert (fallback_matches query selected_standards fs
          = imap (fun i x =>
                    fallback_item query (i + 1) x.1 x.2
                      (_calculate_enhanced_relevance query x.1 x.2 0.5))
                 (List.filter (fun x => passes_filter selected_standards x.2)
                              (combine (documents fs) (metadatas fs)))) as Heq.
  { unfold fallback_matches. by rewrite fallback_fold. }
  split; [done|]. rewrite Heq.
  apply Forall_forall. intros s (i & [doc metadata] & -> & Hx)%elem_of_lookup_imap.
  simpl. apply fallback_score_lower.
  apply list_elem_of_lookup_2, list_elem_of_In, filter_In in Hx as [Hx _].
  rewrite Forall_forall in Hall. by apply (Hall (doc, metadata)), list_elem_of_In.
Qed.

Lemma C9_fallback_threshold_keeps_all_witness :
  length (fallback_matches "keamanan siber" (Some ["GDPR"]) sample_storage) = 3%nat.
Proof.
  destruct (C9_fallback_threshold_keeps_all "keamanan siber" (Some ["GDPR"]) sample_storage)
    as [-> _].
  - vm_compute. repeat constructor; discriminate.
  - vm_compute. reflexivity.
Defined.

End Score.

(** Whatever is ingested, by [process] or by the loaders, records a length
    that is not negative. *)
Lemma lengths_recorded_process {E : Externals} query top_k selected_standards :
  keeps lengths_recorded (process query top_k selected_standards).
Proof.
  apply keeps_process; [apply lengths_recorded_storage|].
  intros. apply lengths_recorded_store; [apply make_metadata_length_recorded | done].
Qed.

Lemma lengths_recorded_load_selected {E : Externals} selected_standards :
  keeps lengths_recorded (load_selected_standards selected_standards).
Proof.
  apply keeps_load_selected_standards; [apply lengths_recorded_storage|].
  intros. apply lengths_recorded_store; [apply make_metadata_length_recorded | done].
Qed.

Lemma lengths_recorded_init (instance : string) (primary : bool) :
  lengths_recorded (init_agent instance primary).
Proof. destruct primary; vm_compute; constructor. Qed.

(** ** Sorting and truncating *)

Lemma insert_desc_perm {A} (key : A -> Q) (x : A) (l : list A) :
  insert_desc key x l ≡ₚ x :: l.
Proof.
  induction l as [|y l IH]; simpl; [done|].
  destruct (Qle_bool (key y) (key x)); [done|].
  rewrite IH. apply Permutation_swap.
Qed.

Lemma sort_desc_perm {A} (key : A -> Q) (l : list A) : sort_desc key l ≡ₚ l.
Proof.
  induction l as [|x l IH]; simpl; [done|].
  by rewrite insert_desc_perm, IH.
Qed.

Lemma slice_to_sublist {A} (k : Z) (l : list A) : Py.slice_to k l `sublist_of` l.
Proof. unfold Py.slice_to. destruct (0 <=? k)%Z; apply sublist_take. Qed.

(** ** C1: one item per section reference *)

(** The loop of the ChromaDB query keeps the articles of the items pairwise
    distinct and all of them in [seen_articles]. *)
Lemma chromadb_step_distinct (query : string) (st : list Standard * gset string)
      (x : string * Metadata * Q) :
  NoDup (map article st.1) /\ (forall s, s ∈ st.1 -> article s ∈ st.2) ->
  NoDup (map article (chromadb_step query st x).1)
  /\ (forall s, s ∈ (chromadb_step query st x).1 -> article s ∈ (chromadb_step query st x).2).
Proof.
  destruct st as [retrieved seen], x as [[doc metadata] distance].
  intros [Hnd Hseen]. unfold chromadb_step.
  destruct (negb _ && bool_decide (_ ∉ seen) && _) eqn:Hc; [|done].
  apply andb_true_iff in Hc as [[_ Hnew%bool_decide_eq_true]%andb_true_iff _].
  cbn [fst snd]. split.
  - rewrite map_app. cbn [map]. apply NoDup_app.
    repeat split; [done | | apply NoDup_singleton].
    intros a Ha Hb%list_elem_of_singleton. apply Hnew.
    apply list_elem_of_In, in_map_iff in Ha as (s & Hs1 & Hs%list_elem_of_In).
    cbn [article chromadb_item] in Hb. rewrite <- Hb, <- Hs1. by apply Hseen.
  - intros s [Hs | ->%list_elem_of_singleton]%elem_of_app.
    + apply elem_of_union_r. by apply Hseen.
    + apply elem_of_union_l. by apply elem_of_singleton.
Qed.

Lemma chromadb_fold_distinct (query : string) (l : list (string * Metadata * Q))
      (st : list Standard * gset string) :
  NoDup (map article st.1) /\ (forall s, s ∈ st.1 -> article s ∈ st.2) ->
  NoDup (map article (fold_left (chromadb_step query) l st).1).
Proof.
  revert st. induction l as [|x l IH]; intros st Hst; cbn [fold_left].
  - by destruct Hst.
  - by apply IH, chromadb_step_distinct.
Qed.

(** On the ChromaDB path no two returned items share an article. *)
Lemma chromadb_standards_distinct (query : string) (top_k : Z) (results : QueryResults) :
  NoDup (map article (chromadb_standards query top_k results)).
Proof.
  unfold chromadb_standards.
  apply (sublist_NoDup _ (map article (sort_desc relevance_score
            match res_documents results with
            | [] => []
            | _ :: _ =>
                (fold_left (chromadb_step query)
                           (zip3 (res_documents results) (res_metadatas results)
                                 (res_distances results)) ([], ∅)).1
            end))).
  2: { apply (fmap_sublist article), slice_to_sublist. }
  rewrite (sort_desc_perm relevance_score).
  destruct (res_documents results); [constructor|].
  apply chromadb_fold_distinct. split; [apply NoDup_nil_2 | by intros ? ?%elem_of_nil].
Qed.

(** C1 (the fallback path fails it). On the ChromaDB path no two returned
    items share an article, whatever the collection answers. On the fallback
    path they can: with the fallback storage holding the three pages of the
    sample file, two of which cite Article 6, the query "data consent" on
    the standard GDPR comes back with two items whose article is
    "Article 6". The fallback query does not remove the items that repeat an
    article, as the ChromaDB query does. *)
Theorem C1_fallback_repeats_article :
  (forall query top_k results,
      NoDup (map article (chromadb_standards query top_k results)))
  /\ map article
         (standards (process (E:=fallback_env) "data consent" 5 (Some ["GDPR"])
                             fallback_agent).1)
     = ["Article 7"; "Article 6"; "Article 6"].
Proof.
  split.
  - apply chromadb_standards_distinct.
  - by vm_compute.
Qed.

(** ** C5: rank and position *)

(** C5 (the code fails it). The rank of an item is its position among the
    items kept before they are sorted; the sort by relevance does not
    renumber them. On both paths the first item returned for the query
    "data consent" does not have rank 1. *)
Theorem C5_rank_is_not_position :
  map rank
      (standards (process (E:=fallback_env) "data consent" 5 (Some ["GDPR"])
                          fallback_agent).1)
  = [3; 2; 1]
  /\ map rank
         (standards (process (E:=primary_env) "data consent" 5 (Some ["GDPR"])
                             primary_agent).1)
     = [2; 1].
Proof. split; by vm_compute. Qed.

(** ** C8: chunk ids *)

(** On the primary backend the ids of the collection stay pairwise
    distinct: a record whose id is present is refused and the refusal is
    swallowed. *)
Lemma collection_ids_unique_process {E : Externals} query top_k selected_standards :
  keeps collection_ids_unique (process query top_k selected_standards).
Proof.
  apply keeps_process; [apply collection_ids_unique_storage|].
  intros. by apply collection_ids_unique_store.
Qed.

Lemma collection_ids_unique_load_selected {E : Externals} selected_standards :
  keeps collection_ids_unique (load_selected_standards selected_standards).
Proof.
  apply keeps_load_selected_standards; [apply collection_ids_unique_storage|].
  intros. by apply collection_ids_unique_store.
Qed.

(** C8 (the fallback backend fails it). Loading the standard GDPR twice
    into an agent that runs on the fallback storage appends every chunk a
    second time under the id it has already: the fallback branch never looks
    at the ids it holds. On the primary backend the second load changes
    nothing. *)
Theorem C8_fallback_repeats_chunk_id :
  option_map ids
    (fallback_storage
       (load_selected_standards (E:=fallback_env) ["GDPR"]
          (load_selected_standards (E:=fallback_env) ["GDPR"] fallback_agent).2).2)
  = Some [ "GDPR.pdf_p1_c1_1a2b3c4d"; "GDPR.pdf_p2_c1_1a2b3c4d"; "GDPR.pdf_p3_c1_1a2b3c4d";
           "GDPR.pdf_p1_c1_1a2b3c4d"; "GDPR.pdf_p2_c1_1a2b3c4d"; "GDPR.pdf_p3_c1_1a2b3c4d" ]
  /\ option_map (map item_id)
       (collection
          (load_selected_standards (E:=primary_env) ["GDPR"]
             (load_selected_standards (E:=primary_env) ["GDPR"] primary_agent).2).2)
     = Some [ "GDPR.pdf_p1_c1_1a2b3c4d"; "GDPR.pdf_p2_c1_1a2b3c4d";
              "GDPR.pdf_p3_c1_1a2b3c4d" ].
Proof. split; by vm_compute. Qed.

(** ** C6: exceptions during retrieval *)

Lemma bind_Ok {A B} (m : M A) (f : A -> M B) (a a' : Agent) (y : B) :
  bind m f a = (Ok y, a') ->
  exists x a1, m a = (Ok x, a1) /\ f x a1 = (Ok y, a').
Proof.
  unfold bind. destruct (m a) as [[x|e] a1]; [|done]. intros H. by exists x, a1.
Qed.

Lemma run_Ok {A} (m : St A) (a a' : Agent) (x : A) :
  run m a = (Ok x, a') -> m a = (x, a').
Proof. unfold run. destruct (m a). by intros [= -> ->]. Qed.

(** The query bodies return, when they return, a response that reports
    success and has no error field. *)
Lemma fallback_body_Ok {E : Externals} (query : string) (top_k : Z)
      (selected_standards : option (list string)) (a a' : Agent) (r : Response) :
  fallback_body query top_k selected_standards a = (Ok r, a') ->
  success r = true /\ error r = None.
Proof.
  unfold fallback_body. intros Hb.
  apply bind_Ok in Hb as (_ & a1 & _ & Hb).
  apply bind_Ok in Hb as (a2 & a3 & _ & Hb).
  destruct (fallback_storage a2) as [fs|]; [|by injection Hb as <- _].
  destruct (documents fs); [by injection Hb as <- _|].
  repeat (apply bind_Ok in Hb as (? & ? & _ & Hb)).
  by injection Hb as <- _.
Qed.

Lemma chromadb_body_Ok {E : Externals} (query : string) (top_k : Z)
      (selected_standards : option (list string)) (a a' : Agent) (r : Response) :
  chromadb_body query top_k selected_standards a = (Ok r, a') ->
  success r = true /\ error r = None.
Proof.
  unfold chromadb_body. intros Hb.
  repeat (apply bind_Ok in Hb as (? & ? & _ & Hb)).
  by injection Hb as <- _.
Qed.

Lemma fallback_query_shape {E : Externals} (query : string) (top_k : Z)
      (selected_standards : option (list string)) (a : Agent) :
  success (_enhanced_fallback_query query top_k selected_standards a).1 = true
  /\ (error (_enhanced_fallback_query query top_k selected_standards a).1 <> None ->
      standards (_enhanced_fallback_query query top_k selected_standards a).1 = []).
Proof.
  unfold _enhanced_fallback_query, try_except.
  destruct (fallback_body query top_k selected_standards a) as [[r|e] a'] eqn:Hb;
    [|done].
  apply fallback_body_Ok in Hb as [? ?]. cbn [fst]. split; [done | congruence].
Qed.

Lemma fallback_query_raise {E : Externals} (query : string) (top_k : Z)
      (selected_standards : option (list string)) (a a' : Agent) (e : string) :
  fallback_body query top_k selected_standards a = (Raise e, a') ->
  (_enhanced_fallback_query query top_k selected_standards a).1 = error_response query e.
Proof. intros Hb. unfold _enhanced_fallback_query, try_except. by rewrite Hb. Qed.

Lemma chromadb_query_raise {E : Externals} (query : string) (top_k : Z)
      (selected_standards : option (list string)) (a a' : Agent) (e : string) :
  chromadb_body query top_k selected_standards a = (Raise e, a') ->
  _enhanced_chromadb_query query top_k selected_standards a
  = _enhanced_fallback_query query top_k selected_standards
      (log_action "Enhanced ChromaDB query error" a').
Proof. intros Hb. unfold _enhanced_chromadb_query at 1. unfold try_except. by rewrite Hb. Qed.

Lemma chromadb_query_shape {E : Externals} (query : string) (top_k : Z)
      (selected_standards : option (list string)) (a : Agent) :
  success (_enhanced_chromadb_query query top_k selected_standards a).1 = true
  /\ (error (_enhanced_chromadb_query query top_k selected_standards a).1 <> None ->
      standards (_enhanced_chromadb_query query top_k selected_standards a).1 = []).
Proof.
  unfold _enhanced_chromadb_query, try_except.
  destruct (chromadb_body query top_k selected_standards a) as [[r|e] a'] eqn:Hb.
  - apply chromadb_body_Ok in Hb as [? ?]. cbn [fst]. split; [done | congruence].
  - apply fallback_query_shape.
Qed.

Lemma process_shape {E : Externals} (query : string) (top_k : Z)
      (selected_standards : option (list string)) (a : Agent) :
  success (process query top_k selected_standards a).1 = true
  /\ (error (process query top_k selected_standards a).1 <> None ->
      standards (process query top_k selected_standards a).1 = []).
Proof.
  unfold process, try_except.
  match goal with |- context [process_body ?q ?k ?s ?a0] =>
    destruct (process_body q k s a0) as [[r|e] a'] eqn:Hb end; [|done].
  unfold process_body in Hb.
  apply bind_Ok in Hb as (_ & a1 & _ & Hb).
  apply bind_Ok in Hb as (a2 & a3 & _ & Hb).
  apply bind_Ok in Hb as (_ & a4 & _ & Hb).
  apply bind_Ok in Hb as (a5 & a6 & _ & Hb).
  apply bind_Ok in Hb as (result & a7 & Hq%run_Ok & Hb).
  apply bind_Ok in Hb as (_ & a8 & _ & Hb).
  apply bind_Ok in Hb as (_ & a9 & _ & Hb).
  injection Hb as <- _. cbn [fst].
  destruct (collection a5).
  - pose proof (chromadb_query_shape query top_k selected_standards a6) as H.
    by rewrite Hq in H.
  - pose proof (fallback_query_shape query top_k selected_standards a6) as H.
    by rewrite Hq in H.
Qed.

Lemma process_raise {E : Externals} (query : string) (top_k : Z)
      (selected_standards : option (list string)) (a a' : Agent) (e : string) :
  process_body query top_k selected_standards
    (log_action "Enhanced retrieval process started" (set_status "retrieving" a))
  = (Raise e, a') ->
  (process query top_k selected_standards a).1 = error_response query e.
Proof. intros Hb. unfold process, try_except. by rewrite Hb. Qed.

(** C6 (as amended). [process] returns a response whatever happens in the
    calls it makes: no exception leaves it, and the response always reports
    success. A response with an error field carries no standards. An
    exception that leaves the [try] block of [process] or the [try] block of
    the fallback query gives the response with the empty list of standards
    and the error field. An exception that leaves the [try] block of the
    ChromaDB query does not: the query answers with whatever the fallback
    query returns. *)
Theorem C6_process_contains_exceptions {E : Externals} (query : string) (top_k : Z)
        (selected_standards : option (list string)) (a : Agent) :
  success (process query top_k selected_standards a).1 = true
  /\ (error (process query top_k selected_standards a).1 <> None ->
      standards (process query top_k selected_standards a).1 = [])
  /\ (forall e a',
        process_body query top_k selected_standards
          (log_action "Enhanced retrieval process started" (set_status "retrieving" a))
        = (Raise e, a') ->
        (process query top_k selected_standards a).1 = error_response query e)
  /\ (forall e a',
        fallback_body query top_k selected_standards a = (Raise e, a') ->
        (_enhanced_fallback_query query top_k selected_standards a).1
        = error_response query e)
  /\ (forall e a',
        chromadb_body query top_k selected_standards a = (Raise e, a') ->
        _enhanced_chromadb_query query top_k selected_standards a
        = _enhanced_fallback_query query top_k selected_standards
            (log_action "Enhanced ChromaDB query error" a')).
Proof.
  destruct (process_shape query top_k selected_standards a) as [H1 H2].
  split; [done|]. split; [done|]. split; [|split].
  - intros e a'. apply process_raise.
  - intros e a'. apply fallback_query_raise.
  - intros e a'. apply chromadb_query_raise.
Qed.

Lemma C6_process_contains_exceptions_witness :
  (process (E:=faulty_env) "data consent" 5 None primary_agent).1
  = error_response "data consent" "out of memory".
Proof.
  destruct (C6_process_contains_exceptions (E:=faulty_env) "data consent" 5 None
              primary_agent) as (_ & _ & H & _).
  apply (H "out of memory"
           (log_action "Enhanced retrieval process started"
              (set_status "retrieving" primary_agent))).
  vm_compute. reflexivity.
Defined.

(** The embedding model fails while the query is embedded: the response has
    no error field. *)
Lemma C6_counterexample :
  model_encode (Externals:=failing_model_env) "data consent" = Raise "CUDA out of memory"
  /\ error (process (E:=failing_model_env) "data consent" 5 None
                    (with_loaded true primary_agent)).1 = None
  /\ message (process (E:=failing_model_env) "data consent" 5 None
                      (with_loaded true primary_agent)).1
     = Some "No standards available".
Proof. by vm_compute. Qed.

(** * Further properties *)

(** ** What a query answers *)

Lemma check_fault_Ok {E : Externals} (s : site) (a a' : Agent) (x : unit) :
  check_fault s a = (Ok x, a') -> a' = a.
Proof. unfold check_fault. destruct (fault s); [done|]. by intros [= _ <-]. Qed.

Lemma get_agent_Ok (a a' b : Agent) : get_agent a = (Ok b, a') -> b = a /\ a' = a.
Proof. by intros [= <- <-]. Qed.

Lemma exec_Ok (f : Agent -> Agent) (a a' : Agent) (x : unit) :
  exec f a = (Ok x, a') -> a' = f a.
Proof. by intros [= _ <-]. Qed.

Lemma lift_Ok {A} (v : exc A) (a a' : Agent) (x : A) :
  lift v a = (Ok x, a') -> v = Ok x /\ a' = a.
Proof. by intros [= <- <-]. Qed.

Lemma ret_Ok {A} (v x : A) (a a' : Agent) : ret v a = (Ok x, a') -> x = v /\ a' = a.
Proof. by intros [= <- <-]. Qed.

(** What the fallback query answers, and the state it leaves. *)
Lemma fallback_query_cases {E : Externals} (query : string) (top_k : Z)
      (selected_standards : option (list string)) (a : Agent) :
  let r := (_enhanced_fallback_query query top_k selected_standards a).1 in
  let a' := (_enhanced_fallback_query query top_k selected_standards a).2 in
  collection a' = collection a /\ fallback_storage a' = fallback_storage a
  /\ _standards_loaded a' = _standards_loaded a
  /\ ((exists e, r = error_response query e)
      \/ r = no_standards_response query
      \/ exists fs, fallback_storage a = Some fs
                    /\ r = fallback_response query top_k selected_standards fs).
Proof.
  unfold _enhanced_fallback_query, try_except.
  destruct (fallback_body query top_k selected_standards a) as [[r|e] a'] eqn:Hb.
  - unfold fallback_body in Hb.
    apply bind_Ok in Hb as (_ & a1 & ->%check_fault_Ok & Hb).
    apply bind_Ok in Hb as (a2 & a3 & [-> ->]%get_agent_Ok & Hb).
    destruct (fallback_storage a) as [fs|] eqn:Hfs.
    + destruct (documents fs) eqn:Hdocs.
      * apply ret_Ok in Hb as [-> ->]. cbn [fst snd]. rewrite Hfs. eauto 10.
      * apply bind_Ok in Hb as (_ & a1 & ->%exec_Ok & Hb).
        apply bind_Ok in Hb as (_ & a2 & ->%exec_Ok & Hb).
        apply ret_Ok in Hb as [-> ->]. cbn [fst snd].
        repeat split; try done. right. right. by exists fs.
    + apply ret_Ok in Hb as [-> ->]. cbn [fst snd]. rewrite Hfs. eauto 10.
  - cbn [fst snd].
    assert (collection a' = collection a /\ fallback_storage a' = fallback_storage a
            /\ _standards_loaded a' = _standards_loaded a) as (? & ? & ?).
    { unfold fallback_body, bind, check_fault in Hb.
      destruct (fault Fallback_start).
      { by injection Hb as _ <-. }
      cbn in Hb. destruct (fallback_storage a) as [fs|]; [|done].
      destruct (documents fs); done. }
    repeat split; try done. left. by exists e.
Qed.

(** ** State passing: properties that look at the whole agent *)

Lemma enumerate_lt {A} (l : list A) (i : nat) (x : A) :
  (i, x) ∈ enumerate l -> i < length l.
Proof.
  unfold enumerate. intros H%list_elem_of_In%in_combine_l%in_seq. lia.
Qed.

Section Frame.
Context {E : Externals}.
Variable I : Agent -> Prop.

Lemma keeps_fold_St_in {A B} (f : B -> A -> St B) (l : list A) :
  (forall b x, x ∈ l -> keeps I (f b x)) -> forall b, keeps I (fold_St f b l).
Proof.
  induction l as [|x l IH]; intros Hf b a Ha; simpl; [done|].
  pose proof (Hf b x (list_elem_of_here _ _) a Ha) as H.
  destruct (f b x a) as [b' a']. apply IH; [|done].
  intros b0 y Hy. apply Hf. by apply list_elem_of_further.
Qed.

Lemma keepsM_fold_M_in {A B} (f : B -> A -> M B) (l : list A) :
  (forall b x, x ∈ l -> keepsM I (f b x)) -> forall b, keepsM I (fold_M f b l).
Proof.
  induction l as [|x l IH]; intros Hf b; simpl; [apply keepsM_ret|].
  apply keepsM_bind; [apply Hf, list_elem_of_here|].
  intros b'. apply IH. intros b0 y Hy. apply Hf. by apply list_elem_of_further.
Qed.

Lemma keepsM_get_bind {A} (f : Agent -> M A) :
  (forall a, I a -> I (f a a).2) -> keepsM I (bind get_agent f).
Proof. intros Hf a Ha. by apply Hf. Qed.

(** The property is kept by an entry in the log and by a change of status
    other than to ["error"]. *)
Hypothesis I_log : forall action a, I a -> I (log_action action a).
Hypothesis I_status : forall s a, s <> "error" -> I a -> I (set_status s a).

Ltac frame_steps :=
  repeat first
    [ apply keepsM_ret | apply keepsM_raise | apply keepsM_lift
    | apply keepsM_get_agent | apply keepsM_check_fault
    | apply keepsM_exec; intros;
      first [ by apply I_log | by apply I_status ]
    | apply keepsM_bind; [|intros ?] ].

Lemma frame_fallback_body query top_k selected_standards :
  keepsM I (fallback_body query top_k selected_standards).
Proof.
  unfold fallback_body. frame_steps.
  destruct (fallback_storage _) as [fs|]; frame_steps.
  destruct (documents fs); frame_steps.
Qed.

Lemma frame_fallback_query query top_k selected_standards :
  keeps I (_enhanced_fallback_query query top_k selected_standards).
Proof.
  apply keeps_try_except; [apply frame_fallback_body|].
  intros e a Ha. by apply I_log.
Qed.

Lemma frame_chromadb_body query top_k selected_standards :
  keepsM I (chromadb_body query top_k selected_standards).
Proof. unfold chromadb_body. frame_steps. destruct (collection _); frame_steps. Qed.

Lemma frame_chromadb_query query top_k selected_standards :
  keeps I (_enhanced_chromadb_query query top_k selected_standards).
Proof.
  apply keeps_try_except; [apply frame_chromadb_body|].
  intros e a Ha. by apply frame_fallback_query, I_log.
Qed.

(** A query of an agent whose standards are loaded. *)
Lemma frame_process_loaded query top_k selected_standards (a : Agent) :
  (forall b, I b -> _standards_loaded b = true) ->
  (forall b, I b -> I (set_status "error" b)) ->
  I a -> I (process query top_k selected_standards a).2.
Proof.
  intros Hloaded Herror Ha. unfold process.
  apply keeps_try_except.
  - unfold process_body.
    apply keepsM_bind; [apply keepsM_check_fault|]. intros _.
    apply keepsM_get_bind. intros b Hb. rewrite (Hloaded b Hb). cbn [negb].
    match goal with |- I (?m b).2 => enough (keepsM I m) as H by (by apply H) end.
    frame_steps.
    + destruct (given selected_standards); frame_steps.
    + apply keepsM_run. destruct (collection _);
        [apply frame_chromadb_query | apply frame_fallback_query].
  - intros e a' Ha'. by apply I_log, Herror.
  - by apply I_log, I_status.
Qed.

(** The property is kept when the loader marks the standards as loaded and
    when it builds the indexes ... *)
Hypothesis I_loaded : forall a, I a -> I (with_loaded true a).
Hypothesis I_build : keepsM I _build_enhanced_indexes.

(** ... and when it stores a chunk of one of the first fifteen pages of a
    file it was called for, with the id and the metadata made for it. *)
Variable called_for : string -> string -> string -> StandardInfo -> Prop.

Hypothesis I_store :
  forall category filename ui_standard standard_info page_num i chunk cc a,
    called_for category filename ui_standard standard_info ->
    page_num < 15 ->
    (50 <? String.length (Py.strip chunk)) = true ->
    I a ->
    I (store_chunk (make_chunk_id filename page_num i (instance_id a)) chunk
         (make_metadata chunk category filename ui_standard standard_info page_num i)
         ui_standard cc a).2.

Lemma frame_load_chunk category filename ui_standard standard_info page_num cc ic :
  called_for category filename ui_standard standard_info ->
  page_num < 15 ->
  keeps I (load_chunk category filename ui_standard standard_info page_num cc ic).
Proof.
  intros Hc Hp a Ha. unfold load_chunk. destruct ic as [i chunk].
  destruct (50 <? String.length (Py.strip chunk)) eqn:Hlen; [|done].
  by apply I_store.
Qed.

Lemma frame_load_page category filename ui_standard standard_info cc page :
  called_for category filename ui_standard standard_info ->
  page.1 < 15 ->
  keepsM I (load_page category filename ui_standard standard_info cc page).
Proof.
  intros Hc Hp. unfold load_page. destruct page as [page_num get_text].
  apply keepsM_bind; [apply keepsM_lift|]. intros text.
  destruct (100 <? _); [|apply keepsM_ret].
  apply keepsM_bind; [apply keepsM_lift|]. intros chunks.
  apply keepsM_run, keeps_fold_St. intros. by apply frame_load_chunk.
Qed.

Lemma frame_load_pdf filepath category filename ui_standard standard_info :
  called_for category filename ui_standard standard_info ->
  keeps I (_load_pdf_standard_enhanced filepath category filename ui_standard standard_info).
Proof.
  intros Hc. apply keeps_try_except.
  - apply keepsM_bind; [apply keepsM_lift|]. intros pages.
    apply keepsM_bind.
    { apply keepsM_fold_M_in. intros b [page_num p] Hin. apply frame_load_page; [done|].
      apply enumerate_lt in Hin. rewrite length_take in Hin. simpl. lia. }
    intros _. frame_steps.
  - intros e a Ha. by apply I_log.
Qed.

Lemma frame_try_alt_paths alt_paths category pdf_file standard standard_info n :
  called_for category pdf_file standard standard_info ->
  keeps I (try_alt_paths alt_paths category pdf_file standard standard_info n).
Proof.
  intros Hc. induction alt_paths as [|p rest IH]; intros a Ha; simpl; [done|].
  destruct (path_exists p); [|by apply IH].
  pose proof (frame_load_pdf p category pdf_file standard standard_info Hc a Ha) as H.
  destruct (_load_pdf_standard_enhanced _ _ _ _ _ a) as [[] a']; simpl in *;
    [done | by apply IH].
Qed.

Lemma frame_load_pdf_file standards_dir category standard standard_info st pdf_file :
  called_for category pdf_file standard standard_info ->
  keeps I (load_pdf_file standards_dir category standard standard_info st pdf_file).
Proof.
  intros Hc a Ha. unfold load_pdf_file. destruct st as [n errs].
  destruct (path_exists _).
  - pose proof (frame_load_pdf (path_join standards_dir [category; pdf_file])
                  category pdf_file standard standard_info Hc a Ha) as H.
    destruct (_load_pdf_standard_enhanced _ _ _ _ _ a) as [[] a']; simpl in *;
      [by apply I_log | done].
  - pose proof (frame_try_alt_paths
                  [path_join standards_dir [pdf_file]; pdf_file]
                  category pdf_file standard standard_info n Hc a Ha) as H.
    destruct (try_alt_paths _ _ _ _ _ _ a) as [[[] n'] a']; simpl in *;
      [done | by apply I_log].
Qed.

(** The files the loaders are called for: the files of a standard of the
    catalogue, and the files found in a category directory. *)
Hypothesis called_for_selected :
  forall standard standard_info pdf_file,
    mapping_get standard standards_mapping = Some standard_info ->
    pdf_file ∈ files standard_info ->
    called_for (category standard_info) pdf_file standard standard_info.

Hypothesis called_for_listed :
  forall category filename,
    category ∈ ["Global"; "Nasional"] ->
    called_for category filename (_get_ui_standard_from_filename filename)
      (default (unknown_info filename)
         (mapping_get (_get_ui_standard_from_filename filename) standards_mapping)).

Lemma frame_load_standard standards_dir st standard :
  keeps I (load_standard standards_dir st standard).
Proof.
  intros a Ha. unfold load_standard.
  destruct (mapping_get standard standards_mapping) as [info|] eqn:Hget.
  - apply keeps_fold_St_in; [|done]. intros. apply frame_load_pdf_file.
    by apply called_for_selected.
  - by apply I_log.
Qed.

Lemma frame_load_selected_standards selected_standards :
  keeps I (load_selected_standards selected_standards).
Proof.
  intros a Ha. unfold load_selected_standards.
  destruct selected_standards as [|s l].
  { by apply I_log, I_log, I_status. }
  apply keeps_try_except; [| |by apply I_log, I_status].
  - destruct (negb (path_exists "standards")); [frame_steps|].
    repeat (apply keepsM_bind; [|intros ?]);
      try apply keepsM_ret;
      try (apply keepsM_exec; intros; by (apply I_log || apply I_loaded));
      try apply I_build.
    + apply keepsM_run, keeps_fold_St. intros. apply frame_load_standard.
    + apply keepsM_exec. intros a' Ha'.
      match goal with |- I match ?v with [] => _ | _ :: _ => _ end => destruct v end;
        [done | by apply I_log].
  - intros e a' Ha'. by apply I_log.
Qed.

Lemma frame_load_listed_file category_path category n filename :
  category ∈ ["Global"; "Nasional"] ->
  keeps I (load_listed_file category_path category n filename).
Proof.
  intros Hc a Ha. unfold load_listed_file.
  destruct (Py.endswith ".pdf" filename); [|done].
  match goal with |- context [_load_pdf_standard_enhanced ?p ?c ?f ?u ?i a] =>
    pose proof (frame_load_pdf p c f u i (called_for_listed c f Hc) a Ha) as H;
    by destruct (_load_pdf_standard_enhanced p c f u i a) end.
Qed.

Lemma frame_load_category standards_dir n category :
  category ∈ ["Global"; "Nasional"] ->
  keepsM I (load_category standards_dir n category).
Proof.
  intros Hc. unfold load_category. destruct (negb _); frame_steps.
  apply keepsM_run, keeps_fold_St. intros. by apply frame_load_listed_file.
Qed.

Lemma frame_load_standards_from_directory standards_dir :
  keeps I (load_standards_from_directory standards_dir).
Proof.
  intros a Ha. unfold load_standards_from_directory.
  destruct (_standards_loaded a); [by apply I_log|].
  apply keeps_try_except; [| |by apply I_log, I_status].
  - apply keepsM_bind.
    { apply keepsM_fold_M_in. intros. by apply frame_load_category. }
    intros ?. repeat (apply keepsM_bind; [|intros ?]);
      try apply keepsM_ret; try apply I_build;
      apply keepsM_exec; intros; by (apply I_log || apply I_loaded).
  - intros e a' Ha'. by apply I_loaded, I_log.
Qed.

Lemma frame_load_standards_if_needed : keeps I _load_standards_if_needed.
Proof.
  intros a Ha. unfold _load_standards_if_needed.
  destruct (_standards_loaded a); [done|].
  destruct (path_exists _).
  - pose proof (frame_load_standards_from_directory "standards" a Ha) as H.
    by destruct (load_standards_from_directory "standards" a).
  - by apply I_loaded, I_log.
Qed.

Lemma frame_process_body query top_k selected_standards :
  keepsM I (process_body query top_k selected_standards).
Proof.
  unfold process_body. frame_steps.
  - destruct (given selected_standards), (negb (_standards_loaded _)); frame_steps.
    + apply keepsM_run, frame_load_selected_standards.
    + apply keepsM_run, frame_load_standards_if_needed.
  - apply keepsM_run. destruct (collection _);
      [apply frame_chromadb_query | apply frame_fallback_query].
Qed.

Lemma frame_process query top_k selected_standards (a : Agent) :
  (forall b, I b -> I (set_status "error" b)) ->
  I a -> I (process query top_k selected_standards a).2.
Proof.
  intros Herror Ha. unfold process.
  apply keeps_try_except.
  - apply frame_process_body.
  - intros e a' Ha'. by apply I_log, Herror.
  - by apply I_log, I_status.
Qed.

End Frame.

(** ** The answers of the two searches and of [process] *)

Lemma same_index_refl (a : Agent) : same_index a a.
Proof. done. Qed.

Lemma same_index_log (a : Agent) (action : string) (b : Agent) :
  same_index a b -> same_index a (log_action action b).
Proof. done. Qed.

Lemma same_index_status (a : Agent) (s : string) (b : Agent) :
  same_index a b -> same_index a (set_status s b).
Proof. done. Qed.

Lemma same_index_fallback_query {E : Externals} query top_k selected_standards (a : Agent) :
  same_index a (_enhanced_fallback_query query top_k selected_standards a).2.
Proof.
  apply (frame_fallback_query (same_index a)); [| |done].
  - intros. by apply same_index_log.
  - intros. by apply same_index_status.
Qed.

Lemma same_index_chromadb_query {E : Externals} query top_k selected_standards (a : Agent) :
  same_index a (_enhanced_chromadb_query query top_k selected_standards a).2.
Proof.
  apply (frame_chromadb_query (same_index a)); [| |done].
  - intros. by apply same_index_log.
  - intros. by apply same_index_status.
Qed.

Lemma fallback_query_answer {E : Externals} (query : string) (top_k : Z)
      (selected_standards : option (list string)) (a : Agent) :
  let r := (_enhanced_fallback_query query top_k selected_standards a).1 in
  (exists e, r = error_response query e)
  \/ r = no_standards_response query
  \/ exists fs, fallback_storage a = Some fs
                /\ r = fallback_response query top_k selected_standards fs.
Proof. apply fallback_query_cases. Qed.

Lemma chromadb_query_answer {E : Externals} (query : string) (top_k : Z)
      (selected_standards : option (list string)) (a : Agent) :
  let r := (_enhanced_chromadb_query query top_k selected_standards a).1 in
  (exists e, r = error_response query e)
  \/ r = no_standards_response query
  \/ (exists fs, fallback_storage a = Some fs
                 /\ r = fallback_response query top_k selected_standards fs)
  \/ (exists coll query_embedding results,
        collection a = Some coll
        /\ model_encode query = Ok query_embedding
        /\ chroma_query coll query_embedding (Z.min (top_k * 2) 20)
             (if given selected_standards then selected_standards else None)
           = Ok results
        /\ r = chromadb_response query top_k results).
Proof.
  unfold _enhanced_chromadb_query, try_except.
  destruct (chromadb_body query top_k selected_standards a) as [[r|e] a'] eqn:Hb.
  - cbn [fst]. unfold chromadb_body in Hb.
    apply bind_Ok in Hb as (emb & a1 & [Hemb ->]%lift_Ok & Hb).
    apply bind_Ok in Hb as (a2 & a3 & [-> ->]%get_agent_Ok & Hb).
    apply bind_Ok in Hb as (coll & a1 & Hcoll & Hb).
    destruct (collection a) as [c|] eqn:Hc; [|done].
    apply ret_Ok in Hcoll as [-> ->].
    apply bind_Ok in Hb as (results & a1 & [Hres ->]%lift_Ok & Hb).
    apply bind_Ok in Hb as (_ & a1 & ->%check_fault_Ok & Hb).
    apply bind_Ok in Hb as (_ & a1 & ->%exec_Ok & Hb).
    apply bind_Ok in Hb as (_ & a2 & ->%exec_Ok & Hb).
    apply ret_Ok in Hb as [-> ->].
    right. right. right. by exists c, emb, results.
  - assert (same_index a a') as (_ & Hfs & _).
    { pose proof (frame_chromadb_body (same_index a)
                    (same_index_log a) (fun s b _ => same_index_status a s b)
                    query top_k selected_standards a (same_index_refl a)) as H.
      by rewrite Hb in H. }
    destruct (fallback_query_answer query top_k selected_standards
                (log_action "Enhanced ChromaDB query error" a'))
      as [?|[?|(fs & Hfs' & ?)]]; [by left | by right; left |].
    right. right. left. exists fs. split; [|done].
    rewrite <- Hfs. exact Hfs'.
Qed.

(** What [process] answers, in terms of the agent it leaves behind. *)
Lemma process_answer {E : Externals} (query : string) (top_k : Z)
      (selected_standards : option (list string)) (a : Agent) :
  let r := (process query top_k selected_standards a).1 in
  let a' := (process query top_k selected_standards a).2 in
  (exists e, r = error_response query e)
  \/ r = no_standards_response query
  \/ (exists fs, fallback_storage a' = Some fs
                 /\ r = fallback_response query top_k selected_standards fs)
  \/ (exists coll query_embedding results,
        collection a' = Some coll
        /\ model_encode query = Ok query_embedding
        /\ chroma_query coll query_embedding (Z.min (top_k * 2) 20)
             (if given selected_standards then selected_standards else None)
           = Ok results
        /\ r = chromadb_response query top_k results).
Proof.
  unfold process, try_except.
  match goal with |- context [process_body ?q ?k ?s ?a0] =>
    destruct (process_body q k s a0) as [[r|e] a'] eqn:Hb end;
    [|left; by exists e].
  cbn [fst snd]. unfold process_body in Hb.
  apply bind_Ok in Hb as (_ & a1 & _ & Hb).
  apply bind_Ok in Hb as (a2 & a3 & _ & Hb).
  apply bind_Ok in Hb as (_ & a4 & _ & Hb).
  apply bind_Ok in Hb as (a5 & a6 & [-> ->]%get_agent_Ok & Hb).
  apply bind_Ok in Hb as (result & a7 & Hq%run_Ok & Hb).
  apply bind_Ok in Hb as (_ & a8 & ->%check_fault_Ok & Hb).
  apply bind_Ok in Hb as (_ & a9 & ->%exec_Ok & Hb).
  apply ret_Ok in Hb as [-> ->].
  change (collection (log_action _ a7)) with (collection a7).
  change (fallback_storage (log_action _ a7)) with (fallback_storage a7).
  destruct (collection a4) eqn:Hc.
  - pose proof (chromadb_query_answer query top_k selected_standards a4) as H.
    pose proof (same_index_chromadb_query query top_k selected_standards a4)
      as (Hc' & Hfs' & _).
    rewrite Hq in H, Hc', Hfs'. cbn [fst snd] in *. rewrite Hc', Hfs'.
    rewrite Hc. rewrite Hc in H. exact H.
  - pose proof (fallback_query_answer query top_k selected_standards a4) as H.
    pose proof (same_index_fallback_query query top_k selected_standards a4)
      as (_ & Hfs' & _).
    rewrite Hq in H, Hfs'. cbn [fst snd] in *. rewrite Hfs'.
    destruct H as [?|[?|?]]; auto.
Qed.

(** ** The order and the number of the standards returned *)

Lemma insert_desc_ranked (x : Standard) (l : list Standard) :
  ranked_by_score l -> ranked_by_score (insert_desc relevance_score x l).
Proof.
  induction l as [|y l IH]; cbn [insert_desc ranked_by_score]; [done|].
  intros [Hy Hl].
  destruct (Qle_bool (relevance_score y) (relevance_score x)) eqn:Hle;
    cbn [ranked_by_score].
  - apply Qle_bool_iff in Hle. split; [|done].
    constructor; [done|]. eapply Forall_impl; [exact Hy|].
    intros z Hz. cbn beta in Hz. by eapply Qle_trans.
  - split; [|by apply IH].
    rewrite (insert_desc_perm relevance_score x l). constructor; [|done].
    destruct (Qlt_le_dec (relevance_score y) (relevance_score x)) as [Hlt|Hge]; [|done].
    apply Qlt_le_weak, Qle_bool_iff in Hlt. congruence.
Qed.

Lemma sort_desc_ranked (l : list Standard) : ranked_by_score (sort_desc relevance_score l).
Proof.
  induction l as [|x l IH]; [done|]. by apply insert_desc_ranked.
Qed.

Lemma take_ranked (n : nat) (l : list Standard) :
  ranked_by_score l -> ranked_by_score (take n l).
Proof.
  revert n. induction l as [|x l IH]; intros [|n]; cbn [take ranked_by_score]; try done.
  intros [Hx Hl]. split; [by apply Forall_take | by apply IH].
Qed.

Lemma slice_to_ranked (k : Z) (l : list Standard) :
  ranked_by_score l -> ranked_by_score (Py.slice_to k l).
Proof. intros. unfold Py.slice_to. destruct (0 <=? k)%Z; by apply take_ranked. Qed.

Lemma slice_to_length {A} (k : Z) (l : list A) :
  (0 <= k)%Z -> length (Py.slice_to k l) <= Z.to_nat k.
Proof.
  intros Hk. unfold Py.slice_to. apply Z.leb_le in Hk. rewrite Hk.
  rewrite length_take. lia.
Qed.

Lemma Forall_slice_sort {A} (P : A -> Prop) (key : A -> Q) (k : Z) (l : list A) :
  Forall P l -> Forall P (Py.slice_to k (sort_desc key l)).
Proof.
  intros Hl. apply Forall_forall. intros x Hx.
  eapply elem_of_sublist in Hx; [|apply slice_to_sublist].
  rewrite (sort_desc_perm key) in Hx.
  rewrite Forall_forall in Hl. by apply Hl.
Qed.

(** A standard is in the answer of [process] only if it is in the answer of
    one of the two searches. *)
Lemma process_standards {E : Externals} (P : Standard -> Prop) (query : string) (top_k : Z)
      (selected_standards : option (list string)) (a : Agent) :
  (forall fs, fallback_storage (process query top_k selected_standards a).2 = Some fs ->
              Forall P (fallback_standards query top_k selected_standards fs)) ->
  (forall results, Forall P (chromadb_standards query top_k results)) ->
  Forall P (standards (process query top_k selected_standards a).1).
Proof.
  intros Hf Hc.
  destruct (process_answer query top_k selected_standards a)
    as [[e ->]|[->|[(fs & Hfs & ->)|(coll & emb & results & _ & _ & _ & ->)]]];
    cbn [standards error_response no_standards_response fallback_response
         chromadb_response]; auto.
Qed.

(** X1. The standards that [process] returns are in the order of their
    relevance scores, the highest first, whichever search answered. *)
Theorem X1_process_ranks_by_score {E : Externals} (query : string) (top_k : Z)
        (selected_standards : option (list string)) (a : Agent) :
  ranked_by_score (standards (process query top_k selected_standards a).1).
Proof.
  destruct (process_answer query top_k selected_standards a)
    as [[e ->]|[->|[(fs & Hfs & ->)|(coll & emb & results & _ & _ & _ & ->)]]];
    cbn [standards error_response no_standards_response fallback_response
         chromadb_response]; try done.
  - apply slice_to_ranked, sort_desc_ranked.
  - apply slice_to_ranked, sort_desc_ranked.
Qed.

(** X2. With a [top_k] that is not negative [process] returns at most
    [top_k] standards. *)
Theorem X2_process_at_most_top_k {E : Externals} (query : string) (top_k : Z)
        (selected_standards : option (list string)) (a : Agent) :
  (0 <= top_k)%Z ->
  length (standards (process query top_k selected_standards a).1) <= Z.to_nat top_k.
Proof.
  intros Hk.
  destruct (process_answer query top_k selected_standards a)
    as [[e ->]|[->|[(fs & Hfs & ->)|(coll & emb & results & _ & _ & _ & ->)]]];
    cbn [standards error_response no_standards_response fallback_response
         chromadb_response length]; try lia.
  - by apply slice_to_length.
  - by apply slice_to_length.
Qed.

Lemma X2_process_at_most_top_k_witness :
  length (standards (process (E:=fallback_env) "data consent" 2 (Some ["GDPR"])
                       fallback_agent).1) <= 2.
Proof.
  apply (X2_process_at_most_top_k (E:=fallback_env) "data consent" 2 (Some ["GDPR"])
           fallback_agent).
  lia.
Defined.

(** ** Where the standards of an answer come from *)

Lemma passes_filter_selected (selected_standards : option (list string))
      (metadata : Metadata) :
  passes_filter selected_standards metadata = true ->
  given selected_standards = true ->
  get (md_ui_standard metadata) "Unknown" ∈ default [] selected_standards.
Proof.
  unfold passes_filter. intros Hp Hg. rewrite Hg in Hp. cbn [andb] in Hp.
  apply negb_true_iff, negb_false_iff in Hp. unfold standard_selected in Hp.
  destruct (md_ui_standard metadata) as [u|]; [|done].
  by apply mem_elem_of.
Qed.

Lemma fallback_step_from_storage (query : string)
      (selected_standards : option (list string)) (l : list (string * Metadata))
      (matches : list Standard) (x : string * Metadata) :
  x ∈ l ->
  Forall (from_storage query selected_standards l) matches ->
  Forall (from_storage query selected_standards l)
         (fallback_step query selected_standards matches x).
Proof.
  intros Hx Hm. destruct x as [doc metadata]. unfold fallback_step.
  destruct (passes_filter selected_standards metadata) eqn:Hp; [|done].
  cbn [negb].
  destruct (Qle_bool (_calculate_enhanced_relevance query doc metadata 0.5) 0.1) eqn:Hs;
    [done|].
  cbn [negb]. apply Forall_app. split; [done|]. constructor; [|done].
  exists doc, metadata. repeat split; try done.
  cbn [relevance_score fallback_item].
  apply Qnot_le_lt. intros H%Qle_bool_iff. congruence.
Qed.

Lemma fallback_fold_from_storage (query : string)
      (selected_standards : option (list string)) (l l' : list (string * Metadata))
      (matches : list Standard) :
  l' ⊆ l ->
  Forall (from_storage query selected_standards l) matches ->
  Forall (from_storage query selected_standards l)
         (fold_left (fallback_step query selected_standards) l' matches).
Proof.
  revert matches. induction l' as [|x l' IH]; intros matches Hl Hm; cbn [fold_left]; [done|].
  apply IH; [set_solver|]. apply fallback_step_from_storage; [|done]. set_solver.
Qed.

Lemma fallback_standards_from_storage (query : string) (top_k : Z)
      (selected_standards : option (list string)) (fs : FallbackStorage) :
  Forall (from_storage query selected_standards (combine (documents fs) (metadatas fs)))
         (fallback_standards query top_k selected_standards fs).
Proof.
  unfold fallback_standards. apply Forall_slice_sort.
  unfold fallback_matches. by apply fallback_fold_from_storage.
Qed.

(** X3. A standard in an answer of the fallback search is a chunk of the
    index the agent is left with: its fields other than the rank are those
    of [fallback_item] for that chunk and its metadata, with the score of
    the chunk for the base score 0.5; its score is above 0.1; and when
    standards are selected its [ui_standard] is one of them. *)
Theorem X3_fallback_answer_from_index {E : Externals} (query : string) (top_k : Z)
        (selected_standards : option (list string)) (a : Agent) :
  method (process query top_k selected_standards a).1 = Some "enhanced_fallback" ->
  Forall (fun s =>
            exists doc metadata,
              (doc, metadata) ∈ indexed_pairs (process query top_k selected_standards a).2
              /\ s = fallback_item query (rank s) doc metadata
                       (_calculate_enhanced_relevance query doc metadata 0.5)
              /\ (0.1 < relevance_score s)%Q
              /\ (given selected_standards = true ->
                  ui_standard s ∈ default [] selected_standards))
         (standards (process query top_k selected_standards a).1).
Proof.
  intros Hm.
  destruct (process_answer query top_k selected_standards a)
    as [[e Hr]|[Hr|[(fs & Hfs & Hr)|(coll & emb & results & _ & _ & _ & Hr)]]];
    rewrite Hr in Hm |- *; try done.
  cbn [standards fallback_response].
  eapply Forall_impl; [apply fallback_standards_from_storage|].
  intros s (doc & metadata & Hin & Heq & Hscore & Hp).
  exists doc, metadata. repeat split; try done.
  - unfold indexed_pairs. rewrite Hfs. apply elem_of_app. by right.
  - intros Hg. rewrite Heq. cbn [ui_standard fallback_item].
    by apply passes_filter_selected.
Qed.

Lemma X3_fallback_answer_from_index_witness :
  Forall (fun s =>
            exists doc metadata,
              (doc, metadata) ∈ indexed_pairs (process (E:=fallback_env) "data consent" 2
                                                 (Some ["GDPR"]) fallback_agent).2
              /\ s = fallback_item "data consent" (rank s) doc metadata
                       (_calculate_enhanced_relevance "data consent" doc metadata 0.5)
              /\ (0.1 < relevance_score s)%Q
              /\ (given (Some ["GDPR"]) = true ->
                  ui_standard s ∈ default [] (Some ["GDPR"])))
         (standards (process (E:=fallback_env) "data consent" 2 (Some ["GDPR"])
                       fallback_agent).1).
Proof.
  apply (X3_fallback_answer_from_index (E:=fallback_env) "data consent" 2 (Some ["GDPR"])
           fallback_agent).
  vm_compute. reflexivity.
Defined.

(** The loop of the ChromaDB query only takes a chunk that has an article
    and more than 30 characters of text. *)
Lemma chromadb_step_text (query : string) (st : list Standard * gset string)
      (x : string * Metadata * Q) :
  Forall has_article_and_text st.1 ->
  Forall has_article_and_text (chromadb_step query st x).1.
Proof.
  destruct st as [retrieved seen], x as [[doc metadata] distance].
  intros Hst. unfold chromadb_step.
  destruct (negb _ && bool_decide (_ ∉ seen) && _) eqn:Hc; [|done].
  apply andb_true_iff in Hc as [[Ha%negb_true_iff _]%andb_true_iff Hlen%Nat.ltb_lt].
  cbn [fst]. apply Forall_app. split; [done|]. constructor; [|done].
  split; [|done]. cbn [article chromadb_item]. intros Heq. by rewrite Heq in Ha.
Qed.

Lemma chromadb_fold_text (query : string) (l : list (string * Metadata * Q))
      (st : list Standard * gset string) :
  Forall has_article_and_text st.1 ->
  Forall has_article_and_text (fold_left (chromadb_step query) l st).1.
Proof.
  revert st. induction l as [|x l IH]; intros st Hst; cbn [fold_left]; [done|].
  by apply IH, chromadb_step_text.
Qed.

Lemma chromadb_standards_text (query : string) (top_k : Z) (results : QueryResults) :
  Forall has_article_and_text (chromadb_standards query top_k results).
Proof.
  unfold chromadb_standards. apply Forall_slice_sort.
  destruct (res_documents results); [done|]. by apply chromadb_fold_text.
Qed.

(** X4. A standard in an answer of the ChromaDB search has an article that
    is not empty and a content of more than 30 characters, white space at
    its ends not counted, whatever the collection answered. *)
Theorem X4_chromadb_answer_has_text {E : Externals} (query : string) (top_k : Z)
        (selected_standards : option (list string)) (a : Agent) :
  method (process query top_k selected_standards a).1 = Some "enhanced_chromadb" ->
  Forall (fun s => article s <> EmptyString
                   /\ 30 < String.length (Py.strip (content s)))
         (standards (process query top_k selected_standards a).1).
Proof.
  intros Hm.
  destruct (process_answer query top_k selected_standards a)
    as [[e Hr]|[Hr|[(fs & Hfs & Hr)|(coll & emb & results & _ & _ & _ & Hr)]]];
    rewrite Hr in Hm |- *; try done.
  apply chromadb_standards_text.
Qed.

Lemma X4_chromadb_answer_has_text_witness :
  Forall (fun s => article s <> EmptyString
                   /\ 30 < String.length (Py.strip (content s)))
         (standards (process (E:=primary_env) "data consent" 2 (Some ["GDPR"])
                       primary_agent).1).
Proof.
  apply (X4_chromadb_answer_has_text (E:=primary_env) "data consent" 2 (Some ["GDPR"])
           primary_agent).
  vm_compute. reflexivity.
Defined.

(** ** The compliance checker keeps every standard of an answer *)

Lemma requirements_fold (l : list Standard) (requirements : list Requirement) :
  Forall (fun s => 30 < String.length (content s)) l ->
  fold_left requirements_step l requirements = requirements ++ map requirement_of l.
Proof.
  revert requirements. induction l as [|s l IH]; intros requirements Hl; cbn [fold_left map].
  - by rewrite app_nil_r.
  - apply Forall_cons in Hl as [Hs Hl]. rewrite IH by done.
    unfold requirements_step.
    destruct (content s) eqn:Hc; [simpl in Hs; lia|].
    apply Nat.ltb_lt in Hs. rewrite Hs. cbn [Py.is_empty negb andb].
    by rewrite <- app_assoc.
Qed.

Lemma fallback_standards_long (query : string) (top_k : Z)
      (selected_standards : option (list string)) (fs : FallbackStorage) :
  Forall (fun d => 50 <= String.length d) (documents fs) ->
  Forall (fun s => 30 < String.length (content s))
         (fallback_standards query top_k selected_standards fs).
Proof.
  intros Hd. eapply Forall_impl; [apply fallback_standards_from_storage|].
  intros s (doc & metadata & Hin & -> & _). cbn [content fallback_item].
  apply list_elem_of_In, in_combine_l, list_elem_of_In in Hin.
  rewrite Forall_forall in Hd. specialize (Hd doc Hin). lia.
Qed.

(** X5. When every document of the index has at least 50 characters, as the
    loader leaves it, the compliance checker turns every standard of an
    answer of [process] into a requirement, in the order of the answer: its
    test on the length of the content drops none. *)
Theorem X5_checker_keeps_every_standard {E : Externals} (query : string) (top_k : Z)
        (selected_standards : option (list string)) (a : Agent) :
  documents_long a ->
  requirements_of_response (process query top_k selected_standards a).1
  = map requirement_of (standards (process query top_k selected_standards a).1).
Proof.
  intros Ha. unfold requirements_of_response.
  rewrite requirements_fold; [done|].
  apply process_standards.
  - intros fs Hfs. apply fallback_standards_long.
    pose proof (documents_long_process query top_k selected_standards a Ha) as Hlong.
    unfold documents_long, indexed_documents in Hlong. rewrite Hfs in Hlong.
    by apply Forall_app in Hlong as [_ ?].
  - intros results. eapply Forall_impl; [apply chromadb_standards_text|].
    intros s [_ Hlen]. pose proof (length_strip (content s)). lia.
Qed.

Lemma X5_checker_keeps_every_standard_witness :
  requirements_of_response
    (process (E:=fallback_env) "data consent" 3 (Some ["GDPR"]) fallback_agent).1
  = map requirement_of
      (standards (process (E:=fallback_env) "data consent" 3 (Some ["GDPR"])
                    fallback_agent).1).
Proof.
  apply (X5_checker_keeps_every_standard (E:=fallback_env) "data consent" 3
           (Some ["GDPR"]) fallback_agent).
  vm_compute. constructor.
Defined.

(** ** What the score does not depend on *)

Lemma lower_char_idem (c : ascii) : Py.lower_char (Py.lower_char c) = Py.lower_char c.
Proof. by destruct c as [[] [] [] [] [] [] [] []]. Qed.

Lemma lower_idem (s : string) : Py.lower (Py.lower s) = Py.lower s.
Proof. induction s as [|c s IH]; simpl; [done|]. by rewrite lower_char_idem, IH. Qed.

Lemma lower_append (s t : string) : Py.lower (s +:+ t) = Py.lower s +:+ Py.lower t.
Proof. induction s as [|c s IH]; simpl; [done|]. by rewrite IH. Qed.

Lemma split_aux_space (c : ascii) (t : string) :
  Py.isspace c = true -> Py.split_aux (String c t) = (EmptyString, Py.split t).
Proof.
  intros Hc. cbn [Py.split_aux]. unfold Py.split.
  destruct (Py.split_aux t) as [w ws]. by rewrite Hc.
Qed.

Lemma split_aux_append (s : string) (c : ascii) (t : string) :
  Py.isspace c = true ->
  Py.split_aux (s +:+ String c t)
  = ((Py.split_aux s).1, (Py.split_aux s).2 ++ Py.split t).
Proof.
  intros Hc. induction s as [|a s IH].
  - change (EmptyString +:+ String c t) with (String c t).
    by rewrite split_aux_space.
  - change (String a s +:+ String c t) with (String a (s +:+ String c t)).
    cbn [Py.split_aux]. rewrite IH. destruct (Py.split_aux s) as [w ws]. cbn [fst snd].
    destruct (Py.isspace a); [|done]. by destruct (Py.is_empty w).
Qed.

Lemma split_append_space (s t : string) :
  Py.split (s +:+ " " +:+ t) = Py.split s ++ Py.split t.
Proof.
  unfold Py.split at 1 2.
  change (" " +:+ t) with (String " " t).
  rewrite split_aux_append by done.
  destruct (Py.split_aux s) as [w ws]. cbn [fst snd]. by destruct (Py.is_empty w).
Qed.

(** The score reads the query through the set of its words in lower case. *)
Lemma score_query_words (query query' document : string) (metadata : Metadata)
      (base_score : Q) :
  spec_query_words query = spec_query_words query' ->
  _calculate_enhanced_relevance query document metadata base_score
  = _calculate_enhanced_relevance query' document metadata base_score.
Proof.
  unfold spec_query_words, _calculate_enhanced_relevance. cbv zeta.
  by intros ->.
Qed.

(** X6. The score of a chunk does not depend on the letter case of the
    query or of the chunk, nor on the order in which the query gives its
    words, nor on a word being given twice. *)
Theorem X6_score_reads_word_set (query query' document : string) (metadata : Metadata)
        (base_score : Q) :
  _calculate_enhanced_relevance (Py.lower query) (Py.lower document) metadata base_score
  = _calculate_enhanced_relevance query document metadata base_score
  /\ _calculate_enhanced_relevance (query +:+ " " +:+ query') document metadata base_score
     = _calculate_enhanced_relevance (query' +:+ " " +:+ query) document metadata base_score
  /\ _calculate_enhanced_relevance (query +:+ " " +:+ query) document metadata base_score
     = _calculate_enhanced_relevance query document metadata base_score.
Proof.
  split; [|split].
  - unfold _calculate_enhanced_relevance. by rewrite !lower_idem.
  - apply score_query_words. unfold spec_query_words.
    rewrite !lower_append, !split_append_space.
    apply set_eq. intros w. rewrite !elem_of_list_to_set, !elem_of_app. tauto.
  - apply score_query_words. unfold spec_query_words.
    rewrite !lower_append, !split_append_space.
    apply set_eq. intros w. rewrite !elem_of_list_to_set, !elem_of_app. tauto.
Qed.

Section ScoreOrder.
Local Open Scope Q_scope.

(** X7. The score of a chunk does not go down when its base score goes up:
    in the ChromaDB search, where the base score is one minus the distance,
    the nearer of two results with the same text and metadata does not
    score lower. *)
Theorem X7_score_monotone_in_base (query document : string) (metadata : Metadata)
        (base_score base_score' : Q) :
  base_score <= base_score' ->
  _calculate_enhanced_relevance query document metadata base_score
  <= _calculate_enhanced_relevance query document metadata base_score'.
Proof.
  intros Hb. rewrite !score_is_capped_sum, !pymin_Qmin.
  apply Q.min_le_compat_r. unfold weighted_sum. lra.
Qed.

Lemma X7_score_monotone_in_base_witness :
  _calculate_enhanced_relevance "data consent" page_two
    (scored_metadata "data,consent" "general" 130) (1 - 0.9)
  <= _calculate_enhanced_relevance "data consent" page_two
       (scored_metadata "data,consent" "general" 130) (1 - 0.8).
Proof.
  apply (X7_score_monotone_in_base "data consent" page_two
           (scored_metadata "data,consent" "general" 130) (1 - 0.9) (1 - 0.8)).
  vm_compute. discriminate.
Defined.

End ScoreOrder.

(** ** The count of matched keywords *)

Lemma split_aux_words (s : string) :
  Forall (fun w => w <> EmptyString) (Py.split_aux s).2.
Proof.
  induction s as [|a s IH]; cbn [Py.split_aux]; [done|].
  destruct (Py.split_aux s) as [w ws]. cbn [snd] in *.
  destruct (Py.isspace a); [|done]. cbn [snd].
  destruct w; cbn [Py.is_empty]; [done|]. by constructor.
Qed.

Lemma split_words_not_empty (s : string) :
  Forall (fun w => w <> EmptyString) (Py.split s).
Proof.
  unfold Py.split. pose proof (split_aux_words s) as H.
  destruct (Py.split_aux s) as [w ws]. cbn [snd] in H.
  destruct w; cbn [Py.is_empty]; [done|]. by constructor.
Qed.

Lemma contains_empty (w : string) : w <> EmptyString -> Py.contains w EmptyString = false.
Proof. by destruct w. Qed.

(** X8. The field [keywords_matched] of a returned item, which is
    [_count_keyword_matches] of the query and of the keywords of the
    metadata, is the number of query words that the metadata component of
    the score counts: the words of the query, in lower case and taken once,
    that occur inside a tag of the chunk. It is at most the number of those
    words. *)
Theorem X8_keywords_matched_is_score_count (query : string) (metadata : Metadata) :
  _count_keyword_matches query (get (md_keywords metadata) "")
  = size (spec_tagged_words query metadata)
  /\ _count_keyword_matches query (get (md_keywords metadata) "")
     <= size (spec_query_words query).
Proof.
  assert (_count_keyword_matches query (get (md_keywords metadata) "")
          = size (spec_tagged_words query metadata)) as Heq.
  { unfold _count_keyword_matches, spec_tagged_words, spec_tags.
    fold (spec_query_words query).
    destruct (get (md_keywords metadata) "") as [|c kw] eqn:Hkw.
    - cbn [Py.is_empty]. symmetry. apply size_empty_iff.
      intros w. split; [|by intros ?%elem_of_empty].
      intros [Hex Hw]%elem_of_filter. exfalso.
      apply Exists_cons in Hex as [Hc|Hex]; [|by apply Exists_nil in Hex].
      unfold spec_query_words in Hw. apply elem_of_list_to_set in Hw.
      pose proof (split_words_not_empty (Py.lower query)) as Hne.
      rewrite Forall_forall in Hne. specialize (Hne w Hw).
      change (Py.lower "") with EmptyString in Hc.
      by rewrite contains_empty in Hc.
    - cbn [Py.is_empty].
      apply (length_filter_elements (spec_query_words query)).
      intros w. rewrite existsb_Exists, !Exists_exists.
      setoid_rewrite elem_of_elements. setoid_rewrite elem_of_list_to_set. done. }
  split; [done|]. rewrite Heq.
  apply subseteq_size. intros w [_ ?]%elem_of_filter. done.
Qed.

(** ** What cleaning does to a page *)

Lemma lstrip_idem (s : string) : Py.lstrip (Py.lstrip s) = Py.lstrip s.
Proof.
  induction s as [|c s IH]; [done|]. cbn [Py.lstrip].
  destruct (Py.isspace c) eqn:Hc; [done|]. cbn [Py.lstrip]. by rewrite Hc.
Qed.

Lemma rstrip_idem (s : string) : Py.rstrip (Py.rstrip s) = Py.rstrip s.
Proof.
  induction s as [|c s IH]; [done|]. cbn [Py.rstrip].
  destruct (Py.isspace c && Py.is_empty (Py.rstrip s)) eqn:Hc; [done|].
  cbn [Py.rstrip]. by rewrite IH, Hc.
Qed.

Lemma lstrip_rstrip (s : string) :
  Py.lstrip (Py.rstrip (Py.lstrip s)) = Py.rstrip (Py.lstrip s).
Proof.
  induction s as [|c s IH]; [done|]. cbn [Py.lstrip].
  destruct (Py.isspace c) eqn:Hc; [done|]. cbn [Py.rstrip]. rewrite Hc.
  cbn [andb Py.lstrip]. by rewrite Hc.
Qed.

Lemma strip_idem (s : string) : Py.strip (Py.strip s) = Py.strip s.
Proof. unfold Py.strip. by rewrite lstrip_rstrip, rstrip_idem. Qed.

(** Replacing a character by itself changes nothing. *)
Lemma join_split_char (c : ascii) (s : string) :
  Py.join (String c EmptyString)
    ((Py.split_sep_aux (String c EmptyString) 0 s).1
       :: (Py.split_sep_aux (String c EmptyString) 0 s).2) = s.
Proof.
  induction s as [|a s IH]; [done|]. cbn [Py.split_sep_aux String.prefix].
  destruct (Py.split_sep_aux (String c EmptyString) 0 s) as [w ws] eqn:Hs.
  cbn [fst snd] in IH.
  destruct (ascii_dec c a) as [->|Hne].
  - assert (String.prefix "" s = true) as -> by (by destruct s).
    cbn [String.length Nat.sub]. rewrite Hs. cbn [fst snd].
    change (Py.join (String a "") ("" :: w :: ws))
      with (EmptyString +:+ String a "" +:+ Py.join (String a "") (w :: ws)).
    by rewrite IH.
  - cbn [fst snd]. destruct ws as [|w' ws]; cbn [Py.join] in *; [by rewrite IH|].
    change (String a w +:+ ?x) with (String a (w +:+ x)). by rewrite IH.
Qed.

Lemma replace_char_same (c : ascii) (s : string) :
  Py.replace (String c EmptyString) (String c EmptyString) s = s.
Proof.
  unfold Py.replace, Py.split_sep.
  pose proof (join_split_char c s) as H.
  by destruct (Py.split_sep_aux (String c EmptyString) 0 s).
Qed.

Lemma isspace_plain (a : ascii) : Py.isspace a = false -> plain_space a = true.
Proof. unfold plain_space. by intros ->. Qed.

Lemma plain_not_newline (s : string) :
  all_chars plain_space s = true -> all_chars not_newline s = true.
Proof.
  induction s as [|a s IH]; [done|]. cbn [all_chars].
  intros [Ha Hs]%andb_true_iff. rewrite IH by done. rewrite andb_true_r.
  unfold not_newline. destruct (Ascii.eqb a Re.nl) eqn:Heq; [|done].
  apply Ascii.eqb_eq in Heq. by subst a.
Qed.

Lemma sub_whitespace_plain (s : string) (skip : nat) :
  all_chars plain_space (Re.sub_aux whitespace_re [inl " "] skip s) = true.
Proof.
  revert skip. induction s as [|a s IH]; intros skip.
  - by destruct skip.
  - cbn [Re.sub_aux]. destruct skip as [|k]; [|apply IH].
    destruct (Re.match_at whitespace_re (String a s)) as [[rest c]|] eqn:Hm.
    + apply whitespace_match_progress in Hm.
      destruct (String.length (String a s) - String.length rest) eqn:Hn;
        [simpl in Hn; lia|].
      simpl. apply IH.
    + rewrite whitespace_match in Hm.
      destruct (Py.isspace a) eqn:Ha.
      * by apply star_loop_greedy_total in Hm.
      * simpl. by rewrite isspace_plain, IH.
Qed.

(** The two substitutions that start at a line break change nothing in a
    text that has none. *)
Lemma sub_newline_led (r : Re.regex) (t : Re.template) (s : string) :
  all_chars not_newline s = true ->
  Re.sub (Re.Seq (Re.chr Re.nl) r) t s = s.
Proof.
  intros Hs. apply (sub_aux_no_match _ _ not_newline); [|done].
  intros. by apply newline_led_no_match.
Qed.

(** X9. What [_clean_extracted_text] comes down to. The removal of page
    numbers and of page footers never changes the text, because both
    patterns start at a line break and the first step has turned every run
    of white space, line breaks included, into one space; the two
    [replace] calls on the double quote change nothing either. The text
    that comes out has no white space other than the plain space, and none
    at its ends. *)
Theorem X9_clean_text_shape (text : string) :
  _clean_extracted_text text
  = Py.strip (Py.replace line_730_old "'"
      (Re.sub punctuation_re [inr 1]
         (Re.sub email_re []
            (Re.sub url_re []
               (Re.sub whitespace_re [inl " "] text)))))
  /\ all_chars plain_space (_clean_extracted_text text) = true
  /\ Py.strip (_clean_extracted_text text) = _clean_extracted_text text.
Proof.
  assert (_clean_extracted_text text
          = Py.strip (Py.replace line_730_old "'"
              (Re.sub punctuation_re [inr 1]
                 (Re.sub email_re []
                    (Re.sub url_re []
                       (Re.sub whitespace_re [inl " "] text)))))) as Heq.
  { unfold _clean_extracted_text. unfold dquote. rewrite !replace_char_same.
    unfold page_footer_re, page_number_re.
    rewrite (sub_newline_led _ _ (Re.sub whitespace_re _ text))
      by apply sub_whitespace_no_newline.
    rewrite (sub_newline_led _ _ (Re.sub whitespace_re _ text))
      by apply sub_whitespace_no_newline.
    done. }
  split; [done|]. rewrite Heq. split; [|apply strip_idem].
  apply all_chars_strip. apply all_chars_replace; [done|].
  unfold Re.sub.
  apply sub_aux_all_chars; [by repeat constructor|].
  apply sub_aux_all_chars; [by repeat constructor|].
  apply sub_aux_all_chars; [by repeat constructor|].
  apply sub_whitespace_plain.
Qed.

(** ** The tags of a chunk *)

Lemma split_sep_comma_free (s : string) :
  all_chars not_comma s = true -> Py.split_sep_aux "," 0 s = (s, []).
Proof.
  induction s as [|a s IH]; [done|]. cbn [all_chars].
  intros [Ha Hs]%andb_true_iff. apply negb_true_iff, Ascii.eqb_neq in Ha.
  cbn [Py.split_sep_aux]. rewrite prefix_head_neq by congruence.
  by rewrite IH.
Qed.

Lemma split_sep_comma_append (x t : string) :
  all_chars not_comma x = true ->
  Py.split_sep_aux "," 0 (x +:+ "," +:+ t) = (x, Py.split_sep "," t).
Proof.
  induction x as [|a x IH].
  - intros _. change ("" +:+ "," +:+ t) with (String "," t).
    cbn [Py.split_sep_aux String.prefix]. destruct (ascii_dec "," ","); [|done].
    assert (String.prefix "" t = true) as -> by (by destruct t).
    cbn [String.length Nat.sub]. unfold Py.split_sep.
    by destruct (Py.split_sep_aux "," 0 t).
  - cbn [all_chars]. intros [Ha Hx]%andb_true_iff.
    apply negb_true_iff, Ascii.eqb_neq in Ha.
    change (String a x +:+ "," +:+ t) with (String a (x +:+ "," +:+ t)).
    cbn [Py.split_sep_aux]. rewrite prefix_head_neq by congruence.
    by rewrite IH.
Qed.

(** Joining tags with commas and splitting at the commas gives the tags
    back, unless there is none: then it gives one empty tag. *)
Lemma split_join_comma (l : list string) :
  Forall (fun x => all_chars not_comma x = true) l ->
  Py.split_sep "," (Py.join "," l) = match l with [] => [EmptyString] | _ => l end.
Proof.
  induction 1 as [|x l Hx Hl IH]; [done|].
  destruct l as [|y l].
  - cbn [Py.join]. unfold Py.split_sep. by rewrite split_sep_comma_free.
  - change (Py.join "," (x :: y :: l)) with (x +:+ "," +:+ Py.join "," (y :: l)).
    unfold Py.split_sep at 1. rewrite split_sep_comma_append by done.
    by rewrite IH.
Qed.

Lemma important_keywords_plain :
  NoDup important_keywords
  /\ Forall (fun x => all_chars not_comma x = true) important_keywords.
Proof.
  split.
  - apply (bool_decide_unpack _). by vm_compute.
  - unfold important_keywords. repeat constructor.
Qed.

Lemma filter_sublist {A} (f : A -> bool) (l : list A) : List.filter f l `sublist_of` l.
Proof.
  induction l as [|x l IH]; cbn [List.filter]; [done|].
  destruct (f x); by constructor.
Qed.

(** X10. The tags that [_extract_keywords_from_chunk] records for a chunk,
    read back by splitting at the commas as the score and the index do: at
    most ten, no two alike, each either the empty tag of a chunk without a
    keyword or a word of the vocabulary that occurs in the chunk in lower
    case; and with fewer than ten tags every word of the vocabulary that
    occurs in the chunk is a tag. *)
Theorem X10_keyword_tags (chunk : string) :
  let tags := Py.split_sep "," (_extract_keywords_from_chunk chunk) in
  length tags <= 10
  /\ NoDup tags
  /\ (forall t, t ∈ tags -> t <> EmptyString ->
        t ∈ important_keywords /\ Py.contains t (Py.lower chunk) = true)
  /\ (forall kw, kw ∈ important_keywords -> Py.contains kw (Py.lower chunk) = true ->
        length tags < 10 -> kw ∈ tags).
Proof.
  cbv zeta. unfold _extract_keywords_from_chunk.
  set (found := List.filter (fun kw => Py.contains kw (Py.lower chunk)) important_keywords).
  destruct important_keywords_plain as [Hnd Hplain].
  assert (found `sublist_of` important_keywords) as Hsub by apply filter_sublist.
  assert (take 10 found `sublist_of` important_keywords) as Hsub'.
  { etrans; [apply sublist_take | done]. }
  rewrite split_join_comma.
  2: { apply Forall_forall. intros x Hx. rewrite Forall_forall in Hplain.
       apply Hplain. by eapply elem_of_sublist. }
  assert (NoDup (take 10 found)) as Hnd' by (by eapply sublist_NoDup).
  assert (length (take 10 found) <= 10) as Hlen' by (rewrite length_take; lia).
  assert (forall t, t ∈ take 10 found ->
            t ∈ important_keywords /\ Py.contains t (Py.lower chunk) = true) as Hin'.
  { intros t Ht. apply elem_of_take in Ht as (i & Hi & _).
    apply list_elem_of_lookup_2, list_elem_of_In, filter_In in Hi as [Hi Hc].
    by rewrite <- list_elem_of_In in Hi. }
  assert (forall kw, kw ∈ important_keywords -> Py.contains kw (Py.lower chunk) = true ->
            kw ∈ found) as Hfound.
  { intros kw Hkw Hc. apply list_elem_of_In, filter_In. by rewrite <- list_elem_of_In. }
  assert (length (take 10 found) < 10 -> take 10 found = found) as Hall.
  { rewrite length_take. intros. apply take_ge. lia. }
  destruct (take 10 found) as [|t0 tags] eqn:Htake.
  - split; [simpl; lia|]. split; [apply NoDup_singleton|]. split.
    + by intros t ->%list_elem_of_singleton.
    + intros kw Hkw Hc _. exfalso.
      rewrite <- Hall in Hfound by (simpl; lia).
      specialize (Hfound kw Hkw Hc). by apply elem_of_nil in Hfound.
  - split; [done|]. split; [done|]. split.
    + intros t Ht _. by apply Hin'.
    + intros kw Hkw Hc Hlen. rewrite Hall by done. by apply Hfound.
Qed.

Lemma X10_keyword_tags_witness :
  "consent" ∈ Py.split_sep "," (_extract_keywords_from_chunk page_two).
Proof.
  destruct (X10_keyword_tags page_two) as (_ & _ & _ & H).
  apply H.
  - apply mem_elem_of. vm_compute. reflexivity.
  - vm_compute. reflexivity.
  - vm_compute. lia.
Defined.

(** ** From a file name to its standard *)

Lemma direct_mapping_key (filename_lower : string) (m : list (string * StandardInfo))
      (ui_standard : string) :
  direct_mapping filename_lower m = Some ui_standard -> ui_standard ∈ map fst m.
Proof.
  induction m as [|[k v] m IH]; cbn [direct_mapping map fst]; [done|].
  destruct (existsb _ _).
  - intros [= ->]. apply list_elem_of_here.
  - intros H. by apply list_elem_of_further, IH.
Qed.

Lemma ui_standard_label (filename : string) :
  _get_ui_standard_from_filename filename
  ∈ ["GDPR"; "NIST"; "UU_PDP"; "POJK"; "BSSN"; "Unknown"].
Proof.
  unfold _get_ui_standard_from_filename.
  destruct (direct_mapping _ _) as [u|] eqn:Hd.
  - apply direct_mapping_key in Hd. cbn [standards_mapping map fst] in Hd.
    apply mem_elem_of.
    repeat (apply elem_of_cons in Hd as [->|Hd]; [reflexivity|]).
    by apply elem_of_nil in Hd.
  - repeat match goal with |- context [if ?b then _ else _] => destruct b end;
      apply mem_elem_of; reflexivity.
Qed.

Lemma ui_standard_of_catalogue (standard : string) (standard_info : StandardInfo)
      (pdf_file filename : string) :
  mapping_get standard standards_mapping = Some standard_info ->
  pdf_file ∈ files standard_info ->
  Py.lower filename = Py.lower pdf_file ->
  _get_ui_standard_from_filename filename = standard.
Proof.
  intros Hget Hin Hlow. unfold _get_ui_standard_from_filename. rewrite Hlow. clear Hlow.
  unfold standards_mapping in Hget. cbn [mapping_get] in Hget.
  repeat match type of Hget with
         | (if String.eqb ?s ?k then _ else _) = _ =>
             destruct (String.eqb s k) eqn:Heq;
             [apply String.eqb_eq in Heq; subst s; injection Hget as <-;
              cbn [files] in Hin;
              repeat (apply elem_of_cons in Hin as [->|Hin]; [by vm_compute|]);
              by apply elem_of_nil in Hin
             |clear Heq]
         end.
  done.
Qed.

(** X11. A file of the catalogue is recognised as its standard whatever the
    letter case of its name: for a standard of [standards_mapping] and one
    of its files, a name that agrees with the file's name up to case is
    mapped to that standard. So the standard type that the loader writes
    into the metadata of such a file is the standard it was asked to load.
    And a file name is always mapped to one of the five standards or to
    ["Unknown"]. *)
Theorem X11_file_name_to_standard :
  (forall standard standard_info pdf_file filename,
      mapping_get standard standards_mapping = Some standard_info ->
      pdf_file ∈ files standard_info ->
      Py.lower filename = Py.lower pdf_file ->
      _get_ui_standard_from_filename filename = standard)
  /\ (forall standard standard_info pdf_file chunk category page_num i,
        mapping_get standard standards_mapping = Some standard_info ->
        pdf_file ∈ files standard_info ->
        md_standard_type
          (make_metadata chunk category pdf_file standard standard_info page_num i)
        = md_ui_standard
            (make_metadata chunk category pdf_file standard standard_info page_num i))
  /\ (forall filename,
        _get_ui_standard_from_filename filename
        ∈ ["GDPR"; "NIST"; "UU_PDP"; "POJK"; "BSSN"; "Unknown"]).
Proof.
  split; [|split].
  - apply ui_standard_of_catalogue.
  - intros. cbn [md_standard_type md_ui_standard make_metadata].
    unfold _identify_standard_type.
    by erewrite ui_standard_of_catalogue.
  - apply ui_standard_label.
Qed.

Lemma X11_file_name_to_standard_witness :
  _get_ui_standard_from_filename "bssn_B.PDF" = "BSSN".
Proof.
  destruct X11_file_name_to_standard as (H & _ & _).
  apply (H "BSSN" (default (unknown_info "") (mapping_get "BSSN" standards_mapping))
           "BSSN_B.pdf" "bssn_B.PDF").
  - vm_compute. reflexivity.
  - apply mem_elem_of. vm_compute. reflexivity.
  - vm_compute. reflexivity.
Defined.

(** ** The ids of the chunks *)

Lemma append_inv_l (s x y : string) : s +:+ x = s +:+ y -> x = y.
Proof. induction s as [|a s IH]; simpl; [done|]. intros [= H]. by apply IH. Qed.

Lemma uint_digits (d : Decimal.uint) :
  all_chars Py.isdigit (NilEmpty.string_of_uint d) = true.
Proof. induction d; simpl; auto. Qed.

Lemma str_of_nat_digits (n : nat) : all_chars Py.isdigit (Py.str_of_nat n) = true.
Proof. apply uint_digits. Qed.

Lemma str_of_nat_inj (n m : nat) : Py.str_of_nat n = Py.str_of_nat m -> n = m.
Proof.
  unfold Py.str_of_nat. intros H.
  apply (f_equal NilEmpty.uint_of_string) in H. rewrite !NilEmpty.usu in H.
  injection H as H. apply (f_equal Nat.of_uint) in H.
  by rewrite !Unsigned.of_to in H.
Qed.

(** Two numerals, each followed by a character that is not a digit. *)
Lemma digits_then_other (d d' : string) (c c' : ascii) (x y : string) :
  all_chars Py.isdigit d = true -> all_chars Py.isdigit d' = true ->
  Py.isdigit c = false -> Py.isdigit c' = false ->
  d +:+ String c x = d' +:+ String c' y ->
  d = d' /\ String c x = String c' y.
Proof.
  revert d'. induction d as [|a d IH]; intros [|a' d']; cbn [all_chars String.append];
    intros Hd Hd' Hc Hc' Heq.
  - done.
  - injection Heq as -> _. apply andb_true_iff in Hd' as [? _]. congruence.
  - injection Heq as -> _. apply andb_true_iff in Hd as [? _]. congruence.
  - injection Heq as -> Heq.
    apply andb_true_iff in Hd as [_ Hd]. apply andb_true_iff in Hd' as [_ Hd'].
    destruct (IH d' Hd Hd' Hc Hc' Heq) as [-> ?]. done.
Qed.

(** X12. The id of a chunk tells the page, the position on the page and
    the agent: for one file name, two ids are equal only if the page
    numbers, the chunk numbers and the instance ids are. So the chunks of
    one pass over a file get ids that differ from one another. *)
Theorem X12_chunk_id_injective (filename : string) (page_num page_num' i i' : nat)
        (instance instance' : string) :
  make_chunk_id filename page_num i instance
  = make_chunk_id filename page_num' i' instance' ->
  page_num = page_num' /\ i = i' /\ instance = instance'.
Proof.
  unfold make_chunk_id. intros H.
  apply append_inv_l in H.
  change ("_p" +:+ ?x) with (String "_" (String "p" x)) in H.
  injection H as H.
  change ("_c" +:+ ?x) with (String "_" (String "c" x)) in H.
  apply digits_then_other in H as [Hp H];
    [|apply str_of_nat_digits|apply str_of_nat_digits|done|done].
  injection H as H.
  change ("_" +:+ ?x) with (String "_" x) in H.
  apply digits_then_other in H as [Hi H];
    [|apply str_of_nat_digits|apply str_of_nat_digits|done|done].
  injection H as ->.
  apply str_of_nat_inj in Hp, Hi. split; [lia|]. split; [lia|done].
Qed.

Lemma X12_chunk_id_injective_witness :
  3 = 3 /\ 0 = 0 /\ "1a2b3c4d" = "1a2b3c4d".
Proof.
  apply (X12_chunk_id_injective "GDPR.pdf" 3 3 0 0 "1a2b3c4d" "1a2b3c4d").
  reflexivity.
Defined.

(** ** What storing a chunk leaves alone *)

Lemma store_chunk_frame {E : Externals} (chunk_id chunk : string) (metadata : Metadata)
      (ui_standard : string) (cc : nat) (a : Agent) :
  let a' := (store_chunk chunk_id chunk metadata ui_standard cc a).2 in
  status a' = status a /\ error_count a' = error_count a
  /\ _standards_loaded a' = _standards_loaded a /\ instance_id a' = instance_id a
  /\ (collection a <> None ->
      collection a' <> None /\ fallback_storage a' = fallback_storage a)
  /\ (collection a = None -> collection a' = None /\ fallback_storage a' <> None).
Proof.
  cbv zeta. unfold store_chunk.
  destruct (collection a) as [coll|] eqn:Hc.
  - unfold try_except, bind, lift, exec, ret.
    destruct (model_encode chunk) as [emb|e]; cbn.
    + destruct (collection_add coll _) as [coll'|e]; cbn.
      * repeat split; try done. 
      * destruct (negb _); cbn; rewrite ?Hc; repeat split; done.
    + destruct (negb _); cbn; rewrite ?Hc; repeat split; done.
  - destruct (fallback_storage a) as [fs|] eqn:Hfs; cbn; repeat split; done.
Qed.

(** ** The loaders on the primary backend *)

Lemma primary_backend_store {E : Externals} (chunk_id chunk : string) (metadata : Metadata)
      (ui_standard : string) (cc : nat) (a : Agent) :
  primary_backend a ->
  primary_backend (store_chunk chunk_id chunk metadata ui_standard cc a).2.
Proof.
  intros [Hc Hfs].
  destruct (store_chunk_frame chunk_id chunk metadata ui_standard cc a)
    as (_ & _ & _ & _ & H & _).
  destruct (H Hc) as [? Heq]. split; [done|]. by rewrite Heq.
Qed.

Lemma primary_backend_build (a : Agent) :
  primary_backend a ->
  exists e, _build_enhanced_indexes a = (Raise e, a).
Proof. intros [_ Hfs]. unfold _build_enhanced_indexes. rewrite Hfs. eauto. Qed.

Lemma primary_backend_keepsM_build : keepsM primary_backend _build_enhanced_indexes.
Proof. intros a Ha. destruct (primary_backend_build a Ha) as [e ->]. done. Qed.

Lemma primary_backend_load_standards {E : Externals} standards_dir selected_standards st :
  keeps primary_backend (fold_St (load_standard standards_dir) st selected_standards).
Proof.
  apply keeps_fold_St. intros.
  apply (frame_load_standard primary_backend (fun _ _ H => H) any_file); [|done].
  intros. by apply primary_backend_store.
Qed.

Lemma primary_backend_load_categories {E : Externals} standards_dir n :
  keepsM primary_backend
    (fold_M (load_category standards_dir) n ["Global"; "Nasional"]).
Proof.
  apply keepsM_fold_M_in. intros.
  apply (frame_load_category primary_backend (fun _ _ H => H) any_file); [|done..].
  intros. by apply primary_backend_store.
Qed.

(** X13. On the primary backend, where the agent has a collection and no
    fallback storage, [load_selected_standards] and
    [load_standards_from_directory] return 0 whatever they have loaded:
    the last line of [_build_enhanced_indexes] reads [self.fallback_storage],
    the AttributeError lands in the [except] clause of the loader, and that
    clause returns 0. The agent stays on the primary backend, and when the
    directory of the standards exists the standards are marked as loaded. *)
Theorem X13_primary_backend_loads_report_zero {E : Externals}
        (selected_standards : list string) (standards_dir : string) (a : Agent) :
  primary_backend a ->
  (load_selected_standards selected_standards a).1 = 0
  /\ primary_backend (load_selected_standards selected_standards a).2
  /\ (selected_standards <> [] -> path_exists "standards" = true ->
      _standards_loaded (load_selected_standards selected_standards a).2 = true)
  /\ (load_standards_from_directory standards_dir a).1 = 0
  /\ primary_backend (load_standards_from_directory standards_dir a).2
  /\ _standards_loaded (load_standards_from_directory standards_dir a).2 = true.
Proof.
  intros Ha. split; [|split; [|split; [|split; [|split]]]].
  - unfold load_selected_standards.
    destruct selected_standards as [|s l]; [done|].
    unfold try_except, bind, exec, run, ret.
    destruct (path_exists "standards"); [|done]. cbn [negb].
    match goal with |- context [fold_St ?f ?st ?l ?a0] =>
      pose proof (primary_backend_load_standards "standards" l st a0) as H;
      destruct (fold_St f st l a0) as [st' a1] end.
    cbn [snd] in H.
    destruct (primary_backend_build (with_loaded true a1)) as [e ->]; [|done].
    apply H. done.
  - apply (frame_load_selected_standards primary_backend (fun _ _ H => H)
             (fun _ _ _ H => H) (fun _ H => H) primary_backend_keepsM_build any_file);
      [|done..].
    intros. by apply primary_backend_store.
  - intros Hsel Hdir. unfold load_selected_standards.
    destruct selected_standards as [|s l]; [done|].
    unfold try_except, bind, exec, run, ret. rewrite Hdir. cbn [negb].
    match goal with |- context [fold_St ?f ?st ?l ?a0] =>
      pose proof (primary_backend_load_standards "standards" l st a0) as H;
      destruct (fold_St f st l a0) as [st' a1] end.
    cbn [snd] in H.
    destruct (primary_backend_build (with_loaded true a1)) as [e ->]; [|done].
    apply H. done.
  - unfold load_standards_from_directory.
    destruct (_standards_loaded a); [done|].
    unfold try_except, bind, exec, ret.
    match goal with |- context [fold_M ?f ?n ?l ?a0] =>
      pose proof (primary_backend_load_categories standards_dir n a0) as H;
      destruct (fold_M f n l a0) as [[n'|e] a1] end; [|done].
    cbn [snd] in H.
    destruct (primary_backend_build (with_loaded true a1)) as [e ->]; [|done].
    apply H. done.
  - apply (frame_load_standards_from_directory primary_backend (fun _ _ H => H)
             (fun _ _ _ H => H) (fun _ H => H) primary_backend_keepsM_build any_file);
      [|done..].
    intros. by apply primary_backend_store.
  - unfold load_standards_from_directory.
    destruct (_standards_loaded a) eqn:Hl; [done|].
    unfold try_except, bind, exec, ret.
    match goal with |- context [fold_M ?f ?n ?l ?a0] =>
      pose proof (primary_backend_load_categories standards_dir n a0) as H;
      destruct (fold_M f n l a0) as [[n'|e] a1] end; [|done].
    cbn [snd] in H.
    destruct (primary_backend_build (with_loaded true a1)) as [e ->]; [|done].
    apply H. done.
Qed.

Lemma X13_primary_backend_loads_report_zero_witness :
  (load_selected_standards (E:=primary_env) ["GDPR"] primary_agent).1 = 0
  /\ length (default [] (collection
               (load_selected_standards (E:=primary_env) ["GDPR"] primary_agent).2)) = 3.
Proof.
  split.
  - destruct (X13_primary_backend_loads_report_zero (E:=primary_env) ["GDPR"] "standards"
                primary_agent) as (H & _); [|exact H].
    split; [vm_compute; discriminate | vm_compute; reflexivity].
  - vm_compute. reflexivity.
Defined.

(** ** The answer of a loaded agent is a function of its index *)

Lemma fallback_query_value {E : Externals} (query : string) (top_k : Z)
      (selected_standards : option (list string)) (a : Agent) :
  (_enhanced_fallback_query query top_k selected_standards a).1
  = fallback_answer query top_k selected_standards (fallback_storage a).
Proof.
  unfold _enhanced_fallback_query, try_except, fallback_body, fallback_answer,
    bind, check_fault, get_agent, exec, ret, raise.
  destruct (fault Fallback_start); [done|].
  destruct (fallback_storage a) as [fs|]; [|done].
  by destruct (documents fs).
Qed.

Lemma chromadb_query_value {E : Externals} (query : string) (top_k : Z)
      (selected_standards : option (list string)) (a : Agent) :
  (_enhanced_chromadb_query query top_k selected_standards a).1
  = chromadb_answer query top_k selected_standards (collection a) (fallback_storage a).
Proof.
  unfold _enhanced_chromadb_query, try_except, chromadb_body, chromadb_answer,
    bind, lift, check_fault, get_agent, exec, ret, raise.
  destruct (model_encode query) as [emb|e]; [|by rewrite fallback_query_value].
  destruct (collection a) as [c|]; [|by rewrite fallback_query_value].
  destruct (chroma_query c emb _ _) as [results|e]; [|by rewrite fallback_query_value].
  destruct (fault Chromadb_end); [by rewrite fallback_query_value | done].
Qed.

Lemma process_loaded_value {E : Externals} (query : string) (top_k : Z)
      (selected_standards : option (list string)) (a : Agent) :
  _standards_loaded a = true ->
  (process query top_k selected_standards a).1
  = loaded_answer query top_k selected_standards (collection a) (fallback_storage a).
Proof.
  intros Hl. unfold process, try_except, process_body, loaded_answer,
    bind at 1, check_fault at 1.
  destruct (fault Process_start); [done|].
  unfold ret at 1, bind at 1, get_agent at 1.
  change (_standards_loaded (log_action _ (set_status _ a))) with (_standards_loaded a).
  rewrite Hl. cbn [negb].
  assert (forall (m : M unit), m = ret tt -> forall (f : unit -> M Response) b,
            bind m f b = f tt b) as Hret by (by intros m -> f b).
  rewrite Hret by (by destruct (given selected_standards)).
  unfold bind at 1, get_agent at 1.
  change (collection (log_action _ (set_status _ a))) with (collection a).
  unfold bind at 1, run.
  destruct (collection a) as [c|] eqn:Hc.
  - match goal with |- context [_enhanced_chromadb_query ?q ?k ?s ?a0] =>
      pose proof (chromadb_query_value q k s a0) as Hv;
      destruct (_enhanced_chromadb_query q k s a0) as [r a1] end.
    cbn [fst] in Hv. change (collection (log_action _ (set_status _ a))) with (collection a) in Hv.
    change (fallback_storage (log_action _ (set_status _ a))) with (fallback_storage a) in Hv.
    rewrite Hc in Hv. subst r.
    unfold bind, check_fault, exec, ret, raise.
    by destruct (fault Process_end).
  - match goal with |- context [_enhanced_fallback_query ?q ?k ?s ?a0] =>
      pose proof (fallback_query_value q k s a0) as Hv;
      destruct (_enhanced_fallback_query q k s a0) as [r a1] end.
    cbn [fst] in Hv.
    change (fallback_storage (log_action _ (set_status _ a))) with (fallback_storage a) in Hv.
    subst r.
    unfold bind, check_fault, exec, ret, raise.
    by destruct (fault Process_end).
Qed.

Lemma same_index_process_loaded {E : Externals} (query : string) (top_k : Z)
      (selected_standards : option (list string)) (a : Agent) :
  _standards_loaded a = true ->
  same_index a (process query top_k selected_standards a).2.
Proof.
  intros Hl.
  apply (frame_process_loaded (same_index a)); try done.
  intros b (_ & _ & ->). done.
Qed.

(** X14. Once the standards are loaded a query reads the index and does not
    write it: [process] leaves the collection, the fallback storage and the
    mark of the loaded standards as they are. Its answer is a function of
    the query and of these: an agent with the same index gives the same
    answer, whatever its log, its status and its count of errors, and so a
    query that went before does not change the answer. *)
Theorem X14_loaded_query_reads_only {E : Externals} (query : string) (top_k : Z)
        (selected_standards : option (list string)) (a : Agent) :
  _standards_loaded a = true ->
  same_index a (process query top_k selected_standards a).2
  /\ (forall b, same_index a b ->
        (process query top_k selected_standards b).1
        = (process query top_k selected_standards a).1)
  /\ (forall query' top_k' selected_standards',
        (process query top_k selected_standards
           (process query' top_k' selected_standards' a).2).1
        = (process query top_k selected_standards a).1).
Proof.
  intros Hl.
  assert (forall b, same_index a b ->
            (process query top_k selected_standards b).1
            = (process query top_k selected_standards a).1) as Hsame.
  { intros b (Hc & Hfs & Hlb).
    rewrite !process_loaded_value by congruence. by rewrite Hc, Hfs. }
  split; [by apply same_index_process_loaded|]. split; [done|].
  intros. by apply Hsame, same_index_process_loaded.
Qed.

Lemma X14_loaded_query_reads_only_witness :
  (process (E:=fallback_env) "data consent" 3 None
     (process (E:=fallback_env) "audit" 1 (Some ["GDPR"])
        (load_selected_standards (E:=fallback_env) ["GDPR"] fallback_agent).2).2).1
  = (process (E:=fallback_env) "data consent" 3 None
       (load_selected_standards (E:=fallback_env) ["GDPR"] fallback_agent).2).1.
Proof.
  destruct (X14_loaded_query_reads_only (E:=fallback_env) "data consent" 3 None
              (load_selected_standards (E:=fallback_env) ["GDPR"] fallback_agent).2)
    as (_ & _ & H).
  - vm_compute. reflexivity.
  - apply H.
Defined.

(** ** The status and the count of errors after a query *)

Lemma counts_no_error_process_body {E : Externals} (n : nat) (query : string) (top_k : Z)
      (selected_standards : option (list string)) :
  keepsM (counts_no_error n) (process_body query top_k selected_standards).
Proof.
  apply (frame_process_body (counts_no_error n)) with (called_for := any_file);
    try done.
  - intros s a Hs [Hn _]. split; [|done]. cbn. apply String.eqb_neq in Hs.
    rewrite Hs. done.
  - intros a [Hn Hs]. unfold _build_enhanced_indexes.
    by destruct (fallback_storage a).
  - intros category filename ui_standard standard_info page_num i chunk cc a _ _ _ [Hn Hs].
    match goal with |- counts_no_error n (store_chunk ?id ?c ?m ?u ?k a).2 =>
      destruct (store_chunk_frame id c m u k a) as (Hst & Hec & _) end.
    split; congruence.
Qed.

(** X15. [process] ends with the status ["error"] exactly when an exception
    left its own [try] block, and then it has added one to the count of
    errors; otherwise the count is as it was. What the loaders and the two
    searches catch on their own, a failing search included, does not
    count. *)
Theorem X15_error_status_and_count {E : Externals} (query : string) (top_k : Z)
        (selected_standards : option (list string)) (a : Agent) :
  let a' := (process query top_k selected_standards a).2 in
  (status a' = "error" <->
   exists e a1,
     process_body query top_k selected_standards
       (log_action "Enhanced retrieval process started" (set_status "retrieving" a))
     = (Raise e, a1))
  /\ error_count a'
     = if String.eqb (status a') "error" then error_count a + 1 else error_count a.
Proof.
  cbv zeta. unfold process, try_except.
  pose proof (counts_no_error_process_body (error_count a) query top_k selected_standards
                (log_action "Enhanced retrieval process started"
                   (set_status "retrieving" a))) as H.
  destruct (process_body query top_k selected_standards _) as [[r|e] a1].
  - cbn [snd] in *. destruct H as [Hn Hs]; [done|].
    split.
    + split; [done|]. by intros (? & ? & ?).
    + apply String.eqb_neq in Hs. by rewrite Hs.
  - cbn [snd] in *. destruct H as [Hn Hs]; [done|].
    split.
    + split; [eauto|done].
    + cbn. by rewrite Hn.
Qed.

(** ** The metadata of the index *)

Lemma make_metadata_annotates chunk category filename ui_standard standard_info page_num i :
  named_for category filename ui_standard standard_info ->
  page_num < 15 ->
  (50 <? String.length (Py.strip chunk)) = true ->
  annotates chunk
    (make_metadata chunk category filename ui_standard standard_info page_num i).
Proof.
  unfold named_for. intros <- Hp Hlen%Nat.ltb_lt.
  unfold annotates. cbn [make_metadata md_text_length md_keywords md_section_type md_page
                         md_article md_source md_standard_type md_ui_standard].
  repeat split; try done.
  - by exists page_num.
  - by exists filename.
Qed.

Lemma well_annotated_storage : storage_property well_annotated.
Proof. intros a b Hst. unfold well_annotated. by rewrite Hst. Qed.

Lemma well_annotated_store {E : Externals} chunk_id chunk metadata ui_standard cc a :
  annotates chunk metadata ->
  well_annotated a ->
  well_annotated (store_chunk chunk_id chunk metadata ui_standard cc a).2.
Proof.
  intros Hmd (Hc & Hf & Hl). unfold well_annotated.
  destruct (store_chunk_stored chunk_id chunk metadata ui_standard cc a)
    as [-> | [(coll & emb & Hcoll & _ & ->) | [Hcoll ->]]];
    [exact (conj Hc (conj Hf Hl)) | |].
  - cbn [fst snd default]. unfold stored in Hc. rewrite Hcoll in Hc. cbn in Hc.
    split; [|done]. apply Forall_app. split; [done|]. by constructor.
  - cbn [fst snd default]. split; [done|]. split.
    + apply Forall2_app; [done|]. by constructor.
    + by rewrite !length_app, Hl.
Qed.

Lemma well_annotated_init (instance : string) (primary : bool) :
  well_annotated (init_agent instance primary).
Proof. destruct primary; repeat split; constructor. Qed.

Section WellAnnotated.
Context {E : Externals}.

Lemma well_annotated_store_chunk :
  forall category filename ui_standard standard_info page_num i chunk cc a,
    named_for category filename ui_standard standard_info ->
    page_num < 15 ->
    (50 <? String.length (Py.strip chunk)) = true ->
    well_annotated a ->
    well_annotated
      (store_chunk (make_chunk_id filename page_num i (instance_id a)) chunk
         (make_metadata chunk category filename ui_standard standard_info page_num i)
         ui_standard cc a).2.
Proof.
  intros. apply well_annotated_store; [by apply make_metadata_annotates | done].
Qed.

Lemma named_for_selected :
  forall standard standard_info pdf_file,
    mapping_get standard standards_mapping = Some standard_info ->
    pdf_file ∈ files standard_info ->
    named_for (category standard_info) pdf_file standard standard_info.
Proof. intros. unfold named_for. by eapply ui_standard_of_catalogue. Qed.

Lemma named_for_listed :
  forall category filename,
    category ∈ ["Global"; "Nasional"] ->
    named_for category filename (_get_ui_standard_from_filename filename)
      (default (unknown_info filename)
         (mapping_get (_get_ui_standard_from_filename filename) standards_mapping)).
Proof. done. Qed.

Lemma well_annotated_log action a : well_annotated a -> well_annotated (log_action action a).
Proof. done. Qed.

Lemma well_annotated_status s a : well_annotated a -> well_annotated (set_status s a).
Proof. done. Qed.

Lemma well_annotated_loaded a : well_annotated a -> well_annotated (with_loaded true a).
Proof. done. Qed.

Lemma well_annotated_build : keepsM well_annotated _build_enhanced_indexes.
Proof. apply keepsM_build_indexes, well_annotated_storage. Qed.

Lemma well_annotated_process query top_k selected_standards a :
  well_annotated a -> well_annotated (process query top_k selected_standards a).2.
Proof.
  apply (frame_process well_annotated well_annotated_log
           (fun s a _ => well_annotated_status s a) well_annotated_loaded
           well_annotated_build named_for well_annotated_store_chunk
           named_for_selected named_for_listed).
  intros. by apply well_annotated_status.
Qed.

Lemma well_annotated_load_selected selected_standards a :
  well_annotated a -> well_annotated (load_selected_standards selected_standards a).2.
Proof.
  apply (frame_load_selected_standards well_annotated well_annotated_log
           (fun s a _ => well_annotated_status s a) well_annotated_loaded
           well_annotated_build named_for well_annotated_store_chunk
           named_for_selected).
Qed.

Lemma well_annotated_load_directory standards_dir a :
  well_annotated a -> well_annotated (load_standards_from_directory standards_dir a).2.
Proof.
  apply (frame_load_standards_from_directory well_annotated well_annotated_log
           (fun s a _ => well_annotated_status s a) well_annotated_loaded
           well_annotated_build named_for well_annotated_store_chunk
           named_for_listed).
Qed.

End WellAnnotated.

(** X16. The metadata of the index stay in step with the chunks. In the
    agent as its constructor leaves it, and from then on after every call
    of [process], [load_selected_standards] and
    [load_standards_from_directory], every chunk of the index, in either
    backend, has the metadata the loader computes from it: its length, its
    tags, its section type, its article, a page from 1 to 15, and as its
    standard type and its standard the one that the name of its file stands
    for; the chunk has more than 50 characters without the white space at
    its ends; and the lists of the fallback storage have the same
    length. *)
Theorem X16_index_stays_annotated {E : Externals} :
  (forall instance primary, well_annotated (init_agent instance primary))
  /\ (forall a, well_annotated a ->
        (forall query top_k selected_standards,
            well_annotated (process query top_k selected_standards a).2)
        /\ (forall selected_standards,
              well_annotated (load_selected_standards selected_standards a).2)
        /\ (forall standards_dir,
              well_annotated (load_standards_from_directory standards_dir a).2)).
Proof.
  split; [apply well_annotated_init|].
  intros a Ha. split; [|split]; intros.
  - by apply well_annotated_process.
  - by apply well_annotated_load_selected.
  - by apply well_annotated_load_directory.
Qed.

Lemma X16_index_stays_annotated_witness :
  well_annotated (load_selected_standards (E:=fallback_env) ["GDPR"] fallback_agent).2
  /\ length (indexed_pairs
               (load_selected_standards (E:=fallback_env) ["GDPR"] fallback_agent).2) = 3.
Proof.
  split.
  - destruct (X16_index_stays_annotated (E:=fallback_env)) as [Hinit H].
    destruct (H fallback_agent) as (_ & Hload & _); [apply Hinit|].
    apply Hload.
  - vm_compute. reflexivity.
Defined.

(** ** The fields of a standard found by the fallback search *)

Lemma Forall2_combine {A B} (R : A -> B -> Prop) (l : list A) (k : list B) (x : A) (y : B) :
  Forall2 R l k -> (x, y) ∈ combine l k -> R x y.
Proof.
  induction 1 as [|a b l k Hab Hlk IH]; cbn [combine].
  - by intros ?%elem_of_nil.
  - intros [[= -> ->]|Hin]%elem_of_cons; [done | by apply IH].
Qed.

(** X17. What the loader wrote and what the fallback search returns fit
    together. When the index is well annotated, a standard in an answer of
    the fallback search describes its own content: [text_length] is the
    length of the content, [section_type] its section type, [article] the
    article found in it or the label of one of the pages 1 to 15,
    [keywords_matched] the count for the tags of the content, and
    [standard_type] and [ui_standard] agree. Its score is that of the
    content with the metadata made from the content. *)
Theorem X17_fallback_items_describe_content {E : Externals} (query : string) (top_k : Z)
        (selected_standards : option (list string)) (a : Agent) :
  well_annotated a ->
  method (process query top_k selected_standards a).1 = Some "enhanced_fallback" ->
  Forall (fun s =>
            text_length s = Z.of_nat (String.length (content s))
            /\ section_type s = _identify_section_type (content s)
            /\ (exists page_num,
                  page_num < 15 /\ article s = article_match (content s) page_num)
            /\ keywords_matched s
               = _count_keyword_matches query (_extract_keywords_from_chunk (content s))
            /\ standard_type s = ui_standard s
            /\ 50 < String.length (Py.strip (content s)))
         (standards (process query top_k selected_standards a).1).
Proof.
  intros Ha Hm.
  pose proof (well_annotated_process query top_k selected_standards a Ha) as (_ & Hf & _).
  destruct (process_answer query top_k selected_standards a)
    as [[e Hr]|[Hr|[(fs & Hfs & Hr)|(coll & emb & results & _ & _ & _ & Hr)]]];
    rewrite Hr in Hm |- *; try done.
  cbn [standards fallback_response].
  unfold stored in Hf. rewrite Hfs in Hf. cbn [fst snd] in Hf.
  eapply Forall_impl; [apply fallback_standards_from_storage|].
  intros s (doc & metadata & Hin & -> & _ & _).
  apply (Forall2_combine _ _ _ _ _ Hf) in Hin
    as (Hlen & Hkw & Hsec & (p & Hp & _ & Hart) & (f & _ & Hst & Hui) & Hlong).
  cbn [text_length section_type article keywords_matched standard_type ui_standard
       content fallback_item].
  rewrite Hlen, Hkw, Hsec, Hart, Hst, Hui. cbn [get from_option id].
  repeat split; try done. by exists p.
Qed.

Lemma X17_fallback_items_describe_content_witness :
  Forall (fun s =>
            text_length s = Z.of_nat (String.length (content s))
            /\ section_type s = _identify_section_type (content s)
            /\ (exists page_num,
                  page_num < 15 /\ article s = article_match (content s) page_num)
            /\ keywords_matched s
               = _count_keyword_matches "data consent"
                   (_extract_keywords_from_chunk (content s))
            /\ standard_type s = ui_standard s
            /\ 50 < String.length (Py.strip (content s)))
         (standards (process (E:=fallback_env) "data consent" 3 (Some ["GDPR"])
                       fallback_agent).1).
Proof.
  apply (X17_fallback_items_describe_content (E:=fallback_env) "data consent" 3
           (Some ["GDPR"]) fallback_agent).
  - repeat split; constructor.
  - vm_compute. reflexivity.
Defined.

(** ** The index by standard *)

Lemma combine_snoc {A B} (l : list A) (k : list B) (x : A) (y : B) :
  length l = length k -> combine (l ++ [x]) (k ++ [y]) = combine l k ++ [(x, y)].
Proof.
  revert k. induction l as [|a l IH]; intros [|b k] Hlen; try done.
  cbn. injection Hlen as Hlen. by rewrite IH.
Qed.

Lemma enumerate_snoc {A} (l : list A) (x : A) :
  enumerate (l ++ [x]) = enumerate l ++ [(length l, x)].
Proof.
  unfold enumerate. rewrite length_app. cbn [length].
  rewrite Nat.add_1_r, seq_S. cbn [Nat.add].
  by rewrite combine_snoc by (by rewrite length_seq).
Qed.

Lemma standard_positions_snoc (std : string) (mds : list Metadata) (md : Metadata) :
  standard_positions std (mds ++ [md])
  = standard_positions std mds
    ++ if bool_decide (md_ui_standard md = Some std) then [length mds] else [].
Proof.
  unfold standard_positions. rewrite enumerate_snoc, List.filter_app, map_app.
  cbn [List.filter snd]. by destruct (bool_decide _).
Qed.

Lemma standards_index_exact_store {E : Externals} chunk_id chunk metadata ui_standard cc a :
  md_ui_standard metadata = Some ui_standard ->
  standards_index_exact a ->
  standards_index_exact (store_chunk chunk_id chunk metadata ui_standard cc a).2.
Proof.
  intros Hui Ha. unfold store_chunk.
  destruct (collection a) as [coll|] eqn:Hc.
  - unfold try_except, bind, lift, exec, ret.
    destruct (model_encode chunk) as [emb|e]; cbn.
    + destruct (collection_add coll _) as [coll'|e]; cbn; [done|].
      by destruct (negb _).
    + by destruct (negb _).
  - assert (exists fs a0,
              (match fallback_storage a with
               | Some fs => (fs, a)
               | None => (empty_storage, _create_enhanced_fallback_storage a)
               end) = (fs, a0)
              /\ length (documents fs) = length (metadatas fs)
              /\ forall std, default [] (standards_index fs !! std)
                             = standard_positions std (metadatas fs))
      as (fs & a0 & -> & Hlen & Hidx).
    { unfold standards_index_exact in Ha.
      destruct (fallback_storage a) as [fs|]; [by exists fs, a|].
      exists empty_storage, (_create_enhanced_fallback_storage a).
      repeat split; try done. }
    unfold standards_index_exact.
    cbn [snd fallback_storage with_fallback documents metadatas standards_index].
    split; [by rewrite !length_app, Hlen|].
    intros std. rewrite standard_positions_snoc, Hui.
    rewrite length_app. cbn [length]. rewrite Nat.add_sub, Hlen.
    assert (default [] ((match standards_index fs !! ui_standard with
                         | Some _ => standards_index fs
                         | None => <[ui_standard:=[]]> (standards_index fs)
                         end) !! ui_standard)
            = default [] (standards_index fs !! ui_standard)) as Hsame.
    { destruct (standards_index fs !! ui_standard) eqn:Hl; [by rewrite Hl|].
      by rewrite lookup_insert_eq. }
    destruct (decide (ui_standard = std)) as [->|Hne].
    + rewrite lookup_insert_eq. cbn [default]. rewrite Hsame, Hidx.
      by rewrite bool_decide_eq_true_2.
    + rewrite lookup_insert_ne by done.
      rewrite bool_decide_eq_false_2 by congruence. rewrite app_nil_r, <- Hidx.
      destruct (standards_index fs !! ui_standard); [done|].
      by rewrite lookup_insert_ne.
Qed.

Lemma standards_index_exact_build : keepsM standards_index_exact _build_enhanced_indexes.
Proof.
  intros a Ha. unfold _build_enhanced_indexes, standards_index_exact in *.
  destruct (fallback_storage a) as [fs|] eqn:Hfs; cbn; [|by rewrite Hfs].
  destruct fs as [docs embs mds ids sidx kidx]. cbn in *. by destruct docs.
Qed.

Lemma standards_index_exact_init (instance : string) (primary : bool) :
  standards_index_exact (init_agent instance primary).
Proof. by destruct primary. Qed.

Lemma standards_index_exact_store_chunk {E : Externals} :
  forall category filename ui_standard standard_info page_num i chunk cc a,
    any_file category filename ui_standard standard_info ->
    page_num < 15 ->
    (50 <? String.length (Py.strip chunk)) = true ->
    standards_index_exact a ->
    standards_index_exact
      (store_chunk (make_chunk_id filename page_num i (instance_id a)) chunk
         (make_metadata chunk category filename ui_standard standard_info page_num i)
         ui_standard cc a).2.
Proof. intros. by apply standards_index_exact_store. Qed.

(** X18. The index by standard of the fallback storage is exact. In the
    agent as its constructor leaves it, and from then on after every call
    of [process], [load_selected_standards] and
    [load_standards_from_directory], the list that [standards_index] holds
    for a standard is the list of the positions, in increasing order, of
    the metadata with that [ui_standard], and a standard without a key has
    no chunk; the documents and the metadata are equally many, so the
    positions are positions of both. *)
Theorem X18_standards_index_exact {E : Externals} :
  (forall instance primary, standards_index_exact (init_agent instance primary))
  /\ (forall a, standards_index_exact a ->
        (forall query top_k selected_standards,
            standards_index_exact (process query top_k selected_standards a).2)
        /\ (forall selected_standards,
              standards_index_exact (load_selected_standards selected_standards a).2)
        /\ (forall standards_dir,
              standards_index_exact (load_standards_from_directory standards_dir a).2)).
Proof.
  split; [apply standards_index_exact_init|].
  intros a Ha. split; [|split]; intros.
  - apply (frame_process standards_index_exact (fun _ _ H => H) (fun _ _ _ H => H)
             (fun _ H => H) standards_index_exact_build any_file
             standards_index_exact_store_chunk); done.
  - apply (frame_load_selected_standards standards_index_exact (fun _ _ H => H)
             (fun _ _ _ H => H) (fun _ H => H) standards_index_exact_build any_file
             standards_index_exact_store_chunk); done.
  - apply (frame_load_standards_from_directory standards_index_exact (fun _ _ H => H)
             (fun _ _ _ H => H) (fun _ H => H) standards_index_exact_build any_file
             standards_index_exact_store_chunk); done.
Qed.

Lemma X18_standards_index_exact_witness :
  standards_index_exact
    (load_selected_standards (E:=fallback_env) ["GDPR"] fallback_agent).2
  /\ standards_index sample_storage !! "GDPR" = Some [0; 1; 2].
Proof.
  split.
  - destruct (X18_standards_index_exact (E:=fallback_env)) as [Hinit H].
    destruct (H fallback_agent) as (_ & Hload & _); [apply Hinit|].
    apply Hload.
  - vm_compute. reflexivity.
Defined.

(** ** The index by keyword *)

Lemma index_keyword_lookup (i : nat) (index : gmap string (list nat)) (tag kw : string) :
  default [] (index_keyword i index tag !! kw)
  = default [] (index !! kw)
    ++ if negb (Py.is_empty (Py.strip tag)) && String.eqb (Py.strip tag) kw
       then [i] else [].
Proof.
  unfold index_keyword.
  destruct (negb (Py.is_empty (Py.strip tag))); cbn [andb]; [|by rewrite app_nil_r].
  destruct (String.eqb (Py.strip tag) kw) eqn:Heq.
  - apply String.eqb_eq in Heq. subst kw. by rewrite lookup_insert_eq.
  - apply String.eqb_neq in Heq. rewrite lookup_insert_ne by done. by rewrite app_nil_r.
Qed.

Lemma index_tags_lookup (i : nat) (tags : list string) (index : gmap string (list nat))
      (kw : string) :
  default [] (fold_left (index_keyword i) tags index !! kw)
  = default [] (index !! kw)
    ++ map (fun _ => i)
           (List.filter (fun tag => negb (Py.is_empty (Py.strip tag))
                                    && String.eqb (Py.strip tag) kw) tags).
Proof.
  revert index. induction tags as [|tag tags IH]; intros index; cbn [fold_left List.filter].
  - by rewrite app_nil_r.
  - rewrite IH, index_keyword_lookup, <- app_assoc.
    by destruct (negb _ && _).
Qed.

Lemma index_metadatas_lookup (l : list (nat * Metadata)) (index : gmap string (list nat))
      (kw : string) :
  default [] (fold_left index_metadata l index !! kw)
  = default [] (index !! kw) ++ flat_map (keyword_occurrences kw) l.
Proof.
  revert index. induction l as [|[i md] l IH]; intros index; cbn [fold_left flat_map].
  - by rewrite app_nil_r.
  - rewrite IH. cbn [index_metadata]. rewrite index_tags_lookup, <- app_assoc.
    done.
Qed.

Lemma build_indexes_storage (a : Agent) (fs : FallbackStorage) :
  fallback_storage a = Some fs ->
  documents fs <> [] ->
  exists fs',
    fallback_storage (_build_enhanced_indexes a).2 = Some fs'
    /\ documents fs' = documents fs /\ metadatas fs' = metadatas fs
    /\ ids fs' = ids fs /\ standards_index fs' = standards_index fs
    /\ forall kw,
         default [] (keyword_index fs' !! kw)
         = default [] (keyword_index fs !! kw) ++ keyword_positions kw (metadatas fs).
Proof.
  intros Hfs Hdocs. unfold _build_enhanced_indexes. rewrite Hfs.
  destruct (documents fs) as [|d docs] eqn:Hd; [done|].
  eexists. split; [reflexivity|]. cbn [documents metadatas ids standards_index keyword_index].
  repeat split; try done.
  intros kw. apply index_metadatas_lookup.
Qed.

(** X19. [_build_enhanced_indexes] adds to the index by keyword and never
    resets it. With a fallback storage that holds documents, a pass leaves
    the documents, the metadata, the ids and the index by standard as they
    are and appends, to the list of every keyword, the position of every
    chunk that has the keyword among its tags, once for each such tag. A
    second pass appends the same positions again. *)
Theorem X19_keyword_index_appends (a : Agent) (fs : FallbackStorage) :
  fallback_storage a = Some fs ->
  documents fs <> [] ->
  (exists fs',
      fallback_storage (_build_enhanced_indexes a).2 = Some fs'
      /\ documents fs' = documents fs /\ metadatas fs' = metadatas fs
      /\ ids fs' = ids fs /\ standards_index fs' = standards_index fs
      /\ forall kw,
           default [] (keyword_index fs' !! kw)
           = default [] (keyword_index fs !! kw) ++ keyword_positions kw (metadatas fs))
  /\ (exists fs'',
        fallback_storage (_build_enhanced_indexes (_build_enhanced_indexes a).2).2
        = Some fs''
        /\ forall kw,
             default [] (keyword_index fs'' !! kw)
             = default [] (keyword_index fs !! kw)
               ++ keyword_positions kw (metadatas fs)
               ++ keyword_positions kw (metadatas fs)).
Proof.
  intros Hfs Hdocs.
  destruct (build_indexes_storage a fs Hfs Hdocs)
    as (fs' & Hfs' & Hd' & Hm' & Hi' & Hs' & Hk').
  split; [by exists fs'|].
  destruct (build_indexes_storage (_build_enhanced_indexes a).2 fs' Hfs')
    as (fs'' & Hfs'' & _ & _ & _ & _ & Hk''); [by rewrite Hd'|].
  exists fs''. split; [done|]. intros kw.
  by rewrite Hk'', Hk', Hm', <- app_assoc.
Qed.

Lemma X19_keyword_index_appends_witness :
  exists fs'',
    fallback_storage
      (_build_enhanced_indexes
         (_build_enhanced_indexes
            (with_fallback (Some sample_storage) fallback_agent)).2).2 = Some fs''
    /\ forall kw,
         default [] (keyword_index fs'' !! kw)
         = default [] (keyword_index sample_storage !! kw)
           ++ keyword_positions kw (metadatas sample_storage)
           ++ keyword_positions kw (metadatas sample_storage).
Proof.
  destruct (X19_keyword_index_appends (with_fallback (Some sample_storage) fallback_agent)
              sample_storage) as [_ H].
  - reflexivity.
  - vm_compute. discriminate.
  - exact H.
Defined.

(** ** Dicts in the order of insertion *)

Section Dict.
Context {V : Type}.
Implicit Types (d : list (string * V)) (k : string) (v : V).

Lemma dict_has_get k d : dict_has k d = bool_decide (is_Some (dict_get k d)).
Proof.
  induction d as [|[k' v'] d IH]; cbn [dict_has dict_get existsb fst].
  - symmetry. apply bool_decide_eq_false. by intros [? ?].
  - destruct (String.eqb k' k); cbn [orb]; [|apply IH].
    symmetry. apply bool_decide_eq_true. eauto.
Qed.

Lemma dict_get_keys k d : is_Some (dict_get k d) <-> k ∈ map fst d.
Proof.
  induction d as [|[k' v'] d IH]; cbn [dict_get map fst].
  - split; [by intros [? ?] | by intros ?%elem_of_nil].
  - rewrite elem_of_cons. destruct (String.eqb k' k) eqn:Heq.
    + apply String.eqb_eq in Heq. split; [by left | eauto].
    + apply String.eqb_neq in Heq. rewrite IH. split; [by right|]. by intros [->|?].
Qed.

Lemma dict_get_set_eq k v d : dict_get k (dict_set k v d) = Some v.
Proof.
  induction d as [|[k' v'] d IH]; cbn [dict_get dict_set].
  - by rewrite String.eqb_refl.
  - destruct (String.eqb k' k) eqn:Heq; cbn [dict_get]; by rewrite Heq.
Qed.

Lemma dict_get_set_ne k k' v d : k <> k' -> dict_get k' (dict_set k v d) = dict_get k' d.
Proof.
  intros Hne. induction d as [|[k0 v0] d IH]; cbn [dict_get dict_set].
  - apply String.eqb_neq in Hne. by rewrite Hne.
  - destruct (String.eqb k0 k) eqn:Heq; cbn [dict_get]; [|by rewrite IH].
    apply String.eqb_eq in Heq. subst k0. apply String.eqb_neq in Hne.
    by rewrite Hne.
Qed.

Lemma dict_set_keys k v d :
  map fst (dict_set k v d)
  = if bool_decide (k ∈ map fst d) then map fst d else map fst d ++ [k].
Proof.
  induction d as [|[k' v'] d IH]; cbn [dict_set map fst]; [done|].
  destruct (String.eqb k' k) eqn:Heq.
  - apply String.eqb_eq in Heq. subst k'.
    rewrite bool_decide_eq_true_2 by apply list_elem_of_here. done.
  - apply String.eqb_neq in Heq. cbn [map fst]. rewrite IH.
    destruct (bool_decide (k ∈ map fst d)) eqn:Hin.
    + apply bool_decide_eq_true in Hin.
      by rewrite bool_decide_eq_true_2 by (by apply list_elem_of_further).
    + apply bool_decide_eq_false in Hin.
      rewrite bool_decide_eq_false_2; [done|].
      by intros [?|?]%elem_of_cons.
Qed.

Lemma dict_set_NoDup k v d : NoDup (map fst d) -> NoDup (map fst (dict_set k v d)).
Proof.
  intros Hd. rewrite dict_set_keys.
  destruct (bool_decide (k ∈ map fst d)) eqn:Hin; [done|].
  apply bool_decide_eq_false in Hin.
  apply NoDup_app. repeat split; [done| |apply NoDup_singleton].
  by intros x Hx ->%list_elem_of_singleton.
Qed.

(** The sum of a weight over the values. *)
Lemma dict_set_sum (w : V -> nat) k v d :
  list_sum (map (fun kv => w kv.2) (dict_set k v d)) + from_option w 0 (dict_get k d)
  = list_sum (map (fun kv => w kv.2) d) + w v.
Proof.
  induction d as [|[k' v'] d IH]; cbn [dict_set dict_get].
  - simpl. lia.
  - destruct (String.eqb k' k); simpl in *; lia.
Qed.

Lemma dict_get_elem k v d : dict_get k d = Some v -> (k, v) ∈ d.
Proof.
  induction d as [|[k' v'] d IH]; cbn [dict_get]; [done|].
  destruct (String.eqb k' k) eqn:Heq.
  - apply String.eqb_eq in Heq. intros [= ->]. subst. apply list_elem_of_here.
  - intros H. by apply list_elem_of_further, IH.
Qed.

Lemma dict_elem_get k v d : NoDup (map fst d) -> (k, v) ∈ d -> dict_get k d = Some v.
Proof.
  induction d as [|[k' v'] d IH]; cbn [dict_get map fst]; [by intros _ ?%elem_of_nil|].
  intros [Hk Hd]%NoDup_cons [[= -> ->]|Hin]%elem_of_cons.
  - by rewrite String.eqb_refl.
  - destruct (String.eqb k' k) eqn:Heq; [|by apply IH].
    apply String.eqb_eq in Heq. subst k'. exfalso. apply Hk.
    apply list_elem_of_In, in_map_iff. exists (k, v). by rewrite <- list_elem_of_In.
Qed.

End Dict.

(** ** The standards an agent offers *)

Lemma found_fold (d : AvailableStandards) (X : gset string) (s : string) :
  s ∈ fold_left (fun found cs => found ∪ list_to_set (map fst cs.2)) d X
  <-> s ∈ X \/ exists c cs, (c, cs) ∈ d /\ s ∈ map fst cs.
Proof.
  revert X. induction d as [|[c cs] d IH]; intros X; cbn [fold_left].
  - split; [by left|]. intros [?|(? & ? & ?%elem_of_nil & _)]; done.
  - rewrite IH, elem_of_union, elem_of_list_to_set. cbn [snd]. split.
    + intros [[?|?]|(c' & cs' & Hin & ?)]; [by left| |].
      * right. exists c, cs. split; [apply list_elem_of_here | done].
      * right. exists c', cs'. split; [by apply list_elem_of_further | done].
    + intros [?|(c' & cs' & [[= -> ->]|Hin]%elem_of_cons & ?)]; [by left; left| |].
      * by left; right.
      * right. by exists c', cs'.
Qed.

Lemma found_get (d : AvailableStandards) (s : string) :
  NoDup (map fst d) ->
  s ∈ found_standards_of d
  <-> exists c cs, dict_get c d = Some cs /\ s ∈ map fst cs.
Proof.
  intros Hd. unfold found_standards_of. rewrite found_fold. split.
  - intros [?%elem_of_empty|(c & cs & Hin & ?)]; [done|].
    exists c, cs. split; [by apply dict_elem_get | done].
  - intros (c & cs & Hget & ?). right. exists c, cs. split; [by apply dict_get_elem|done].
Qed.

Lemma keys_unique_get (d : AvailableStandards) (c : string) (cs : list (string * Available)) :
  keys_unique d -> dict_get c d = Some cs -> NoDup (map fst cs).
Proof.
  intros [_ Hd] Hget%dict_get_elem. rewrite Forall_forall in Hd. by apply (Hd (c, cs)).
Qed.

Lemma keys_unique_set (d : AvailableStandards) (c : string) (cs : list (string * Available)) :
  keys_unique d -> NoDup (map fst cs) -> keys_unique (dict_set c cs d).
Proof.
  intros [Hk Hd] Hcs. split; [by apply dict_set_NoDup|].
  apply Forall_forall. intros [c' cs'] Hin.
  apply dict_elem_get in Hin; [|by apply dict_set_NoDup]. cbn [snd].
  destruct (decide (c = c')) as [->|Hne].
  - rewrite dict_get_set_eq in Hin. by injection Hin as <-.
  - rewrite dict_get_set_ne in Hin by done. by eapply keys_unique_get.
Qed.

(** What one turn of the loop does to the dict. *)
Lemma available_step_spec (d : AvailableStandards) (metadata : Metadata) :
  keys_unique d ->
  keys_unique (available_step d metadata)
  /\ total_chunk_count (available_step d metadata) = total_chunk_count d + 1
  /\ forall s, s ∈ found_standards_of (available_step d metadata)
               <-> s ∈ found_standards_of d \/ s = get (md_ui_standard metadata) "Unknown".
Proof.
  intros Hd. unfold available_step.
  set (std := get (md_ui_standard metadata) "Unknown").
  set (cat := get (md_category metadata) "Unknown").
  set (e0 := {| available_full_name := _ |}).
  set (d1 := if negb (dict_has cat d) then dict_set cat [] d else d).
  set (oc := default [] (dict_get cat d1)).
  set (oc2 := if negb (dict_has std oc) then dict_set std e0 oc else oc).
  (* the outer dict after the category is made sure of *)
  assert (keys_unique d1 /\ dict_get cat d1 = Some oc
          /\ oc = default [] (dict_get cat d)
          /\ (forall c, c <> cat -> dict_get c d1 = dict_get c d)
          /\ total_chunk_count d1 = total_chunk_count d) as (Hd1 & Hget1 & Hoc & Hne1 & Ht1).
  { unfold oc, d1. rewrite dict_has_get.
    destruct (dict_get cat d) as [cs|] eqn:Hget.
    - rewrite bool_decide_eq_true_2 by eauto. cbn [negb]. by rewrite Hget.
    - rewrite bool_decide_eq_false_2 by (by intros [? ?]). cbn [negb].
      rewrite dict_get_set_eq.
      split; [apply keys_unique_set; [done | constructor]|].
      split; [done|]. split; [done|].
      split; [intros c Hc; by rewrite dict_get_set_ne|].
      pose proof (dict_set_sum inner_count cat [] d) as H. rewrite Hget in H.
        unfold total_chunk_count. unfold inner_count in H. simpl in H. lia. }
  assert (NoDup (map fst oc)) as Hnd by (by eapply keys_unique_get).
  (* the inner dict after the standard is made sure of *)
  assert (NoDup (map fst oc2) /\ inner_count oc2 = inner_count oc
          /\ (exists e, dict_get std oc2 = Some e)
          /\ (forall s, s ∈ map fst oc2 <-> s ∈ map fst oc \/ s = std))
    as (Hnd2 & Hc2 & [e He] & Hk2).
  { unfold oc2. rewrite dict_has_get.
    destruct (dict_get std oc) as [e|] eqn:Hget.
    - rewrite bool_decide_eq_true_2 by eauto. cbn [negb].
      split; [done|]. split; [done|]. split; [eauto|].
      intros s. split; [by left|].
      intros [?| ->]; [done|]. apply dict_get_keys. eauto.
    - rewrite bool_decide_eq_false_2 by (by intros [? ?]). cbn [negb].
      split; [by apply dict_set_NoDup|]. split.
      { pose proof (dict_set_sum chunk_count std e0 oc) as H. rewrite Hget in H.
        unfold inner_count. simpl in H. lia. }
      split; [rewrite dict_get_set_eq; eauto|].
      intros s. rewrite dict_set_keys.
      assert (std ∉ map fst oc) as Hnot.
      { intros Hin%dict_get_keys. rewrite Hget in Hin. by destruct Hin. }
      rewrite bool_decide_eq_false_2 by done.
      rewrite elem_of_app, list_elem_of_singleton. tauto. }
  rewrite He.
  set (e' := {| available_full_name := available_full_name e |}).
  set (oc3 := dict_set std e' oc2).
  assert (NoDup (map fst oc3) /\ inner_count oc3 = inner_count oc + 1
          /\ (forall s, s ∈ map fst oc3 <-> s ∈ map fst oc \/ s = std))
    as (Hnd3 & Hc3 & Hk3).
  { unfold oc3. split; [by apply dict_set_NoDup|]. split.
    - pose proof (dict_set_sum chunk_count std e' oc2) as H. rewrite He in H.
      unfold inner_count in *. simpl in H. lia.
    - intros s. rewrite dict_set_keys, <- Hk2.
      rewrite bool_decide_eq_true_2; [done|]. apply dict_get_keys. eauto. }
  split; [by apply keys_unique_set|]. split.
  - pose proof (dict_set_sum inner_count cat oc3 d1) as H. rewrite Hget1 in H.
    cbn [from_option] in H. unfold total_chunk_count in *.
    fold inner_count in *.
    change (fun cs : string * list (string * Available) =>
              list_sum (map (fun se => chunk_count se.2) cs.2))
      with (fun cs : string * list (string * Available) => inner_count cs.2) in *.
    lia.
  - intros s. rewrite !found_get; [|apply Hd|by apply dict_set_NoDup, Hd1].
    split.
    + intros (c & cs & Hget & Hs).
      destruct (decide (cat = c)) as [<-|Hne].
      * rewrite dict_get_set_eq in Hget. injection Hget as <-.
        apply Hk3 in Hs as [Hs|?]; [|by right]. left.
        rewrite Hoc in Hs. destruct (dict_get cat d) as [cs|] eqn:Hg;
          [|by apply elem_of_nil in Hs].
        by exists cat, cs.
      * rewrite dict_get_set_ne in Hget by done. rewrite Hne1 in Hget by done.
        left. by exists c, cs.
    + intros [(c & cs & Hget & Hs)| ->].
      * destruct (decide (cat = c)) as [<-|Hne].
        -- exists cat, oc3. rewrite dict_get_set_eq. split; [done|].
           apply Hk3. left. by rewrite Hoc, Hget.
        -- exists c, cs. rewrite dict_get_set_ne by done. by rewrite Hne1.
      * exists cat, oc3. rewrite dict_get_set_eq. split; [done|]. apply Hk3. by right.
Qed.

Lemma available_fold_spec (mds : list Metadata) (d : AvailableStandards) :
  keys_unique d ->
  keys_unique (fold_left available_step mds d)
  /\ total_chunk_count (fold_left available_step mds d) = total_chunk_count d + length mds
  /\ forall s, s ∈ found_standards_of (fold_left available_step mds d)
               <-> s ∈ found_standards_of d
                   \/ exists md, md ∈ mds /\ get (md_ui_standard md) "Unknown" = s.
Proof.
  revert d. induction mds as [|md mds IH]; intros d Hd; cbn [fold_left length].
  - split; [done|]. split; [lia|]. intros s. split; [by left|].
    by intros [?|(? & ?%elem_of_nil & _)].
  - destruct (available_step_spec d md Hd) as (Hu & Ht & Hf).
    destruct (IH _ Hu) as (Hu' & Ht' & Hf').
    split; [done|]. split; [lia|]. intros s. rewrite Hf', Hf. split.
    + intros [[?| ->]|(md' & Hin & ?)]; [by left| |].
      * right. exists md. split; [apply list_elem_of_here | done].
      * right. exists md'. split; [by apply list_elem_of_further | done].
    + intros [?|(md' & [->|Hin]%elem_of_cons & Heq)]; [by left; left| |].
      * left. by right.
      * right. by exists md'.
Qed.

Lemma available_standards_spec (mds : list Metadata) :
  keys_unique (available_standards mds)
  /\ total_chunk_count (available_standards mds) = length mds
  /\ forall s, s ∈ found_standards_of (available_standards mds)
               <-> exists md, md ∈ mds /\ get (md_ui_standard md) "Unknown" = s.
Proof.
  destruct (available_fold_spec mds []) as (Hu & Ht & Hf).
  { split; constructor. }
  split; [done|]. split; [done|]. intros s. rewrite (Hf s). split; [|by right].
  by intros [?%elem_of_empty|?].
Qed.

Lemma fallback_backend_load_if_needed {E : Externals} (a : Agent) :
  collection a = None -> collection (_load_standards_if_needed a).2 = None.
Proof.
  apply (frame_load_standards_if_needed (fun b => collection b = None)
           (fun _ _ H => H) (fun _ _ _ H => H) (fun _ H => H)) with (called_for := any_file);
    try done.
  - intros b Hb. unfold _build_enhanced_indexes. by destruct (fallback_storage b).
  - intros category filename ui_standard standard_info page_num i chunk cc b _ _ _ Hb.
    match goal with |- collection (store_chunk ?id ?c ?m ?u ?k b).2 = None =>
      destruct (store_chunk_frame id c m u k b) as (_ & _ & _ & _ & _ & H) end.
    by destruct (H Hb).
Qed.

Lemma get_available_fallback {E : Externals} {G : CollectionGet} (a : Agent) :
  collection a = None ->
  (get_available_standards a).1
  = available_standards (indexed_metadatas (get_available_standards a).2).
Proof.
  intros Hc. unfold get_available_standards, try_except, bind, get_agent, run, ret.
  destruct (negb (_standards_loaded a)).
  - pose proof (fallback_backend_load_if_needed a Hc) as H.
    destruct (_load_standards_if_needed a) as [[] a1]. cbn [snd] in H.
    rewrite H. unfold indexed_metadatas.
    destruct (fallback_storage a1) as [fs|] eqn:Hfs; cbn [fst snd]; by rewrite H, Hfs.
  - rewrite Hc. unfold indexed_metadatas.
    destruct (fallback_storage a) as [fs|] eqn:Hfs; cbn [fst snd]; by rewrite Hc, Hfs.
Qed.

Lemma get_available_keys_unique {E : Externals} {G : CollectionGet} (a : Agent) :
  keys_unique (get_available_standards a).1.
Proof.
  unfold get_available_standards, try_except, bind, get_agent, run, ret, lift.
  assert (keys_unique []) as Hnil by (split; constructor).
  destruct (negb (_standards_loaded a)).
  - destruct (_load_standards_if_needed a) as [[] a1].
    destruct (collection a1) as [coll|].
    + destruct (collection_get coll) as [mds|e]; [apply available_standards_spec | done].
    + destruct (fallback_storage a1); [apply available_standards_spec | done].
  - destruct (collection a) as [coll|].
    + destruct (collection_get coll) as [mds|e]; [apply available_standards_spec | done].
    + destruct (fallback_storage a); [apply available_standards_spec | done].
Qed.

Lemma get_available_found {E : Externals} {G : CollectionGet} (a : Agent) :
  collection a = None ->
  forall s,
    s ∈ found_standards_of (get_available_standards a).1
    <-> exists md, md ∈ indexed_metadatas (get_available_standards a).2
                   /\ get (md_ui_standard md) "Unknown" = s.
Proof.
  intros Hc. rewrite get_available_fallback by done. apply available_standards_spec.
Qed.

(** X20. The dict of [get_available_standards] counts every chunk once. The
    loop puts every metadata under its category and its standard, with no
    key twice, and the chunk counts add up to the number of metadata it
    read. On the fallback backend the dict is the one of the metadata of
    the index as the call leaves it, after the loading the call may do:
    the counts add up to the number of indexed chunks, and a standard is a
    key exactly if a chunk of the index has it as its [ui_standard],
    ["Unknown"] standing for a chunk without one. *)
Theorem X20_available_standards_count {E : Externals} {G : CollectionGet} (a : Agent) :
  (forall mds, total_chunk_count (available_standards mds) = length mds)
  /\ keys_unique (get_available_standards a).1
  /\ (collection a = None ->
      total_chunk_count (get_available_standards a).1
      = length (indexed_metadatas (get_available_standards a).2)
      /\ forall s,
           s ∈ found_standards_of (get_available_standards a).1
           <-> exists md, md ∈ indexed_metadatas (get_available_standards a).2
                          /\ get (md_ui_standard md) "Unknown" = s).
Proof.
  split; [intros; apply available_standards_spec|].
  split; [apply get_available_keys_unique|].
  intros Hc. split; [|by apply get_available_found].
  rewrite get_available_fallback by done. apply available_standards_spec.
Qed.

Lemma X20_available_standards_count_witness :
  total_chunk_count
    (get_available_standards (E:=fallback_env) (G:=sample_get) loaded_agent).1
  = length (indexed_metadatas
              (get_available_standards (E:=fallback_env) (G:=sample_get) loaded_agent).2).
Proof.
  destruct (X20_available_standards_count (E:=fallback_env) (G:=sample_get) loaded_agent)
    as (_ & _ & H).
  destruct H as [H _]; [reflexivity | exact H].
Defined.

(** ** The coordinator's check of a selection *)

Lemma filter_nil_Forall {A} (f : A -> bool) (l : list A) :
  List.filter f l = [] <-> Forall (fun x => f x = false) l.
Proof.
  induction l as [|x l IH]; cbn [List.filter]; [by split|].
  destruct (f x) eqn:Hx.
  - split; [done|]. intros [? _]%Forall_cons. congruence.
  - rewrite IH. split; [by constructor | by intros [_ ?]%Forall_cons].
Qed.

Lemma filter_cons_Exists {A} (f : A -> bool) (l : list A) (x : A) (l' : list A) :
  List.filter f l = x :: l' -> x ∈ l /\ f x = true.
Proof.
  intros H. assert (In x (List.filter f l)) as Hin by (rewrite H; by left).
  apply filter_In in Hin as [Hin ?]. by rewrite <- list_elem_of_In in Hin.
Qed.

(** X21. On the fallback backend the coordinator accepts a selection
    exactly if every selected standard is one of the five it knows and has
    a chunk in the index as the check leaves it, after the loading that
    [get_available_standards] may do. When it rejects a selection the
    list of invalid standards is not empty and names selected standards
    only. *)
Theorem X21_validation_sound_and_complete {E : Externals} {G : CollectionGet}
        (standards : list string) (a : Agent) :
  collection a = None ->
  (valid (validate_standards_selection standards a).1 = true
   <-> forall s, s ∈ standards ->
         s ∈ ["GDPR"; "UU_PDP"; "POJK"; "BSSN"; "NIST"]
         /\ exists md, md ∈ indexed_metadatas (validate_standards_selection standards a).2
                       /\ md_ui_standard md = Some s)
  /\ (valid (validate_standards_selection standards a).1 = false ->
      invalid_standards (validate_standards_selection standards a).1 <> []
      /\ invalid_standards (validate_standards_selection standards a).1 ⊆ standards).
Proof.
  intros Hc. unfold validate_standards_selection.
  destruct (List.filter (fun s => negb (Py.mem s _)) standards) as [|x invalid] eqn:Hinv.
  - apply filter_nil_Forall in Hinv. rewrite Forall_forall in Hinv.
    assert (forall s, s ∈ standards -> s ∈ ["GDPR"; "UU_PDP"; "POJK"; "BSSN"; "NIST"])
      as Hfive.
    { intros s Hs. apply mem_elem_of. apply negb_false_iff. by apply Hinv. }
    pose proof (get_available_found a Hc) as Hfound.
    destruct (get_available_standards a) as [d a1]. cbn [fst snd] in Hfound.
    destruct (List.filter _ standards) as [|y missing] eqn:Hmiss; cbn [fst snd valid
      invalid_standards].
    + split; [|done]. split; [|done]. intros _ s Hs. split; [by apply Hfive|].
      apply filter_nil_Forall in Hmiss. rewrite Forall_forall in Hmiss.
      specialize (Hmiss s Hs). apply negb_false_iff, bool_decide_eq_true in Hmiss.
      apply Hfound in Hmiss as (md & Hin & Hget). exists md. split; [done|].
      destruct (md_ui_standard md) as [u|]; cbn in Hget; [by subst|].
      subst s. specialize (Hfive _ Hs). apply mem_elem_of in Hfive. done.
    + split.
      * split; [done|]. intros Hall. exfalso.
        apply filter_cons_Exists in Hmiss as [Hy Hnot].
        apply negb_true_iff, bool_decide_eq_false in Hnot. apply Hnot, Hfound.
        destruct (Hall y Hy) as [_ (md & Hin & Hui)]. exists md. split; [done|].
        by rewrite Hui.
      * intros _. split; [done|]. rewrite <- Hmiss. intros s Hs.
        apply list_elem_of_In, filter_In in Hs as [Hs _]. by apply list_elem_of_In.
  - cbn [fst snd valid invalid_standards]. split.
    + split; [done|]. intros Hall. exfalso.
      apply filter_cons_Exists in Hinv as [Hx Hnot].
      apply negb_true_iff in Hnot. destruct (Hall x Hx) as [Hfive%mem_elem_of _].
      congruence.
    + intros _. split; [done|]. rewrite <- Hinv. intros s Hs.
      apply list_elem_of_In, filter_In in Hs as [Hs _]. by apply list_elem_of_In.
Qed.

Lemma X21_validation_sound_and_complete_witness :
  valid (validate_standards_selection (E:=fallback_env) (G:=sample_get)
           ["GDPR"] loaded_agent).1 = true.
Proof.
  destruct (X21_validation_sound_and_complete (E:=fallback_env) (G:=sample_get)
              ["GDPR"] loaded_agent) as [[_ H] _]; [reflexivity|].
  apply H. intros s ->%list_elem_of_singleton.
  split; [apply mem_elem_of; reflexivity|].
  eexists. split.
  - vm_compute. apply list_elem_of_here.
  - reflexivity.
Defined.

(** ** The log and the health of an agent *)

Lemma log_action_log (act : string) (a : Agent) :
  activity_log (log_action act a)
  = last_entries 100 (activity_log a ++ [{| action := act; log_status := status a |}]).
Proof.
  unfold log_action, last_entries. cbn [activity_log with_log].
  destruct (Nat.ltb_spec 100 (length (activity_log a ++ [{| action := act;
                                                            log_status := status a |}])))
    as [Hlt|Hge]; [done|].
  replace (_ - 100) with 0 by lia. done.
Qed.

Lemma last_entries_snoc {A} (n : nat) (l : list A) (x : A) :
  0 < n -> exists l', last_entries n (l ++ [x]) = l' ++ [x] /\ length l' <= length l.
Proof.
  intros Hn. unfold last_entries. rewrite length_app. cbn [length].
  exists (drop (length l + 1 - n) l). split.
  - rewrite drop_app_le by lia. done.
  - rewrite length_drop. lia.
Qed.

Lemma last_entries_length {A} (n : nat) (l : list A) : length (last_entries n l) <= n.
Proof. unfold last_entries. rewrite length_drop. lia. Qed.

Lemma last_entries_suffix {A} (n : nat) (l k : list A) :
  length k <= n -> exists l', last_entries n (l ++ k) = l' ++ k.
Proof.
  intros Hk. unfold last_entries. rewrite length_app.
  exists (drop (length l + length k - n) l). rewrite drop_app_le by lia. done.
Qed.

Lemma reset_log (a : Agent) :
  exists l, activity_log (reset_error_count a)
            = l ++ [{| action := "Error count reset"; log_status := status a |}]
            /\ status (reset_error_count a) = status a.
Proof.
  unfold reset_error_count. rewrite log_action_log.
  destruct (last_entries_snoc 100 (activity_log (with_status (status a) 0 a))
              {| action := "Error count reset";
                 log_status := status (with_status (status a) 0 a) |})
    as (l & Hl & _); [lia|].
  exists l. by rewrite Hl.
Qed.

Lemma log_action_append (act : string) (a : Agent) (k : list LogEntry) (l : list LogEntry) :
  activity_log a = l ++ k -> length k < 100 ->
  exists l', activity_log (log_action act a)
             = l' ++ k ++ [{| action := act; log_status := status a |}].
Proof.
  intros Hlog Hk. rewrite log_action_log, Hlog, <- app_assoc.
  apply last_entries_suffix. rewrite length_app. simpl. lia.
Qed.

Lemma reset_append (a : Agent) (k l : list LogEntry) :
  activity_log a = l ++ k -> length k < 100 ->
  exists l', activity_log (reset_error_count a)
             = l' ++ k ++ [{| action := "Error count reset"; log_status := status a |}].
Proof.
  intros Hlog Hk. unfold reset_error_count.
  by apply (log_action_append _ (with_status (status a) 0 a) k l).
Qed.

Lemma errors_at_end_unhealthy (a : Agent) (l k : list LogEntry) :
  activity_log a = l ++ k ->
  length k <= 20 ->
  5 <= length (List.filter is_error_entry k) ->
  is_healthy a = false.
Proof.
  intros Hlog Hk Herr. unfold is_healthy. rewrite Hlog.
  destruct (last_entries_suffix 20 l k Hk) as [l' ->].
  rewrite List.filter_app, length_app.
  apply andb_false_iff. left. apply Nat.ltb_ge. lia.
Qed.

(** X22. The log and the health check of [BaseAgent]. [log_action] leaves at
    most 100 entries in the log, the last of which is the new one with the
    status at the time of the call, and so does [process], whose last entry
    tells how it ended. An agent whose [process] was left by an exception
    is not healthy afterwards. And [reset_error_count] writes a log entry
    whose action contains the word "error", which [is_healthy] counts:
    after five calls in a row the agent is not healthy, whatever state it
    was in, although its count of errors is 0. *)
Theorem X22_log_and_health {E : Externals} :
  (forall act a,
      length (activity_log (log_action act a)) <= 100
      /\ last (activity_log (log_action act a))
         = Some {| action := act; log_status := status a |})
  /\ (forall query top_k selected_standards a,
        length (activity_log (process query top_k selected_standards a).2) <= 100
        /\ exists entry,
             last (activity_log (process query top_k selected_standards a).2) = Some entry
             /\ (action entry = "Enhanced retrieval completed"
                 \/ action entry = "Enhanced retrieval error"))
  /\ (forall query top_k selected_standards a e a1,
        process_body query top_k selected_standards
          (log_action "Enhanced retrieval process started" (set_status "retrieving" a))
        = (Raise e, a1) ->
        is_healthy (process query top_k selected_standards a).2 = false)
  /\ (forall a,
        let a5 := reset_error_count (reset_error_count (reset_error_count
                    (reset_error_count (reset_error_count a)))) in
        error_count a5 = 0 /\ status a5 = status a /\ is_healthy a5 = false).
Proof.
  assert (forall act a,
            length (activity_log (log_action act a)) <= 100
            /\ last (activity_log (log_action act a))
               = Some {| action := act; log_status := status a |}) as Hlog.
  { intros act a. rewrite log_action_log. split; [apply last_entries_length|].
    destruct (last_entries_snoc 100 (activity_log a)
                {| action := act; log_status := status a |}) as (l & -> & _); [lia|].
    apply last_snoc. }
  split; [done|]. split; [|split].
  - intros query top_k selected_standards a. unfold process, try_except.
    destruct (process_body query top_k selected_standards _) as [[r|e] a1] eqn:Hb.
    + unfold process_body in Hb.
      apply bind_Ok in Hb as (_ & a2 & _ & Hb).
      apply bind_Ok in Hb as (? & a3 & _ & Hb).
      apply bind_Ok in Hb as (_ & a4 & _ & Hb).
      apply bind_Ok in Hb as (? & a5 & _ & Hb).
      apply bind_Ok in Hb as (result & a6 & _ & Hb).
      apply bind_Ok in Hb as (_ & a7 & _ & Hb).
      apply bind_Ok in Hb as (_ & a8 & ->%exec_Ok & Hb).
      apply ret_Ok in Hb as [-> ->]. cbn [snd].
      destruct (Hlog "Enhanced retrieval completed" a7) as [? Hlast].
      split; [done|]. eexists. split; [exact Hlast|]. by left.
    + cbn [snd].
      destruct (Hlog "Enhanced retrieval error" (set_status "error" a1)) as [? Hlast].
      split; [done|]. eexists. split; [exact Hlast|]. by right.
  - intros query top_k selected_standards a e a1 Hb.
    unfold process, try_except. rewrite Hb. cbn [snd].
    unfold is_healthy. apply andb_false_iff. by right.
  - intros a. cbv zeta.
    destruct (reset_log a) as (l1 & H1 & Hs1).
    destruct (reset_append (reset_error_count a) _ l1 H1) as (l2 & H2); [simpl; lia|].
    assert (status (reset_error_count (reset_error_count a)) = status a) as Hs2.
    { destruct (reset_log (reset_error_count a)) as (_ & _ & ->). done. }
    destruct (reset_append (reset_error_count (reset_error_count a)) _ l2 H2)
      as (l3 & H3); [simpl; lia|].
    assert (status (reset_error_count (reset_error_count (reset_error_count a)))
            = status a) as Hs3.
    { destruct (reset_log (reset_error_count (reset_error_count a))) as (_ & _ & ->).
      done. }
    destruct (reset_append _ _ l3 H3) as (l4 & H4); [simpl; lia|].
    assert (status (reset_error_count (reset_error_count (reset_error_count
                      (reset_error_count a)))) = status a) as Hs4.
    { destruct (reset_log (reset_error_count (reset_error_count (reset_error_count a))))
        as (_ & _ & ->). done. }
    destruct (reset_append _ _ l4 H4) as (l5 & H5); [simpl; lia|].
    split; [done|]. split.
    { destruct (reset_log (reset_error_count (reset_error_count (reset_error_count
                             (reset_error_count a))))) as (_ & _ & ->). done. }
    eapply errors_at_end_unhealthy; [exact H5| |]; simpl; lia.
Qed.

Lemma X22_log_and_health_witness :
  is_healthy (process (E:=faulty_env) "data consent" 5 None primary_agent).2 = false.
Proof.
  destruct (X22_log_and_health (E:=faulty_env)) as (_ & _ & H & _).
  apply (H "data consent" 5%Z None primary_agent "out of memory"
           (log_action "Enhanced retrieval process started"
              (set_status "retrieving" primary_agent))).
  vm_compute. reflexivity.
Defined.

(** ** Chunks of word windows *)

Lemma split_aux_is_word (s : string) :
  all_chars not_space (Py.split_aux s).1 = true /\ Forall is_word (Py.split_aux s).2.
Proof.
  induction s as [|a s [IHw IHws]]; cbn [Py.split_aux]; [by split|].
  destruct (Py.split_aux s) as [w ws]. cbn [fst snd] in *.
  destruct (Py.isspace a) eqn:Ha; cbn [fst snd].
  - split; [done|]. destruct w; cbn [Py.is_empty]; [done|].
    constructor; [|done]. by split.
  - split; [|done]. cbn [all_chars]. unfold not_space at 1. by rewrite Ha, IHw.
Qed.

Lemma split_is_word (s : string) : Forall is_word (Py.split s).
Proof.
  unfold Py.split. pose proof (split_aux_is_word s) as [Hw Hws].
  destruct (Py.split_aux s) as [w ws]. cbn [fst snd] in *.
  destruct w; cbn [Py.is_empty]; [done|]. constructor; [|done]. by split.
Qed.

Lemma split_aux_word (w : string) :
  all_chars not_space w = true -> Py.split_aux w = (w, []).
Proof.
  induction w as [|a w IH]; [done|]. cbn [all_chars].
  intros [Ha Hw]%andb_true_iff. cbn [Py.split_aux]. rewrite IH by done.
  unfold not_space in Ha. apply negb_true_iff in Ha. by rewrite Ha.
Qed.

Lemma split_word (w : string) : is_word w -> Py.split w = [w].
Proof.
  intros [Hne Hw]. unfold Py.split. rewrite split_aux_word by done. by destruct w.
Qed.

Lemma split_join_words (ws : list string) :
  Forall is_word ws -> Py.split (Py.join " " ws) = ws.
Proof.
  induction 1 as [|w ws Hw Hws IH]; [done|].
  destruct ws as [|w' ws].
  - cbn [Py.join]. by apply split_word.
  - change (Py.join " " (w :: w' :: ws)) with (w +:+ " " +:+ Py.join " " (w' :: ws)).
    rewrite split_append_space, IH. by rewrite split_word.
Qed.

(** The windows are made of words of the text, in their order. *)
Lemma word_windows_sublist (fuel step : nat) (words : list string) :
  0 < step ->
  Forall is_word words ->
  concat (map Py.split (word_windows fuel step words)) `sublist_of` words
  /\ Forall (fun c => 50 < String.length (Py.strip c)
                      /\ 0 < length (Py.split c) <= step)
            (word_windows fuel step words).
Proof.
  intros Hstep. revert words. induction fuel as [|fuel IH]; intros words Hwords.
  - cbn [word_windows]. split; [apply sublist_nil_l | done].
  - destruct words as [|w words];
      [simpl; split; [apply sublist_nil_l | constructor]|].
    cbn [word_windows].
    assert (Forall is_word (take step (w :: words))) as Htake by (by apply Forall_take).
    assert (Forall is_word (drop step (w :: words))) as Hdrop by (by apply Forall_drop).
    destruct (IH _ Hdrop) as [IHs IHf].
    assert (take step (w :: words) ++ drop step (w :: words) = w :: words) as Htd
      by apply take_drop.
    destruct (50 <? String.length (Py.strip (Py.join " " (take step (w :: words)))))
      eqn:Hlen.
    + cbn [app map concat]. rewrite (split_join_words _ Htake). split.
      * pose proof (sublist_app _ _ _ _ (reflexivity (take step (w :: words))) IHs) as H.
        by rewrite Htd in H.
      * constructor; [|done]. apply Nat.ltb_lt in Hlen. split; [done|].
        rewrite (split_join_words _ Htake). rewrite length_take.
        destruct step; [lia|]. simpl. lia.
    + cbn [app]. split; [|done].
      pose proof (sublist_inserts_l (take step (w :: words)) _ _ IHs) as H.
      by rewrite Htd in H.
Qed.

(** X23. The chunks of word windows. When [_create_smart_chunks] falls back
    to word windows and the target size is 8 or more, it returns chunks
    that each have more than 50 characters without the white space at the
    ends and at least one and at most [chunk_size // 8] words, and the
    words of the chunks, in their order, are words of the text in the same
    order: a window is dropped whole or kept whole, and no word is
    invented or moved. With a target size below 8 it raises the ValueError
    of [range]. With the target size 600 that the loader uses it never
    raises. *)
Theorem X23_word_window_chunks (text : string) (standard_info : StandardInfo)
        (chunk_size : nat) :
  (needs_word_chunking (paragraph_chunks text chunk_size) chunk_size = true ->
   (8 <= chunk_size ->
    exists chunks,
      _create_smart_chunks text standard_info chunk_size = Ok chunks
      /\ Forall (fun c => 50 < String.length (Py.strip c)
                          /\ 0 < length (Py.split c) <= chunk_size / 8) chunks
      /\ concat (map Py.split chunks) `sublist_of` Py.split text)
   /\ (chunk_size < 8 ->
       _create_smart_chunks text standard_info chunk_size
       = Raise "range() arg 3 must not be zero"))
  /\ exists chunks, _create_smart_chunks text standard_info 600 = Ok chunks.
Proof.
  split.
  - intros Hneeds. unfold _create_smart_chunks. rewrite Hneeds. split.
    + intros Hsize.
      assert (0 < chunk_size / 8) as Hstep.
      { apply Nat.div_str_pos. lia. }
      destruct (Nat.eqb_spec (chunk_size / 8) 0) as [?|_]; [lia|].
      destruct (word_windows_sublist (length (Py.split text)) (chunk_size / 8)
                  (Py.split text) Hstep (split_is_word text)) as [Hs Hf].
      eexists. split; [reflexivity|]. by split.
    + intros Hsize. rewrite Nat.div_small by done. done.
  - unfold _create_smart_chunks. destruct (needs_word_chunking _ _); eauto.
Qed.

Lemma X23_word_window_chunks_witness :
  exists chunks,
    _create_smart_chunks (page_two +:+ " " +:+ page_three) (unknown_info "GDPR.pdf") 100
    = Ok chunks
    /\ Forall (fun c => 50 < String.length (Py.strip c)
                        /\ 0 < length (Py.split c) <= 100 / 8) chunks
    /\ concat (map Py.split chunks) `sublist_of` Py.split (page_two +:+ " " +:+ page_three).
Proof.
  destruct (X23_word_window_chunks (page_two +:+ " " +:+ page_three)
              (unknown_info "GDPR.pdf") 100) as [H _].
  destruct H as [H _]; [vm_compute; reflexivity|].
  apply H. lia.
Defined.

(** ** The backend of an agent *)

Lemma on_backend_store {E : Externals} (b : bool) :
  forall category filename ui_standard standard_info page_num i chunk cc a,
    any_file category filename ui_standard standard_info ->
    page_num < 15 ->
    (50 <? String.length (Py.strip chunk)) = true ->
    on_backend b a ->
    on_backend b
      (store_chunk (make_chunk_id filename page_num i (instance_id a)) chunk
         (make_metadata chunk category filename ui_standard standard_info page_num i)
         ui_standard cc a).2.
Proof.
  intros category filename ui_standard standard_info page_num i chunk cc a _ _ _ Ha.
  unfold on_backend in *.
  match goal with |- bool_decide (collection (store_chunk ?id ?c ?m ?u ?k a).2 = None) = b =>
    destruct (store_chunk_frame id c m u k a) as (_ & _ & _ & _ & Hsome & Hnone) end.
  destruct (collection a) as [coll|] eqn:Hc.
  - destruct Hsome as [Hsome _]; [done|].
    rewrite bool_decide_eq_false_2 in Ha by done.
    by rewrite bool_decide_eq_false_2.
  - destruct Hnone as [-> _]; done.
Qed.

Lemma on_backend_build (b : bool) : keepsM (on_backend b) _build_enhanced_indexes.
Proof.
  intros a Ha. unfold _build_enhanced_indexes. by destruct (fallback_storage a).
Qed.

Lemma on_backend_process {E : Externals} (b : bool) query top_k selected_standards a :
  on_backend b a -> on_backend b (process query top_k selected_standards a).2.
Proof.
  apply (frame_process (on_backend b) (fun _ _ H => H) (fun _ _ _ H => H) (fun _ H => H)
           (on_backend_build b) any_file (on_backend_store b)); done.
Qed.

Lemma on_backend_load_selected {E : Externals} (b : bool) selected_standards a :
  on_backend b a -> on_backend b (load_selected_standards selected_standards a).2.
Proof.
  apply (frame_load_selected_standards (on_backend b) (fun _ _ H => H)
           (fun _ _ _ H => H) (fun _ H => H) (on_backend_build b) any_file
           (on_backend_store b)); done.
Qed.

Lemma on_backend_load_directory {E : Externals} (b : bool) standards_dir a :
  on_backend b a -> on_backend b (load_standards_from_directory standards_dir a).2.
Proof.
  apply (frame_load_standards_from_directory (on_backend b) (fun _ _ H => H)
           (fun _ _ _ H => H) (fun _ H => H) (on_backend_build b) any_file
           (on_backend_store b)); done.
Qed.

(** X24. An agent never changes its backend after its constructor. After a
    call of [process], of [load_selected_standards] or of
    [load_standards_from_directory] the agent has a collection exactly if
    it had one before: an agent on the fallback storage stays there, and an
    agent on ChromaDB keeps its collection also when the embedding or the
    query of the collection fails and the fallback search answers. *)
Theorem X24_backend_is_fixed {E : Externals} (a : Agent) :
  (forall query top_k selected_standards,
      collection (process query top_k selected_standards a).2 = None
      <-> collection a = None)
  /\ (forall selected_standards,
        collection (load_selected_standards selected_standards a).2 = None
        <-> collection a = None)
  /\ (forall standards_dir,
        collection (load_standards_from_directory standards_dir a).2 = None
        <-> collection a = None).
Proof.
  assert (forall a' : Agent,
            bool_decide (collection a' = None) = bool_decide (collection a = None) ->
            collection a' = None <-> collection a = None) as Hiff.
  { intros a' H. by rewrite <- (bool_decide_spec (collection a' = None)), H,
      bool_decide_spec. }
  split; [|split]; intros; apply Hiff.
  - by apply (on_backend_process (bool_decide (collection a = None))).
  - by apply (on_backend_load_selected (bool_decide (collection a = None))).
  - by apply (on_backend_load_directory (bool_decide (collection a = None))).
Qed.
